(** * Delsys EMG acquisition: handler and recording session

    A shallow embedding of [delsys_handler.py] (class [DelsysDataHandler]) and
    of the recording logic of [app.py] ([generate_timestamps],
    [stop_delsys_recording]), with the properties the specification states
    about them.

    Conventions.
    - A Python [float] / NumPy [float64] is a primitive binary64 [float].
    - Python exceptions are values of [exn]; a computation that may raise and
      that mutates an object runs in the monad [M], which keeps the state
      reached when the exception was raised (as Python does).
    - [scipy.signal] is an external library: its three entry points used by
      the handler are the operations of the class [SciPy], and the documented
      facts about them that the proofs need are the class [SciPyLaws]. *)

From Stdlib Require Import Floats ZArith String Ascii List Bool Arith Lia.
From Stdlib Require Import DecimalString.
Import ListNotations.

Set Implicit Arguments.

(* ================================================================= *)
(** ** Python values: exceptions, results, the state-and-exception monad *)

Inductive exn : Type :=
| ValueError | IndexError | OverflowError | UnicodeDecodeError
| SocketTimeout | SocketError | QueueFull | QueueEmpty | IOError.

Inductive result (A : Type) : Type :=
| Ok (x : A)
| Raise (e : exn).
Arguments Ok {A} x.
Arguments Raise {A} e.

(** A method body: it reads and mutates [self] (or the module's globals) and
    either returns or raises; the state survives an exception. *)
Definition M (S A : Type) : Type := S -> result A * S.

Definition ret {S A} (x : A) : M S A := fun s => (Ok x, s).
Definition raise {S A} (e : exn) : M S A := fun s => (Raise e, s).
Definition bind {S A B} (c : M S A) (k : A -> M S B) : M S B :=
  fun s => match c s with
           | (Ok x, s') => k x s'
           | (Raise e, s') => (Raise e, s')
           end.
Definition get {S} : M S S := fun s => (Ok s, s).
Definition modify {S} (f : S -> S) : M S unit := fun s => (Ok tt, f s).
Definition lift {S A} (r : result A) : M S A := fun s => (r, s).

(** [try: c  except Exception as e: h e] *)
Definition try_except {S A} (c : M S A) (h : exn -> M S A) : M S A :=
  fun s => match c s with
           | (Ok x, s') => (Ok x, s')
           | (Raise e, s') => h e s'
           end.

Declare Scope py_scope.
Delimit Scope py_scope with py.
Notation "x <- c ;; k" := (bind c (fun x => k))
  (at level 100, c at next level, right associativity) : py_scope.
Notation "c ;;; k" := (bind c (fun _ => k))
  (at level 100, right associativity) : py_scope.
Open Scope py_scope.

(** [for x in l: body x] *)
Fixpoint for_each {S X} (l : list X) (body : X -> M S unit) : M S unit :=
  match l with
  | [] => ret tt
  | x :: t => body x ;;; for_each t body
  end.

(* ================================================================= *)
(** ** Python containers *)

(** The last [n] elements of a list ([l[-n:]] for [n > 0]). *)
Definition lastn {A} (n : nat) (l : list A) : list A :=
  skipn (length l - n) l.

(** [l[k::step]], written with the number [k] of elements still to skip
    before the next one is taken.  Python refuses [step = 0]; the handler
    only slices inside [for channel in range(NUM_SENSORS)], whose body does
    not run when [NUM_SENSORS = 0]. *)
Fixpoint take_every {A} (step k : nat) (l : list A) : list A :=
  match l with
  | [] => []
  | x :: t =>
      match k with
      | 0 => x :: take_every step (step - 1) t
      | S k' => take_every step k' t
      end
  end.

Definition slice_from_step {A} (start step : nat) (l : list A) : list A :=
  take_every step start l.

(** [collections.deque(maxlen=n)] *)
Record deque (A : Type) : Type := Deque { maxlen : nat; items : list A }.
Arguments Deque {A} maxlen items.

Definition deque_new {A} (n : nat) : deque A := Deque n [].

(** [d.append(x)]: on a full deque the leftmost element is discarded. *)
Definition deque_append {A} (d : deque A) (x : A) : deque A :=
  if maxlen d =? 0 then d
  else if maxlen d <=? length (items d)
       then Deque (maxlen d) (tl (items d) ++ [x])
       else Deque (maxlen d) (items d ++ [x]).

(** [d.extend(xs)]: appends the elements one by one, from the left of [xs]. *)
Definition deque_extend {A} (d : deque A) (xs : list A) : deque A :=
  fold_left deque_append xs d.

Definition deque_clear {A} (d : deque A) : deque A := Deque (maxlen d) [].

(** [queue.Queue(maxsize=n)], seen by one thread. *)
Record Queue (A : Type) : Type := MkQueue { maxsize : nat; qitems : list A }.
Arguments MkQueue {A} maxsize qitems.

Definition qsize {A} (q : Queue A) : nat := length (qitems q).

(** [q.put_nowait(x)]: raises [queue.Full] when [0 < maxsize <= qsize]. *)
Definition put_nowait {A} (q : Queue A) (x : A) : result (Queue A) :=
  if (0 <? maxsize q) && (maxsize q <=? qsize q)
  then Raise QueueFull
  else Ok (MkQueue (maxsize q) (qitems q ++ [x])).

(** [q.get_nowait()]: raises [queue.Empty] on an empty queue. *)
Definition get_nowait {A} (q : Queue A) : result (A * Queue A) :=
  match qitems q with
  | [] => Raise QueueEmpty
  | x :: t => Ok (x, MkQueue (maxsize q) t)
  end.

(** Substring test [needle in s]. *)
Fixpoint contains (needle s : string) : bool :=
  String.prefix needle s ||
  match s with
  | EmptyString => false
  | String _ s' => contains needle s'
  end.

(** [str.isspace] on the code points below 256. *)
Definition is_space (c : ascii) : bool :=
  let n := nat_of_ascii c in
  ((9 <=? n) && (n <=? 13)) || ((28 <=? n) && (n <=? 32))
  || (n =? 133) || (n =? 160).

Fixpoint lstrip (s : string) : string :=
  match s with
  | String c s' => if is_space c then lstrip s' else s
  | EmptyString => EmptyString
  end.

(** [rstrip] keeps a character when it is not a space or when something
    that is kept follows it. *)
Fixpoint rstrip (s : string) : string :=
  match s with
  | EmptyString => EmptyString
  | String c s' =>
      match rstrip s' with
      | EmptyString => if is_space c then EmptyString else String c EmptyString
      | r => String c r
      end
  end.

(** [s.strip()] *)
Definition strip (s : string) : string := rstrip (lstrip s).

(** [l[i]] for [0 <= i]: [IndexError] out of range. *)
Definition index {A} (l : list A) (i : nat) : result A :=
  match nth_error l i with
  | Some x => Ok x
  | None => Raise IndexError
  end.

(** [l[i] = x] on a list that has index [i]. *)
Fixpoint list_set {A} (l : list A) (i : nat) (x : A) : list A :=
  match l, i with
  | [], _ => []
  | _ :: t, 0 => x :: t
  | y :: t, S i' => y :: list_set t i' x
  end.

(** [int(x)] on a float: truncation toward zero; [ValueError] on a NaN and
    [OverflowError] on an infinity. *)
Definition int_of_float (x : float) : result Z :=
  match Prim2SF x with
  | S754_nan => Raise ValueError
  | S754_infinity _ => Raise OverflowError
  | S754_zero _ => Ok 0%Z
  | S754_finite s m e =>
      let v := if (0 <=? e)%Z then (Zpos m * 2 ^ e)%Z
               else (Zpos m / 2 ^ (- e))%Z in
      Ok (if s then (- v)%Z else v)
  end.

(** [np.arange(n)] converted to float64, as the division by a float does. *)
Definition float_of_nat (i : nat) : float :=
  PrimFloat.of_uint63 (Uint63.of_Z (Z.of_nat i)).

(* ================================================================= *)
(** ** scipy.signal, as the handler uses it *)

(** A [(b, a)] pair of filter coefficients. *)
Record Coeffs : Type := MkCoeffs { b_ : list float; a_ : list float }.

Inductive btype : Type := high | low | band.

(** [butter(N, Wn, btype=...)], [iirnotch(w0, Q)] and [filtfilt(b, a, x)]
    with their default arguments; each may raise. *)
Class SciPy : Type := {
  butter : nat -> list float -> btype -> result Coeffs;
  iirnotch : float -> float -> result Coeffs;
  filtfilt : list float -> list float -> list float -> result (list float)
}.

(** [filtfilt]'s default [padlen]. *)
Definition padlen (b a : list float) : nat := 3 * Nat.max (length a) (length b).

(** A digital critical frequency is valid when [0 < w < 1]. *)
Definition critical (w : float) : bool := ((0 <? w) && (w <? 1))%float.

Definition valid_Wn (bt : btype) (Wn : list float) : bool :=
  match bt, Wn with
  | band, [w1; w2] => critical w1 && critical w2 && (w1 <? w2)%float
  | band, _ => false
  | _, [w] => critical w
  | _, _ => false
  end.

(** The number of coefficients of an order-[n] Butterworth design. *)
Definition butter_taps (n : nat) (bt : btype) : nat :=
  match bt with band => 2 * n + 1 | _ => n + 1 end.

(** A coefficient pair that one of the two design functions returned. *)
Definition designed `{SciPy} (c : Coeffs) : Prop :=
  (exists n Wn bt, butter n Wn bt = Ok c) \/ (exists w0 Q, iirnotch w0 Q = Ok c).

(** What scipy documents and the handler relies on. *)
Class SciPyLaws (L : SciPy) : Prop := {
  butter_returns : forall n Wn bt,
    0 < n -> valid_Wn bt Wn = true -> exists c, butter n Wn bt = Ok c;
  butter_size : forall n Wn bt c,
    butter n Wn bt = Ok c ->
    length (b_ c) = butter_taps n bt /\ length (a_ c) = butter_taps n bt;
  iirnotch_returns : forall w0 Q,
    critical w0 = true -> exists c, iirnotch w0 Q = Ok c;
  iirnotch_size : forall w0 Q c,
    iirnotch w0 Q = Ok c -> length (b_ c) = 3 /\ length (a_ c) = 3;
  (** the input must be longer than [padlen], else [ValueError] *)
  filtfilt_short : forall b a x,
    length x <= padlen b a -> filtfilt b a x = Raise ValueError;
  filtfilt_returns : forall c x,
    designed c -> padlen (b_ c) (a_ c) < length x ->
    exists y, filtfilt (b_ c) (a_ c) x = Ok y;
  (** the output has the shape of the input *)
  filtfilt_shape : forall b a x y,
    filtfilt b a x = Ok y -> length y = length x
}.

(* ================================================================= *)
(** ** delsys_handler.py: class DelsysDataHandler *)

Module Handler.

(** The dict put on the output queue. *)
Record output_data : Type := MkOutput {
  channel : nat;
  muscle_label : string;
  samples : list float
}.

(** The attributes of a handler.  [filter_passes] is a ghost attribute: the
    log of the calls [process_emg_channel(accumulated_data)] made by
    [_process_raw_data], oldest first, as (channel, array handed over). *)
Record DelsysDataHandler : Type := MkHandler {
  NUM_SENSORS : nat;
  envelope : bool;
  SAMPLING_RATE : float;
  muscle_labels : list string;
  output_queue : Queue output_data;
  ACCUMULATION_SIZE : nat;
  emg_processing_buffers : list (deque float);
  streaming : bool;
  rate_adjusted_bytes : nat;
  hp : Coeffs;      (* hp_b, hp_a *)
  notch : Coeffs;   (* notch_b, notch_a *)
  bp : Coeffs;      (* bp_b, bp_a *)
  lp : Coeffs;      (* lp_b, lp_a *)
  filter_passes : list (nat * list float)
}.

Definition set_SAMPLING_RATE (v : float) (h : DelsysDataHandler) :=
  MkHandler (NUM_SENSORS h) (envelope h) v (muscle_labels h) (output_queue h)
    (ACCUMULATION_SIZE h) (emg_processing_buffers h) (streaming h)
    (rate_adjusted_bytes h) (hp h) (notch h) (bp h) (lp h) (filter_passes h).
Definition set_output_queue (v : Queue output_data) (h : DelsysDataHandler) :=
  MkHandler (NUM_SENSORS h) (envelope h) (SAMPLING_RATE h) (muscle_labels h) v
    (ACCUMULATION_SIZE h) (emg_processing_buffers h) (streaming h)
    (rate_adjusted_bytes h) (hp h) (notch h) (bp h) (lp h) (filter_passes h).
Definition set_ACCUMULATION_SIZE (v : nat) (h : DelsysDataHandler) :=
  MkHandler (NUM_SENSORS h) (envelope h) (SAMPLING_RATE h) (muscle_labels h)
    (output_queue h) v (emg_processing_buffers h) (streaming h)
    (rate_adjusted_bytes h) (hp h) (notch h) (bp h) (lp h) (filter_passes h).
Definition set_emg_processing_buffers (v : list (deque float)) (h : DelsysDataHandler) :=
  MkHandler (NUM_SENSORS h) (envelope h) (SAMPLING_RATE h) (muscle_labels h)
    (output_queue h) (ACCUMULATION_SIZE h) v (streaming h)
    (rate_adjusted_bytes h) (hp h) (notch h) (bp h) (lp h) (filter_passes h).
Definition set_streaming (v : bool) (h : DelsysDataHandler) :=
  MkHandler (NUM_SENSORS h) (envelope h) (SAMPLING_RATE h) (muscle_labels h)
    (output_queue h) (ACCUMULATION_SIZE h) (emg_processing_buffers h) v
    (rate_adjusted_bytes h) (hp h) (notch h) (bp h) (lp h) (filter_passes h).
Definition set_rate_adjusted_bytes (v : nat) (h : DelsysDataHandler) :=
  MkHandler (NUM_SENSORS h) (envelope h) (SAMPLING_RATE h) (muscle_labels h)
    (output_queue h) (ACCUMULATION_SIZE h) (emg_processing_buffers h) (streaming h)
    v (hp h) (notch h) (bp h) (lp h) (filter_passes h).
Definition set_hp (v : Coeffs) (h : DelsysDataHandler) :=
  MkHandler (NUM_SENSORS h) (envelope h) (SAMPLING_RATE h) (muscle_labels h)
    (output_queue h) (ACCUMULATION_SIZE h) (emg_processing_buffers h) (streaming h)
    (rate_adjusted_bytes h) v (notch h) (bp h) (lp h) (filter_passes h).
Definition set_notch (v : Coeffs) (h : DelsysDataHandler) :=
  MkHandler (NUM_SENSORS h) (envelope h) (SAMPLING_RATE h) (muscle_labels h)
    (output_queue h) (ACCUMULATION_SIZE h) (emg_processing_buffers h) (streaming h)
    (rate_adjusted_bytes h) (hp h) v (bp h) (lp h) (filter_passes h).
Definition set_bp (v : Coeffs) (h : DelsysDataHandler) :=
  MkHandler (NUM_SENSORS h) (envelope h) (SAMPLING_RATE h) (muscle_labels h)
    (output_queue h) (ACCUMULATION_SIZE h) (emg_processing_buffers h) (streaming h)
    (rate_adjusted_bytes h) (hp h) (notch h) v (lp h) (filter_passes h).
Definition set_lp (v : Coeffs) (h : DelsysDataHandler) :=
  MkHandler (NUM_SENSORS h) (envelope h) (SAMPLING_RATE h) (muscle_labels h)
    (output_queue h) (ACCUMULATION_SIZE h) (emg_processing_buffers h) (streaming h)
    (rate_adjusted_bytes h) (hp h) (notch h) (bp h) v (filter_passes h).
Definition log_filter_pass (ch : nat) (x : list float) (h : DelsysDataHandler) :=
  MkHandler (NUM_SENSORS h) (envelope h) (SAMPLING_RATE h) (muscle_labels h)
    (output_queue h) (ACCUMULATION_SIZE h) (emg_processing_buffers h) (streaming h)
    (rate_adjusted_bytes h) (hp h) (notch h) (bp h) (lp h)
    (filter_passes h ++ [(ch, x)]).

Definition default_muscle_labels : list string :=
  ["L-TIBI"; "L-GAST"; "L-RECT-DIST"; "L-RECT-PROX"; "L-VAST-LATE";
   "R-TIBI"; "R-GAST"; "R-RECT-DIST"; "R-RECT-PROX"; "R-VAST-LATE";
   "L-SEMI"; "R-SEMI"; "NC"; "NC"; "L-BICEP-FEMO"; "R-BICEP-FEMO"]%string.

(** The rate of the alternate profile: the binary64 value of the literal
    [1925.926]. *)
Definition rate_1925_926 : float := 0x1.e17b439581062p+10%float.
Definition rate_2000 : float := 2000%float.

Section Methods.
Context {L : SciPy}.

Local Open Scope float_scope.

(** [_design_filters]: the four designs at the current [SAMPLING_RATE], each
    assigned as soon as it is computed. *)
Definition _design_filters : M DelsysDataHandler unit :=
  h <- get ;;
  let fs := SAMPLING_RATE h in
  (* 1. DC offset removal (high-pass) *)
  let hp_cutoff := 0.5 in
  let hp_order := 2%nat in
  c <- lift (butter hp_order [hp_cutoff / (0.5 * fs)] high) ;;
  modify (set_hp c) ;;;
  (* 2. notch filter (60 Hz) *)
  let notch_freq := 60 in
  let quality_factor := 30 in
  c <- lift (iirnotch (notch_freq / (0.5 * fs)) quality_factor) ;;
  modify (set_notch c) ;;;
  (* 3. band-pass filter (20-450 Hz) *)
  let bp_low := 20 in
  let bp_high := 450 in
  let bp_order := 4%nat in
  c <- lift (butter bp_order [bp_low / (0.5 * fs); bp_high / (0.5 * fs)] band) ;;
  modify (set_bp c) ;;;
  (* 4. envelope extraction (low-pass after rectification) *)
  let lp_cutoff := 10 in
  let lp_order := 2%nat in
  c <- lift (butter lp_order [lp_cutoff / (0.5 * fs)] low) ;;
  modify (set_lp c).

(** The attributes [__init__] assigns before it calls [_design_filters]; the
    coefficient attributes do not exist yet (empty placeholders). *)
Definition init_attributes (num_sensors : nat) (sampling_rate : float)
    (envelope : bool) : DelsysDataHandler :=
  let ACCUMULATION_SIZE := 75%nat in
  {| NUM_SENSORS := num_sensors;
     envelope := envelope;
     SAMPLING_RATE := sampling_rate;
     muscle_labels := default_muscle_labels;
     output_queue := MkQueue 1000 [];
     ACCUMULATION_SIZE := ACCUMULATION_SIZE;
     emg_processing_buffers :=
       map (fun _ => deque_new ACCUMULATION_SIZE) (seq 0 num_sensors);
     streaming := false;
     rate_adjusted_bytes := 1728;
     hp := MkCoeffs [] []; notch := MkCoeffs [] [];
     bp := MkCoeffs [] []; lp := MkCoeffs [] [];
     filter_passes := [] |}.

(** [DelsysDataHandler(num_sensors=..., sampling_rate=..., envelope=...)]:
    the object, unless the filter design raises. *)
Definition __init__ (num_sensors : nat) (sampling_rate : float)
    (envelope : bool) : result DelsysDataHandler :=
  match _design_filters (init_attributes num_sensors sampling_rate envelope) with
  | (Ok _, h) => Ok h
  | (Raise e, _) => Raise e
  end.

(** The stages of [process_emg_channel], in order. *)
Definition stage_highpass (h : DelsysDataHandler) (x : list float) :=
  filtfilt (b_ (hp h)) (a_ (hp h)) x.
Definition stage_notch (h : DelsysDataHandler) (x : list float) :=
  filtfilt (b_ (notch h)) (a_ (notch h)) x.
Definition stage_bandpass (h : DelsysDataHandler) (x : list float) :=
  filtfilt (b_ (bp h)) (a_ (bp h)) x.
(** [np.abs] *)
Definition stage_rectify (x : list float) : list float := map PrimFloat.abs x.
Definition stage_envelope (h : DelsysDataHandler) (x : list float) :=
  if envelope h then filtfilt (b_ (lp h)) (a_ (lp h)) x else Ok x.

Definition and_then {A B} (r : result A) (k : A -> result B) : result B :=
  match r with Ok x => k x | Raise e => Raise e end.

(** [process_emg_channel(data)]; it only reads [self]. *)
Definition process_emg_channel (h : DelsysDataHandler) (data : list float)
  : result (list float) :=
  let processed_data := data in  (* np.copy *)
  and_then (stage_highpass h processed_data) (fun processed_data =>
  and_then (stage_notch h processed_data) (fun processed_data =>
  and_then (stage_bandpass h processed_data) (fun processed_data =>
  let processed_data := stage_rectify processed_data in
  stage_envelope h processed_data))).

(** What the command socket does during one [configure_system]:
    how the flush loop ends ([None]: by [socket.timeout], the expected way;
    [Some e]: by another exception), whether each [send] succeeds, and what
    [recv(1024).decode()] gives. *)
Inductive Command : Type := RATE (n : Z) | RATE_query | START.

Record CommSocket : Type := MkComm {
  flush_error : option exn;
  send_ok : Command -> bool;
  recv_decode : result string
}.

(** [send_command]: [False] when the send raised. *)
Definition send_command (sock : CommSocket) (cmd : Command) : bool :=
  send_ok sock cmd.

Definition configure_system (sock : CommSocket) : M DelsysDataHandler bool :=
  try_except
    ((* clear any existing data *)
     match flush_error sock with Some e => raise e | None => ret tt end ;;;
     (* set sampling rate *)
     h <- get ;;
     n <- lift (int_of_float (SAMPLING_RATE h)) ;;
     if negb (send_command sock (RATE n)) then ret false else
     (* query actual rate *)
     if negb (send_command sock RATE_query) then ret false else
     try_except
       (response <- lift (recv_decode sock) ;;
        let response := strip response in
        actual_rate <-
          (if contains "1925" response
           then modify (set_rate_adjusted_bytes 1664) ;;; ret rate_1925_926
           else modify (set_rate_adjusted_bytes 1728) ;;; ret rate_2000) ;;
        h <- get ;;
        (if negb (actual_rate =? SAMPLING_RATE h)
         then modify (set_SAMPLING_RATE actual_rate) ;;; _design_filters
         else ret tt) ;;;
        ret true)
       (fun _ => ret false))
    (fun _ => ret false).

(** Lines 231-240: [put_nowait]; on [queue.Full] remove the oldest entry and
    put again ([queue.Empty] from the removal is ignored, a second
    [queue.Full] is not caught here). *)
Definition q_put_nowait (x : output_data) : M DelsysDataHandler unit :=
  h <- get ;;
  q <- lift (put_nowait (output_queue h) x) ;;
  modify (set_output_queue q).

Definition q_get_nowait : M DelsysDataHandler output_data :=
  h <- get ;;
  r <- lift (get_nowait (output_queue h)) ;;
  modify (set_output_queue (snd r)) ;;;
  ret (fst r).

Definition reraise_unless {A} (caught e : exn) (k : M DelsysDataHandler A)
  : M DelsysDataHandler A :=
  match caught, e with
  | QueueFull, QueueFull => k
  | QueueEmpty, QueueEmpty => k
  | _, _ => raise e
  end.

Definition put_drop_oldest (x : output_data) : M DelsysDataHandler unit :=
  try_except (q_put_nowait x)
    (fun e => reraise_unless QueueFull e
       (try_except (q_get_nowait ;;; q_put_nowait x)
          (fun e' => reraise_unless QueueEmpty e' (ret tt)))).

(** The body of [for channel in range(self.NUM_SENSORS)] in
    [_process_raw_data]. *)
Definition _process_raw_data_channel (raw_data_chunk : list float)
    (channel : nat) : M DelsysDataHandler unit :=
  h <- get ;;
  let channel_data := slice_from_step channel (NUM_SENSORS h) raw_data_chunk in
  buf <- lift (index (emg_processing_buffers h) channel) ;;
  let buf := deque_extend buf channel_data in
  modify (fun h => set_emg_processing_buffers
                     (list_set (emg_processing_buffers h) channel buf) h) ;;;
  if (ACCUMULATION_SIZE h <=? length (items buf))%nat then
    let accumulated_data := items buf in
    modify (log_filter_pass channel accumulated_data) ;;;
    processed_channel_data <- lift (process_emg_channel h accumulated_data) ;;
    label <- lift (index (muscle_labels h) channel) ;;
    let out := MkOutput channel label processed_channel_data in
    put_drop_oldest out ;;;
    modify (fun h => set_emg_processing_buffers
                       (list_set (emg_processing_buffers h) channel
                          (deque_clear buf)) h)
  else ret tt.

(** [_process_raw_data(raw_data_chunk)]: an exception ends the loop and is
    swallowed (printed when [streaming]). *)
Definition _process_raw_data (raw_data_chunk : list float)
  : M DelsysDataHandler unit :=
  try_except
    (h <- get ;;
     for_each (seq 0 (NUM_SENSORS h))
       (_process_raw_data_channel raw_data_chunk))
    (fun _ => ret tt).

(** The handler after a sequence of frames. *)
Definition ingest (frames : list (list float)) (h : DelsysDataHandler)
  : DelsysDataHandler :=
  fold_left (fun h frame => snd (_process_raw_data frame h)) frames h.

End Methods.

End Handler.

(* ================================================================= *)
(** ** app.py: the recording session *)

Module App.

(** [datetime.datetime.now()] *)
Record datetime : Type := MkDatetime {
  year : nat; month : nat; day : nat; hour : nat; minute : nat; second : nat
}.

(** The dict saved by [scipy.io.savemat] under ['meta_data']. *)
Record meta_data : Type := MkMeta {
  emg_ch_number : list nat;
  fs : float;
  total_analog_in_ch : float;
  musc_labels : list string;
  session_date : datetime;
  session_time : datetime;
  trial_number : nat
}.

(** A file written by [stop_delsys_recording].  The name is kept as the
    session time and the trial number it is formatted from. *)
Inductive file : Type :=
| bin_file (session : datetime) (trial : nat) (matrix : list (list float))
| meta_file (session : datetime) (trial : nat) (meta : meta_data).

(** The message returned with the success flag; each constructor is one of
    the source's string literals. *)
Inductive message : Type :=
| No_recording_in_progress
| No_data_was_captured
| No_data_was_captured_after_trimming
| Error_saving_binary_file
| Recording_saved_successfully (min_samples : nat)
| Error_stopping_recording.

(** The module's global state.  [files] is a ghost variable: what has been
    written to the save directory, oldest first. *)
Record State : Type := MkState {
  handler : option Handler.DelsysDataHandler;
  recording_data_buffer : list (list float);
  is_recording : bool;
  start_time : option float;
  recording_session_start_time : option datetime;
  trial_counter : nat;
  files : list file
}.

Definition set_handler v (s : State) :=
  MkState v (recording_data_buffer s) (is_recording s) (start_time s)
    (recording_session_start_time s) (trial_counter s) (files s).
Definition set_recording_data_buffer v (s : State) :=
  MkState (handler s) v (is_recording s) (start_time s)
    (recording_session_start_time s) (trial_counter s) (files s).
Definition set_is_recording v (s : State) :=
  MkState (handler s) (recording_data_buffer s) v (start_time s)
    (recording_session_start_time s) (trial_counter s) (files s).
Definition set_start_time v (s : State) :=
  MkState (handler s) (recording_data_buffer s) (is_recording s) v
    (recording_session_start_time s) (trial_counter s) (files s).
Definition set_recording_session_start_time v (s : State) :=
  MkState (handler s) (recording_data_buffer s) (is_recording s) (start_time s)
    v (trial_counter s) (files s).
Definition set_trial_counter v (s : State) :=
  MkState (handler s) (recording_data_buffer s) (is_recording s) (start_time s)
    (recording_session_start_time s) v (files s).
Definition write_file f (s : State) :=
  MkState (handler s) (recording_data_buffer s) (is_recording s) (start_time s)
    (recording_session_start_time s) (trial_counter s) (files s ++ [f]).

(** What the environment does during one [stop_delsys_recording]: the
    clock, and whether each of the two writes succeeds. *)
Record StopEnv : Type := MkStopEnv {
  now : datetime;
  tofile_ok : bool;
  savemat_ok : bool
}.

(** [min(l)] of a non-empty list. *)
Definition list_min (l : list nat) : nat :=
  match l with
  | [] => 0
  | x :: t => fold_left Nat.min t x
  end.

(** [np.vstack(rows)]: the rows must have one length. *)
Definition vstack (rows : list (list float)) : result (list (list float)) :=
  match rows with
  | [] => Raise ValueError
  | r :: t =>
      if forallb (fun r' => length r' =? length r) t then Ok rows
      else Raise ValueError
  end.

Section Configuration.
(** The [--- Configuration ---] constants of the module; the source sets
    [NUM_SENSORS = 16] and [SAMPLING_RATE = 2000.0]. *)
Variable NUM_SENSORS : nat.
Variable SAMPLING_RATE : float.

Local Open Scope float_scope.

(** [[[] for _ in range(NUM_SENSORS + 1)]] *)
Definition empty_buffers : list (list float) :=
  map (fun _ => []) (seq 0 (NUM_SENSORS + 1)).

(** [generate_timestamps(num_samples)] *)
Definition generate_timestamps (num_samples : nat) : M State (list float) :=
  s <- get ;;
  match start_time s with
  | None => ret (map (fun _ => 0) (seq 0 num_samples))     (* np.zeros *)
  | Some t0 =>
      ret (map (fun i => t0 + float_of_nat i / SAMPLING_RATE) (seq 0 num_samples))
  end.

(** The body of the alignment loop of [stop_delsys_recording] for one
    buffer: trim, pad with [0.0], or keep. *)
Definition align (min_samples : nat) (buffer_data : list float) : list float :=
  if (min_samples <? length buffer_data)%nat then firstn min_samples buffer_data
  else if (length buffer_data <? min_samples)%nat
       then buffer_data ++ repeat 0 (min_samples - length buffer_data)
       else buffer_data.

(** The loop [for i in range(NUM_SENSORS + 1)] building [final_data_arrays]. *)
Fixpoint align_all (min_samples : nat) (idx : list nat)
  : M State (list (list float)) :=
  match idx with
  | [] => ret []
  | i :: rest =>
      s <- get ;;
      buffer_data <- lift (index (recording_data_buffer s) i) ;;
      let np_array := align min_samples buffer_data in
      (* a padded buffer was extended in place *)
      modify (set_recording_data_buffer
                (list_set (recording_data_buffer s) i
                   (if (length buffer_data <? min_samples)%nat
                    then np_array else buffer_data))) ;;;
      final <- align_all min_samples rest ;;
      ret (np_array :: final)
  end.

Definition reset_buffers : M State unit :=
  modify (set_recording_data_buffer empty_buffers) ;;;
  modify (set_start_time None).

(** [[len(recording_data_buffer[i]) for i in range(1, NUM_SENSORS + 1)]] *)
Fixpoint lengths_of (idx : list nat) : M State (list nat) :=
  match idx with
  | [] => ret []
  | i :: rest =>
      s <- get ;;
      buf <- lift (index (recording_data_buffer s) i) ;;
      t <- lengths_of rest ;;
      ret (length buf :: t)
  end.

(** The muscle labels written when no handler is left. *)
Definition fallback_labels : list string := Handler.default_muscle_labels.

(** [stop_delsys_recording()] *)
Definition stop_delsys_recording (env : StopEnv) : M State (bool * message) :=
  try_except
    (s <- get ;;
     if negb (is_recording s) then ret (false, No_recording_in_progress) else
     modify (set_is_recording false) ;;;
     (* handler.stop_streaming(); handler = None *)
     modify (set_handler None) ;;;
     sample_counts <- lengths_of (seq 1 NUM_SENSORS) ;;
     if match sample_counts with [] => true | _ => false end
        || forallb (fun count => count =? 0)%nat sample_counts
     then reset_buffers ;;; ret (false, No_data_was_captured) else
     let min_samples := list_min sample_counts in
     if (min_samples =? 0)%nat
     then reset_buffers ;;; ret (false, No_data_was_captured_after_trimming) else
     timestamps <- generate_timestamps min_samples ;;
     s <- get ;;
     (match recording_data_buffer s with
      | [] => raise IndexError
      | _ => modify (set_recording_data_buffer
                       (list_set (recording_data_buffer s) 0 timestamps))
      end) ;;;
     final_data_arrays <- align_all min_samples (seq 0 (NUM_SENSORS + 1)) ;;
     reset_buffers ;;;
     interleaved_matrix <- lift (vstack final_data_arrays) ;;
     (* structured file naming *)
     s <- get ;;
     (match recording_session_start_time s with
      | None => modify (set_recording_session_start_time (Some (now env)))
      | Some _ => ret tt
      end) ;;;
     s <- get ;;
     let session := match recording_session_start_time s with
                    | Some d => d | None => now env end in
     if negb (tofile_ok env) then ret (false, Error_saving_binary_file) else
     modify (write_file (bin_file session (trial_counter s) interleaved_matrix)) ;;;
     (if savemat_ok env then
        modify (write_file (meta_file session (trial_counter s)
          {| emg_ch_number := seq 1 NUM_SENSORS;
             fs := SAMPLING_RATE;
             total_analog_in_ch := float_of_nat NUM_SENSORS;
             musc_labels := match handler s with
                            | Some h => Handler.muscle_labels h
                            | None => fallback_labels
                            end;
             session_date := session;
             session_time := session;
             trial_number := trial_counter s |}))
      else ret tt (* warning printed *)) ;;;
     (* increment trial counter for the next recording *)
     modify (fun s => set_trial_counter (trial_counter s + 1) s) ;;;
     ret (true, Recording_saved_successfully min_samples))
    (fun _ =>
       reset_buffers ;;;
       modify (set_handler None) ;;;
       ret (false, Error_stopping_recording)).

(** The parts of [stop_delsys_recording] between which other threads can
    run: [recording_lock] is released after line 175 and taken again at
    line 184, and nothing is locked after line 215. *)

(** Lines 170-175, under [recording_lock]: the flag is reset; the result
    tells whether a recording was in progress. *)
Definition stop_flag : M State bool :=
  s <- get ;;
  if negb (is_recording s) then ret false else
  modify (set_is_recording false) ;;;
  ret true.

(** Lines 177-182, no lock held: after [time.sleep(0.2)], the handler is
    stopped and dropped. *)
Definition stop_release : M State unit :=
  modify (set_handler None).

(** Lines 184-215, under [recording_lock]: the message when no data was
    captured, or [min_samples] and [final_data_arrays]. *)
Definition stop_collect : M State (message + nat * list (list float)) :=
  sample_counts <- lengths_of (seq 1 NUM_SENSORS) ;;
  if match sample_counts with [] => true | _ => false end
     || forallb (fun count => count =? 0)%nat sample_counts
  then reset_buffers ;;; ret (inl No_data_was_captured) else
  let min_samples := list_min sample_counts in
  if (min_samples =? 0)%nat
  then reset_buffers ;;; ret (inl No_data_was_captured_after_trimming) else
  timestamps <- generate_timestamps min_samples ;;
  s <- get ;;
  (match recording_data_buffer s with
   | [] => raise IndexError
   | _ => modify (set_recording_data_buffer
                    (list_set (recording_data_buffer s) 0 timestamps))
   end) ;;;
  final_data_arrays <- align_all min_samples (seq 0 (NUM_SENSORS + 1)) ;;
  reset_buffers ;;;
  ret (inr (min_samples, final_data_arrays)).

(** Lines 217-229, no lock held: the matrix, and the session time and the
    trial number that are formatted into the two file names;
    [trial_counter] is read at line 225. *)
Definition stop_name (env : StopEnv) (final_data_arrays : list (list float))
  : M State (list (list float) * datetime * nat) :=
  interleaved_matrix <- lift (vstack final_data_arrays) ;;
  s <- get ;;
  (match recording_session_start_time s with
   | None => modify (set_recording_session_start_time (Some (now env)))
   | Some _ => ret tt
   end) ;;;
  s <- get ;;
  let session := match recording_session_start_time s with
                 | Some d => d | None => now env end in
  ret (interleaved_matrix, session, trial_counter s).

(** Lines 231-262, no lock held: the two writes under the names made
    above, and the increment of [trial_counter] at line 260.  The metadata
    read [handler], [recording_session_start_time] and [trial_counter]
    again; a session time of [None] would raise inside the second [try],
    which drops the metadata. *)
Definition stop_write (env : StopEnv) (min_samples : nat)
    (named : list (list float) * datetime * nat) : M State (bool * message) :=
  let '(interleaved_matrix, session, trial) := named in
  if negb (tofile_ok env) then ret (false, Error_saving_binary_file) else
  modify (write_file (bin_file session trial interleaved_matrix)) ;;;
  s <- get ;;
  (if savemat_ok env then
     match recording_session_start_time s with
     | Some d =>
         modify (write_file (meta_file session trial
           {| emg_ch_number := seq 1 NUM_SENSORS;
              fs := SAMPLING_RATE;
              total_analog_in_ch := float_of_nat NUM_SENSORS;
              musc_labels := match handler s with
                             | Some h => Handler.muscle_labels h
                             | None => fallback_labels
                             end;
              session_date := d;
              session_time := d;
              trial_number := trial_counter s |}))
     | None => ret tt
     end
   else ret tt) ;;;
  modify (fun s => set_trial_counter (trial_counter s + 1) s) ;;;
  ret (true, Recording_saved_successfully min_samples).

(** Lines 264-274: the handler of the outer [try]. *)
Definition stop_failed : M State (bool * message) :=
  reset_buffers ;;;
  modify (set_handler None) ;;;
  ret (false, Error_stopping_recording).

(** [stop_delsys_recording()], part after part. *)
Definition stop_in_parts (env : StopEnv) : M State (bool * message) :=
  try_except
    (recording <- stop_flag ;;
     if negb recording then ret (false, No_recording_in_progress) else
     stop_release ;;;
     collected <- stop_collect ;;
     match collected with
     | inl msg => ret (false, msg)
     | inr (min_samples, final_data_arrays) =>
         named <- stop_name env final_data_arrays ;;
         stop_write env min_samples named
     end)
    (fun _ => stop_failed).

(** One turn of the loop of [recording_worker] after
    [handler.output_queue.get] returned [processed_data]: the recording part,
    under [recording_lock].  [now] is [time.time()]; the result is the new
    [local_sample_count]. *)
Definition recording_worker_record (now : float)
    (processed_data : Handler.output_data) (local_sample_count : nat)
  : M State nat :=
  s <- get ;;
  if is_recording s then
    let channel_id := Handler.channel processed_data in
    let samples := Handler.samples processed_data in
    buf <- lift (index (recording_data_buffer s) (channel_id + 1)) ;;
    modify (set_recording_data_buffer
              (list_set (recording_data_buffer s) (channel_id + 1)
                 (buf ++ samples))) ;;;
    let local_sample_count := (local_sample_count + length samples)%nat in
    (match start_time s with
     | None => if (local_sample_count =? length samples)%nat
               then modify (set_start_time (Some now)) else ret tt
     | Some _ => ret tt
     end) ;;;
    ret local_sample_count
  else ret local_sample_count.

End Configuration.

End App.

(* ================================================================= *)
(** ** A model of the scipy interface

    The all-pass filter [b = a = [1, 0, ..., 0]] has transfer function 1, so
    [filtfilt] applies it as the identity.  The designs below return it with
    the documented number of taps, and refuse the critical frequencies and
    the short inputs that scipy refuses.  It shows that [SciPyLaws] can be
    met and is used to run the handler on concrete inputs. *)

Module AllPass.

Definition unit_taps (n : nat) : list float :=
  match n with
  | 0 => []
  | S k => 1%float :: repeat 0%float k
  end.

Definition butter (n : nat) (Wn : list float) (bt : btype) : result Coeffs :=
  if valid_Wn bt Wn
  then Ok (MkCoeffs (unit_taps (butter_taps n bt)) (unit_taps (butter_taps n bt)))
  else Raise ValueError.

Definition iirnotch (w0 Q : float) : result Coeffs :=
  if critical w0 then Ok (MkCoeffs (unit_taps 3) (unit_taps 3))
  else Raise ValueError.

Definition filtfilt (b a x : list float) : result (list float) :=
  if length x <=? padlen b a then Raise ValueError else Ok x.

Definition scipy : SciPy :=
  Build_SciPy butter iirnotch filtfilt.

End AllPass.

(* ================================================================= *)
(** ** Vocabulary of the statements, and inputs for the examples *)

Import Handler.

Definition sample_chunk (ch : nat) : output_data := MkOutput ch "NC" [].

(** Both coefficient lists of a pair have [n] entries. *)
Definition taps (c : Coeffs) (n : nat) : Prop :=
  length (b_ c) = n /\ length (a_ c) = n.

(** The four coefficient pairs come from the design functions, with the
    sizes of the orders [_design_filters] asks for. *)
Record filters_ready `{SciPy} (h : DelsysDataHandler) : Prop := {
  ready_hp : designed (hp h) /\ taps (hp h) 3;
  ready_notch : designed (notch h) /\ taps (notch h) 3;
  ready_bp : designed (bp h) /\ taps (bp h) 9;
  ready_lp : designed (lp h) /\ taps (lp h) 3
}.

(** The state of a handler between two frames, as [__init__] sets it up. *)
Record wf `{SciPy} (h : DelsysDataHandler) : Prop := {
  wf_accumulation : ACCUMULATION_SIZE h = 75;
  wf_buffers : length (emg_processing_buffers h) = NUM_SENSORS h;
  wf_deques : Forall (fun d => maxlen d = 75 /\ length (items d) < 75)
                (emg_processing_buffers h);
  wf_labels : NUM_SENSORS h <= length (muscle_labels h);
  wf_queue : maxsize (output_queue h) = 1000 /\ qsize (output_queue h) <= 1000;
  wf_filters : filters_ready h
}.

(** The samples held for channel [c]. *)
Definition buffer (h : DelsysDataHandler) (c : nat) : list float :=
  items (nth c (emg_processing_buffers h) (deque_new 0)).

(** The samples held for channel [c] once the samples of the frame [raw]
    have been added: [emg_processing_buffers[c]] after the [extend]. *)
Definition extended (h : DelsysDataHandler) (raw : list float) (c : nat)
  : list float :=
  items (deque_extend (nth c (emg_processing_buffers h) (deque_new 0))
           (slice_from_step c (NUM_SENSORS h) raw)).

(** The calls of the filter pipeline that one frame causes. *)
Definition frame_passes (h : DelsysDataHandler) (raw : list float)
  : list (nat * list float) :=
  flat_map (fun c => if ACCUMULATION_SIZE h <=? length (extended h raw c)
                     then [(c, extended h raw c)] else [])
    (seq 0 (NUM_SENSORS h)).

Section DesignCalls.
Context {L : SciPy}.
Local Open Scope float_scope.

(** The four design calls of [_design_filters] at the rate [fs]. *)
Definition design_hp (fs : float) := butter 2 [0.5 / (0.5 * fs)] high.
Definition design_notch (fs : float) := iirnotch (60 / (0.5 * fs)) 30.
Definition design_bp (fs : float) :=
  butter 4 [20 / (0.5 * fs); 450 / (0.5 * fs)] band.
Definition design_lp (fs : float) := butter 2 [10 / (0.5 * fs)] low.

(** The coefficients of [h] are the ones designed for the rate [fs]. *)
Definition designed_for (fs : float) (h : DelsysDataHandler) : Prop :=
  design_hp fs = Ok (hp h) /\ design_notch fs = Ok (notch h)
  /\ design_bp fs = Ok (bp h) /\ design_lp fs = Ok (lp h).

End DesignCalls.

(** [h'] is [h] up to the four coefficient pairs. *)
Definition same_but_filters (h h' : DelsysDataHandler) : Prop :=
  h' = set_lp (lp h') (set_bp (bp h') (set_notch (notch h') (set_hp (hp h') h))).

(** [h'] has the settings and the coefficients of [h]. *)
Record same_settings (h h' : DelsysDataHandler) : Prop := {
  same_NUM_SENSORS : NUM_SENSORS h' = NUM_SENSORS h;
  same_ACCUMULATION_SIZE : ACCUMULATION_SIZE h' = ACCUMULATION_SIZE h;
  same_muscle_labels : muscle_labels h' = muscle_labels h;
  same_SAMPLING_RATE : SAMPLING_RATE h' = SAMPLING_RATE h;
  same_envelope : envelope h' = envelope h;
  same_rate_adjusted_bytes : rate_adjusted_bytes h' = rate_adjusted_bytes h;
  same_hp : hp h' = hp h;
  same_notch : notch h' = notch h;
  same_bp : bp h' = bp h;
  same_lp : lp h' = lp h
}.

(** What the buffer of a channel holds after its turn in the loop. *)
Definition after_turn (A_size : nat) (ext : list float) : list float :=
  if A_size <=? length ext then [] else ext.

Definition pass_of (A_size c : nat) (ext : list float) : list (nat * list float) :=
  if A_size <=? length ext then [(c, ext)] else [].

(** The dict that [_process_raw_data] builds from a call of the pipeline on
    the array [snd p] for the channel [fst p]. *)
Definition chunk_of `{SciPy} (h : DelsysDataHandler) (p : nat * list float)
  : output_data :=
  MkOutput (fst p) (nth (fst p) (muscle_labels h) EmptyString)
    (match process_emg_channel h (snd p) with Ok y => y | Raise _ => [] end).

(** The handler the application builds
    ([num_sensors=16, sampling_rate=2000.0]), over the all-pass model. *)
Definition built_handler : DelsysDataHandler :=
  match __init__ (L := AllPass.scipy) 16 2000 false with
  | Ok h => h
  | Raise _ => init_attributes 16 2000 false
  end.

(** A frame of the default profile: 432 floats. *)
Definition ramp_frame (start : nat) : list float :=
  map (fun i => float_of_nat (start + i)) (seq 0 432).

(** The samples of channel [c] in a frame of a 16-sensor handler. *)
Definition slice16 (raw : list float) (c : nat) : list float :=
  slice_from_step c 16 raw.

(** The pipeline calls of a drain cycle of three default-profile frames:
    for each channel, the 81 samples received less the 6 oldest. *)
Definition cycle_calls (cyc : list float * list float * list float)
  : list (nat * list float) :=
  let '(f1, f2, f3) := cyc in
  map (fun c => (c, skipn 6 (slice16 f1 c ++ slice16 f2 c ++ slice16 f3 c)))
    (seq 0 16).

Definition cycle_frames (cyc : list float * list float * list float)
  : list (list float) :=
  let '(f1, f2, f3) := cyc in [f1; f2; f3].

Definition default_cycle (cyc : list float * list float * list float) : Prop :=
  let '(f1, f2, f3) := cyc in
  length f1 = 432 /\ length f2 = 432 /\ length f3 = 432.

(** The handler after two default-profile frames: 54 samples per channel. *)
Definition two_frames_in : DelsysDataHandler :=
  ingest (L := AllPass.scipy) [ramp_frame 0; ramp_frame 432] built_handler.

(** A sample that is non-negative: it is at least zero.  A NaN is not. *)
Definition non_negative (v : float) : Prop := (0 <=? v)%float = true.

Fixpoint no_space (s : string) : bool :=
  match s with
  | EmptyString => true
  | String c s' => negb (is_space c) && no_space s'
  end.

(** The frame size and the rate that a reply selects. *)
Definition profile_bytes (reply : string) : nat :=
  if contains "1925" reply then 1664 else 1728.
Definition profile_rate (reply : string) : float :=
  if contains "1925" reply then rate_1925_926 else rate_2000.

Definition replying (reply : string) : CommSocket :=
  MkComm None (fun _ => true) (Ok reply).



(** The recording buffer of channel [i] (row [i + 1] of the buffers). *)
Definition channel_buffer (s : App.State) (i : nat) : list float :=
  nth (S i) (App.recording_data_buffer s) [].

(** An active session with its [N + 1] buffers. *)
Definition active (N : nat) (s : App.State) : Prop :=
  App.is_recording s = true /\ length (App.recording_data_buffer s) = N + 1.

(** The state after a stop that went as far as the alignment: no handler,
    empty buffers, no start time. *)
Definition finalized (N : nat) (s : App.State) : App.State :=
  App.MkState None (App.empty_buffers N) false None
    (App.recording_session_start_time s) (App.trial_counter s) (App.files s).

Section StopVocabulary.
Variable N : nat.
Variable rate : float.

(** [sample_counts] and [min_samples] of [stop_delsys_recording]. *)
Definition sample_counts (s : App.State) : list nat :=
  map (fun i => length (nth i (App.recording_data_buffer s) [])) (seq 1 N).

Definition min_samples (s : App.State) : nat := App.list_min (sample_counts s).

(** The timestamps that [generate_timestamps] returns in the state [s]. *)
Definition timestamps (s : App.State) (num_samples : nat) : list float :=
  match App.start_time s with
  | None => map (fun _ => 0%float) (seq 0 num_samples)
  | Some t0 =>
      map (fun i => (t0 + float_of_nat i / rate)%float) (seq 0 num_samples)
  end.

(** The session time used for the file names. *)
Definition session_of (env : App.StopEnv) (s : App.State) : App.datetime :=
  match App.recording_session_start_time s with
  | Some d => d
  | None => App.now env
  end.

(** The matrix handed to [tofile]: the timestamps, then for each channel
    the first [min_samples] samples of its buffer. *)
Definition saved_matrix (s : App.State) : list (list float) :=
  timestamps s (min_samples s)
  :: map (fun i => firstn (min_samples s) (channel_buffer s i)) (seq 0 N).

Definition saved_meta (env : App.StopEnv) (s : App.State) : App.meta_data :=
  App.MkMeta (seq 1 N) rate (float_of_nat N) App.fallback_labels
    (session_of env s) (session_of env s) (App.trial_counter s).

Definition written (env : App.StopEnv) (s : App.State) : list App.file :=
  App.bin_file (session_of env s) (App.trial_counter s) (saved_matrix s)
  :: (if App.savemat_ok env
      then [App.meta_file (session_of env s) (App.trial_counter s)
              (saved_meta env s)]
      else []).

End StopVocabulary.

(** A session state under test: the given channel buffers under an empty
    timestamp row, recording, trial 1, nothing written yet. *)
Definition session (h : option DelsysDataHandler) (t0 : option float)
    (channels : list (list float)) : App.State :=
  App.MkState h ([] :: channels) true t0 None 1 [].

(** [n] samples [start, start + 1, ...]. *)
Definition ramp (start n : nat) : list float :=
  map (fun i => float_of_nat (start + i)) (seq 0 n).

Definition clock : App.datetime := App.MkDatetime 2026 1 15 10 30 0.

Definition saving : App.StopEnv := App.MkStopEnv clock true true.

(** Four channels of 100, 100, 97 and 100 samples. *)
Definition four_channels : App.State :=
  session None (Some 1000%float)
    [ramp 0 100; ramp 1000 100; ramp 2000 97; ramp 3000 100].

(** A session of the application (16 sensors, 2000 Hz) stopped when only
    the first chunk, of channel 0, has been recorded: the sample counts are
    not all zero, yet nothing is persisted: the stop reports that no data
    was captured. *)
Definition first_chunk_only : App.State :=
  session None (Some 1000%float) (ramp 0 75 :: repeat [] 15).

(** Sixteen channels of 75 samples each. *)
Definition one_window_each (h : option DelsysDataHandler) : App.State :=
  session h (Some 1000%float) (map (fun c => ramp (100 * c) 75) (seq 0 16)).

Definition nothing_recorded : App.State := session None None (repeat [] 16).

Definition binary_only : App.StopEnv := App.MkStopEnv clock true false.
Definition disk_full : App.StopEnv := App.MkStopEnv clock false true.

Definition counter_statement (env : App.StopEnv) (s : App.State) : Prop :=
  let r := App.stop_delsys_recording 16 2000 env s in
  ((exists msg session matrix meta,
      fst r = Ok (true, msg)
      /\ App.trial_counter (snd r) = App.trial_counter s + 1
      /\ App.files (snd r)
         = App.files s
           ++ App.bin_file session (App.trial_counter s) matrix
              :: (if App.savemat_ok env
                  then [App.meta_file session (App.trial_counter s) meta]
                  else []))
   \/ (exists msg,
         fst r = Ok (false, msg)
         /\ App.trial_counter (snd r) = App.trial_counter s
         /\ App.files (snd r) = App.files s))
  /\ (App.tofile_ok env = true ->
      fst r = Ok (true, App.Recording_saved_successfully (min_samples 16 s))
      /\ App.trial_counter (snd r) = App.trial_counter s + 1
      /\ App.files (snd r) = App.files s ++ written 16 2000 env s)
  /\ (App.tofile_ok env = true -> App.savemat_ok env = false ->
      fst r = Ok (true, App.Recording_saved_successfully (min_samples 16 s))
      /\ App.trial_counter (snd r) = App.trial_counter s + 1
      /\ App.files (snd r)
         = App.files s
           ++ [App.bin_file (session_of env s) (App.trial_counter s)
                 (saved_matrix 16 2000 s)])
  /\ (App.tofile_ok env = false ->
      fst r = Ok (false, App.Error_saving_binary_file)
      /\ App.trial_counter (snd r) = App.trial_counter s
      /\ App.files (snd r) = App.files s).

(** The handler of the application after a negotiation that selected the
    alternate profile. *)
Definition negotiated_handler : DelsysDataHandler :=
  snd (configure_system (L := AllPass.scipy) (replying "1925.926") built_handler).

(* ================================================================= *)
(** ** delsys_handler.py: the other methods *)

(** [clear_processing_buffers]: every deque is cleared in place. *)
Definition clear_processing_buffers : M DelsysDataHandler unit :=
  modify (fun h => set_emg_processing_buffers
                     (map (fun buffer => deque_clear buffer)
                        (emg_processing_buffers h)) h).

(** [stop_streaming]: the buffers are cleared and the flag is reset; the
    threads are then joined and the sockets closed, which changes no
    attribute modelled here. *)
Definition stop_streaming : M DelsysDataHandler unit :=
  clear_processing_buffers ;;;
  modify (set_streaming false).

(** What the network does during one [start_streaming]: whether both
    connections are established, and the command socket. *)
Record Network : Type := MkNetwork {
  connect_ok : bool;
  command_socket : CommSocket
}.

(** [setup_connections]: [False] when a connection raised (the sockets
    opened so far are closed by [cleanup_connections]). *)
Definition setup_connections (net : Network) : bool := connect_ok net.

(** A 32-bit IEEE float, little-endian, as a Python float: what
    [struct.unpack('f', ...)] gives on the four bytes. *)
Definition decode_float32 (b0 b1 b2 b3 : Init.Byte.byte) : float :=
  let bits := (Z.of_nat (Strings.Byte.to_nat b0)
               + 256 * Z.of_nat (Strings.Byte.to_nat b1)
               + 65536 * Z.of_nat (Strings.Byte.to_nat b2)
               + 16777216 * Z.of_nat (Strings.Byte.to_nat b3))%Z in
  let negative := (2147483648 <=? bits)%Z in
  let e := ((bits / 8388608) mod 256)%Z in
  let m := (bits mod 8388608)%Z in
  let magnitude :=
    if (e =? 255)%Z then (if (m =? 0)%Z then infinity else nan)
    else if (e =? 0)%Z
         then Z.ldexp (PrimFloat.of_uint63 (Uint63.of_Z m)) (-149)
         else Z.ldexp (PrimFloat.of_uint63 (Uint63.of_Z (8388608 + m))) (e - 150) in
  if negative then (- magnitude)%float else magnitude.

(** [struct.unpack(f'{len(data_bytes)//4}f', data_bytes)]: [None] stands
    for [struct.error], raised when the length is not a multiple of 4. *)
Fixpoint unpack_floats (data_bytes : list Init.Byte.byte) : option (list float) :=
  match data_bytes with
  | [] => Some []
  | b0 :: b1 :: b2 :: b3 :: rest =>
      match unpack_floats rest with
      | Some samples => Some (decode_float32 b0 b1 b2 b3 :: samples)
      | None => None
      end
  | _ => None
  end.

(** The reads of the data socket that are processed: those up to the first
    one that raises, that have exactly [frame_bytes] bytes (a read that
    cannot be unpacked ends the loop like a socket error). *)
Fixpoint accepted_frames (frame_bytes : nat)
    (reads : list (result (list Init.Byte.byte))) : list (list float) :=
  match reads with
  | [] => []
  | Raise _ :: _ => []
  | Ok data_bytes :: rest =>
      if length data_bytes =? frame_bytes then
        match unpack_floats data_bytes with
        | Some samples => samples :: accepted_frames frame_bytes rest
        | None => []
        end
      else accepted_frames frame_bytes rest
  end.

Section MoreMethods.
Context {L : SciPy}.

(** [start_streaming]; the data thread it starts is [emg_data_thread]. *)
Definition start_streaming (net : Network) : M DelsysDataHandler bool :=
  if negb (setup_connections net) then ret false else
  configured <- configure_system (command_socket net) ;;
  if negb configured then ret false else
  (* send START command *)
  if negb (send_command (command_socket net) START) then ret false else
  modify (set_streaming true) ;;;
  ret true.

(** One turn of the loop of [emg_data_thread], on what [recv] gives; the
    result tells whether the loop goes on ([False] for [break]). *)
Definition emg_data_turn (recv : result (list Init.Byte.byte))
  : M DelsysDataHandler bool :=
  match recv with
  | Raise _ => ret false
  | Ok data_bytes =>
      h <- get ;;
      if length data_bytes =? rate_adjusted_bytes h then
        match unpack_floats data_bytes with
        | None => ret false
        | Some samples_array => _process_raw_data samples_array ;;; ret true
        end
      else ret true
  end.

(** [emg_data_thread] over the successive results of [recv]:
    [while self.streaming], until a [break]. *)
Fixpoint emg_data_thread (reads : list (result (list Init.Byte.byte)))
  : M DelsysDataHandler unit :=
  match reads with
  | [] => ret tt
  | recv :: rest =>
      h <- get ;;
      if streaming h then
        go_on <- emg_data_turn recv ;;
        if go_on then emg_data_thread rest else ret tt
      else ret tt
  end.

End MoreMethods.

(* ================================================================= *)
(** ** app.py: start, worker and live preview *)

Module Session.

(** An entry of a live buffer: [{'samples': ..., 'label': ...}]. *)
Record live_entry : Type := MkLive {
  entry_samples : list float;
  entry_label : string
}.

Definition LIVE_BUFFER_CHUNKS : nat := 10.

(** The globals of app.py: those of [App.State] and [live_data_buffers]. *)
Record Globals : Type := MkGlobals {
  core : App.State;
  live_data_buffers : list (deque live_entry)
}.

Definition set_core v (g : Globals) := MkGlobals v (live_data_buffers g).
Definition set_live_data_buffers v (g : Globals) := MkGlobals (core g) v.

(** Runs on [core] a computation written on [App.State]. *)
Definition on_core {A} (c : M App.State A) : M Globals A :=
  fun g => let '(r, s) := c (core g) in (r, set_core s g).

(** The messages of [start_delsys_recording]. *)
Inductive start_message : Type :=
| Recording_already_in_progress
| Recording_started
| Failed_to_start_Delsys_streaming
| Error_starting_recording.

(** What the environment does during one [start_delsys_recording]. *)
Record StartEnv : Type := MkStartEnv {
  start_now : App.datetime;
  network : Network
}.

(** [f'Ch{i}'] *)
Definition default_label (i : nat) : string :=
  String.append "Ch" (NilEmpty.string_of_uint (Nat.to_uint i)).

(** The response of [live_data]: [{'data': ..., 'labels': ...}]. *)
Record live_response : Type := MkResponse {
  data : list (list float);
  labels : list string
}.

Section Configuration.
Context {L : SciPy}.
Variable NUM_SENSORS : nat.
Variable SAMPLING_RATE : float.

(** The initial value of [live_data_buffers]. *)
Definition new_live_buffers : list (deque live_entry) :=
  map (fun _ => deque_new LIVE_BUFFER_CHUNKS) (seq 0 NUM_SENSORS).

(** [start_delsys_recording()] *)
Definition start_delsys_recording (env : StartEnv)
  : M Globals (bool * start_message) :=
  try_except
    (g <- get ;;
     if App.is_recording (core g)
     then ret (false, Recording_already_in_progress) else
     (* for i in range(len(recording_data_buffer)): recording_data_buffer[i].clear() *)
     modify (fun g => set_core (App.set_recording_data_buffer
                                  (map (fun _ => []) (App.recording_data_buffer (core g)))
                                  (core g)) g) ;;;
     modify (fun g => set_core (App.set_start_time None (core g)) g) ;;;
     modify (fun g => set_live_data_buffers
                        (map (fun buffer => deque_clear buffer)
                           (live_data_buffers g)) g) ;;;
     (* the former handler is stopped and dropped *)
     modify (fun g => set_core (App.set_handler None (core g)) g) ;;;
     (* initialize session time and trial counter if needed *)
     g <- get ;;
     (match App.recording_session_start_time (core g) with
      | None =>
          modify (fun g => set_core
                             (App.set_trial_counter 1
                                (App.set_recording_session_start_time
                                   (Some (start_now env)) (core g))) g)
      | Some _ => ret tt
      end) ;;;
     handler <- lift (__init__ NUM_SENSORS SAMPLING_RATE false) ;;
     modify (fun g => set_core (App.set_handler (Some handler) (core g)) g) ;;;
     let '(started, handler) := start_streaming (network env) handler in
     match started with
     | Ok true =>
         modify (fun g => set_core
                            (App.set_is_recording true
                               (App.set_handler (Some handler) (core g))) g) ;;;
         ret (true, Recording_started)
     | Ok false =>
         modify (fun g => set_core
                            (App.set_is_recording false
                               (App.set_handler None (core g))) g) ;;;
         ret (false, Failed_to_start_Delsys_streaming)
     | Raise e =>
         modify (fun g => set_core (App.set_handler (Some handler) (core g)) g) ;;;
         raise e
     end)
    (fun _ =>
       modify (fun g => set_core
                          (App.set_handler None
                             (App.set_is_recording false (core g))) g) ;;;
       ret (false, Error_starting_recording)).

(** One turn of the loop of [recording_worker], once
    [handler.output_queue.get] has returned [processed_data]: the recording
    part, then the live part under [live_data_lock].  An exception ends the
    loop in the source. *)
Definition recording_worker_put (now : float)
    (processed_data : Handler.output_data) (local_sample_count : nat)
  : M Globals nat :=
  local_sample_count <-
    on_core (App.recording_worker_record now processed_data local_sample_count) ;;
  g <- get ;;
  (if App.is_recording (core g) then
     let channel_id := Handler.channel processed_data in
     buffer <- lift (index (live_data_buffers g) channel_id) ;;
     modify (set_live_data_buffers
               (list_set (live_data_buffers g) channel_id
                  (deque_append buffer
                     (MkLive (Handler.samples processed_data)
                        (Handler.muscle_label processed_data)))))
   else ret tt) ;;;
  ret local_sample_count.

(** One turn of the loop of [recording_worker]: the condition of the
    [while], the [get] on the queue of the handler ([queue.Empty] after the
    timeout: [continue]), and the turn above.  The result is the new
    [local_sample_count], or [None] when the loop ends. *)
Definition recording_worker_turn (now : float) (local_sample_count : nat)
  : M Globals (option nat) :=
  g <- get ;;
  match App.handler (core g) with
  | None => ret None
  | Some h =>
      if negb (App.is_recording (core g) && Handler.streaming h) then ret None
      else
        match get_nowait (Handler.output_queue h) with
        | Raise _ => ret (Some local_sample_count)
        | Ok (processed_data, q) =>
            modify (fun g => set_core
                               (App.set_handler
                                  (Some (Handler.set_output_queue q h))
                                  (core g)) g) ;;;
            try_except
              (n <- recording_worker_put now processed_data local_sample_count ;;
               ret (Some n))
              (fun _ => ret None)
        end
  end.

(** The response of [live_data] when nothing is shown. *)
Definition empty_response : live_response :=
  MkResponse (map (fun _ => []) (seq 0 NUM_SENSORS))
    (map default_label (seq 0 NUM_SENSORS)).

(** The loop of [live_data] over the channels. *)
Fixpoint collect_live (channels : list nat) : M Globals live_response :=
  match channels with
  | [] => ret (MkResponse [] [])
  | i :: rest =>
      g <- get ;;
      buffer <- lift (index (live_data_buffers g) i) ;;
      let channel_chunks := flat_map entry_samples (items buffer) in
      let label := match rev (items buffer) with
                   | last_entry :: _ => entry_label last_entry
                   | [] => default_label i
                   end in
      r <- collect_live rest ;;
      ret (MkResponse (channel_chunks :: data r) (label :: labels r))
  end.

(** [live_data()] *)
Definition live_data : M Globals live_response :=
  try_except
    (g <- get ;;
     if negb (App.is_recording (core g)) then ret empty_response
     else collect_live (seq 0 NUM_SENSORS))
    (fun _ => ret empty_response).

(** [recording_worker()]: the loop, for as many turns as [clock] gives
    readings of [time.time()]. *)
Fixpoint recording_worker_loop (clock : list float) (local_sample_count : nat)
  : M Globals unit :=
  match clock with
  | [] => ret tt
  | now :: rest =>
      turn <- recording_worker_turn now local_sample_count ;;
      match turn with
      | None => ret tt
      | Some local_sample_count => recording_worker_loop rest local_sample_count
      end
  end.

Definition recording_worker (clock : list float) : M Globals unit :=
  let local_sample_count := 0 in
  recording_worker_loop clock local_sample_count.

(** The live part of a turn of [recording_worker] (lines 93-98), under
    [live_data_lock]. *)
Definition recording_worker_live (processed_data : Handler.output_data)
  : M Globals unit :=
  g <- get ;;
  if App.is_recording (core g) then
    let channel_id := Handler.channel processed_data in
    buffer <- lift (index (live_data_buffers g) channel_id) ;;
    modify (set_live_data_buffers
              (list_set (live_data_buffers g) channel_id
                 (deque_append buffer
                    (MkLive (Handler.samples processed_data)
                       (Handler.muscle_label processed_data)))))
  else ret tt.

(** What the threads that serve no request do, one step at a time.  A
    worker thread is started by each successful start and goes on for as
    long as its [while] holds of the globals of the moment, so that several
    can be alive; each holds the chunk it took and its own
    [local_sample_count].  The steps of a worker are: its
    [handler.output_queue.get] returns; the recording part of its turn
    (lines 85-91, under [recording_lock]) on the chunk it holds; the live
    part (lines 93-98, under [live_data_lock]); and [worker_turn] is a whole
    turn made of the three, with the test of the [while].  The steps of the
    data thread of the current handler are the body of the loop of
    [_process_raw_data] for one channel, and [data_thread], the thread
    receiving [reads] and processing each frame. *)
Inductive background : Type :=
| worker_get
| worker_record (now : float) (processed_data : Handler.output_data)
    (local_sample_count : nat)
| worker_live (processed_data : Handler.output_data)
| worker_turn (now : float) (local_sample_count : nat)
| data_thread_channel (raw_data_chunk : list float) (channel : nat)
| data_thread (reads : list (result (list Init.Byte.byte))).

(** A step on the handler of the moment, if there is one. *)
Definition on_handler (f : Handler.DelsysDataHandler -> Handler.DelsysDataHandler)
  : M Globals unit :=
  g <- get ;;
  match App.handler (core g) with
  | Some h => modify (set_core (App.set_handler (Some (f h)) (core g)))
  | None => ret tt
  end.

(** An exception in a background thread ends that thread and reaches no
    request: only what it did to the globals is kept. *)
Definition in_background (b : background) (g : Globals) : Globals :=
  match b with
  | worker_get =>
      snd (on_handler (fun h =>
             match get_nowait (Handler.output_queue h) with
             | Ok (_, q) => Handler.set_output_queue q h
             | Raise _ => h
             end) g)
  | worker_record now processed_data local_sample_count =>
      snd (on_core (App.recording_worker_record now processed_data
                      local_sample_count) g)
  | worker_live processed_data => snd (recording_worker_live processed_data g)
  | worker_turn now local_sample_count =>
      snd (recording_worker_turn now local_sample_count g)
  | data_thread_channel raw_data_chunk channel =>
      snd (on_handler (fun h =>
             snd (_process_raw_data_channel raw_data_chunk channel h)) g)
  | data_thread reads =>
      snd (on_handler (fun h => snd (emg_data_thread reads h)) g)
  end.

(** A stop request, from its arrival to its response.  [recording_lock]
    is held for lines 170-175 and 184-215 only, so that other threads run
    meanwhile: [asleep] is what they do to the globals during
    [time.sleep(0.2)], [unlocked] between the release of the handler and
    the second [with recording_lock], [collected] between the lines 215
    and 217, [named] between the making of the file names and the
    writes. *)
Definition stop_request (env : App.StopEnv)
    (asleep unlocked collected named : Globals -> Globals)
  : M Globals (bool * App.message) :=
  try_except
    (recording <- on_core (App.stop_flag) ;;
     if negb recording then ret (false, App.No_recording_in_progress) else
     modify asleep ;;;
     on_core (App.stop_release) ;;;
     modify unlocked ;;;
     result <- on_core (App.stop_collect NUM_SENSORS SAMPLING_RATE) ;;
     match result with
     | inl msg => ret (false, msg)
     | inr (min_samples, final_data_arrays) =>
         modify collected ;;;
         names <- on_core (App.stop_name env final_data_arrays) ;;
         modify named ;;;
         on_core (App.stop_write NUM_SENSORS SAMPLING_RATE env min_samples names)
     end)
    (fun _ => on_core (App.stop_failed NUM_SENSORS)).

(** The globals before the first request.  Loading the module (lines
    51-63) leaves [handler] and [recording_session_start_time] at [None];
    run as a script, the module then assigns both (lines 322-323). *)
Definition initial (handler : option Handler.DelsysDataHandler)
    (recording_session_start_time : option App.datetime) : Globals :=
  MkGlobals
    (App.MkState handler (App.empty_buffers NUM_SENSORS) false None
       recording_session_start_time 1 [])
    new_live_buffers.

(** What acts on the globals: the three routes and the steps of the
    background threads.  The server serves each request in a thread of its
    own, so that a request can arrive while a stop request waits or runs
    unlocked: the four lists of a stop are what happens meanwhile, in
    order, background steps and whole requests alike.  (A start holds
    [recording_lock] from its first line to its last, and [live_data]
    changes nothing.) *)
#[warnings="-register-all"]
Inductive event : Type :=
| start_recording (env : StartEnv)
| stop_recording (env : App.StopEnv)
    (asleep unlocked collected named : list event)
| get_live_data
| meanwhile (b : background).

Fixpoint happen (e : event) : M Globals unit :=
  match e with
  | start_recording env => start_delsys_recording env ;;; ret tt
  | stop_recording env asleep unlocked collected named =>
      let during (events : list event) (g : Globals) : Globals :=
        fold_left (fun g e => snd (happen e g)) events g in
      stop_request env (during asleep) (during unlocked) (during collected)
        (during named) ;;;
      ret tt
  | get_live_data => live_data ;;; ret tt
  | meanwhile b => modify (in_background b)
  end.

(** The globals after a sequence of events. *)
Definition run (events : list event) (g : Globals) : Globals :=
  fold_left (fun g e => snd (happen e g)) events g.

(** The histories in which no request arrives before the previous one was
    answered (those of a client that waits for each response): only
    background threads run during a stop request. *)
Definition in_the_background (e : event) : bool :=
  match e with meanwhile _ => true | _ => false end.

Definition serial (events : list event) : bool :=
  forallb (fun e =>
             match e with
             | stop_recording _ asleep unlocked collected named =>
                 forallb in_the_background asleep
                 && forallb in_the_background unlocked
                 && forallb in_the_background collected
                 && forallb in_the_background named
             | _ => true
             end) events.

End Configuration.

End Session.

(* ================================================================= *)
(** ** The life of a handler *)





(* ================================================================= *)
(** ** Vocabulary of the further properties *)

(** The name of a written file: its kind, and the session time and trial
    number that the source formats into it. *)
Definition is_bin (f : App.file) : bool :=
  match f with App.bin_file _ _ _ => true | App.meta_file _ _ _ => false end.
Definition file_session (f : App.file) : App.datetime :=
  match f with App.bin_file d _ _ | App.meta_file d _ _ => d end.
Definition file_trial (f : App.file) : nat :=
  match f with App.bin_file _ t _ | App.meta_file _ t _ => t end.
Definition file_name (f : App.file) : bool * App.datetime * nat :=
  (is_bin f, file_session f, file_trial f).

(** The session time and the trial counter after a start. *)
Definition started_session (env : Session.StartEnv) (s : App.State)
  : App.datetime :=
  match App.recording_session_start_time s with
  | Some d => d
  | None => Session.start_now env
  end.

Definition started_counter (s : App.State) : nat :=
  match App.recording_session_start_time s with
  | Some _ => App.trial_counter s
  | None => 1
  end.

(** The binary files written so far, oldest first. *)
Definition binaries (s : App.State) : list App.file :=
  filter is_bin (App.files s).

(** A live buffer with the capacity the module gives it, not overfull. *)
Definition chunk_bound (d : deque Session.live_entry) : Prop :=
  maxlen d = Session.LIVE_BUFFER_CHUNKS
  /\ length (items d) <= Session.LIVE_BUFFER_CHUNKS.

(** The samples and the label that [live_data] shows for channel [i]: the
    samples of the buffered chunks, oldest first, and the label of the
    newest chunk, or [Ch<i>] when there is none. *)
Definition live_row (g : Session.Globals) (i : nat) : list float :=
  flat_map Session.entry_samples
    (items (nth i (Session.live_data_buffers g) (deque_new 0))).
Definition live_label (g : Session.Globals) (i : nat) : string :=
  match rev (items (nth i (Session.live_data_buffers g) (deque_new 0))) with
  | last_entry :: _ => Session.entry_label last_entry
  | [] => Session.default_label i
  end.

(** The entry that the worker puts in a live buffer for a chunk. *)
Definition live_entry_of (x : output_data) : Session.live_entry :=
  Session.MkLive (samples x) (muscle_label x).

(** The chunks of channel [c] among [chunks], in order. *)
Definition chunks_of (c : nat) (chunks : list output_data) : list output_data :=
  filter (fun x => channel x =? c) chunks.

(** What holds of the globals between two events, whatever has happened
    since the server started: the buffers are all there, a live buffer holds
    at most [LIVE_BUFFER_CHUNKS] chunks, a recording has a streaming handler,
    and the files written so far carry the session time and the trial
    numbers 1, 2, ... below the trial counter, no name twice. *)
Record consistent (N : nat) (g : Session.Globals) : Prop := {
  consistent_rows :
    length (App.recording_data_buffer (Session.core g)) = N + 1;
  consistent_live : length (Session.live_data_buffers g) = N;
  consistent_chunks :
    Forall (fun d => maxlen d = Session.LIVE_BUFFER_CHUNKS
                     /\ length (items d) <= Session.LIVE_BUFFER_CHUNKS)
      (Session.live_data_buffers g);
  consistent_handler :
    App.is_recording (Session.core g) = true ->
    exists h, App.handler (Session.core g) = Some h /\ streaming h = true;
  consistent_counter : 1 <= App.trial_counter (Session.core g);
  consistent_trials :
    map file_trial (binaries (Session.core g))
    = seq 1 (App.trial_counter (Session.core g) - 1);
  consistent_files :
    forall f, In f (App.files (Session.core g)) ->
      App.recording_session_start_time (Session.core g) = Some (file_session f)
      /\ file_trial f < App.trial_counter (Session.core g);
  consistent_names : NoDup (map file_name (App.files (Session.core g)))
}.

(** [h'] differs from [h] at most in what the processing buffers hold, in
    the entries of the output queue and in the log of pipeline calls: the
    settings, the coefficients, the [streaming] flag and the capacities of
    the queue and of the buffers are those of [h]. *)
Record only_data_changed (h h' : DelsysDataHandler) : Prop := {
  kept_settings : same_settings h h';
  kept_streaming : streaming h' = streaming h;
  kept_queue_capacity : maxsize (output_queue h') = maxsize (output_queue h);
  kept_buffer_capacities :
    map (@maxlen float) (emg_processing_buffers h')
    = map (@maxlen float) (emg_processing_buffers h)
}.

(** No buffer holds more than its capacity, and neither does a bounded
    queue. *)
Definition within_capacity (h : DelsysDataHandler) : Prop :=
  Forall (fun d => length (items d) <= maxlen d) (emg_processing_buffers h)
  /\ (0 < maxsize (output_queue h) ->
      qsize (output_queue h) <= maxsize (output_queue h)).

(** The chunk [x] is the dict [_process_raw_data] builds from a call of the
    pipeline on the window [w]: the label of its channel, the output of the
    pipeline, on a window of at least [ACCUMULATION_SIZE] samples. *)
Definition emitted `{SciPy} (h : DelsysDataHandler) (x : output_data)
    (w : list float) : Prop :=
  nth_error (muscle_labels h) (channel x) = Some (muscle_label x)
  /\ process_emg_channel h w = Ok (samples x)
  /\ ACCUMULATION_SIZE h <= length w.

(** The log of [h'] extends the log of [h] by [new], and every chunk on the
    queue of [h'] was on the queue of [h] or was emitted from a window
    logged in [new]. *)
Definition queue_from_log `{SciPy} (h h' : DelsysDataHandler)
    (new : list (nat * list float)) : Prop :=
  filter_passes h' = filter_passes h ++ new
  /\ forall x, In x (qitems (output_queue h')) ->
       In x (qitems (output_queue h))
       \/ exists w, In (channel x, w) new /\ emitted h x w.

Definition evolves `{SciPy} (h h' : DelsysDataHandler) : Prop :=
  only_data_changed h h'
  /\ (within_capacity h -> within_capacity h')
  /\ exists new, queue_from_log h h' new.

(** Inputs for the examples of the further properties. *)

(** A frame of the alternate profile: 416 floats. *)
Definition alt_frame (start : nat) : list float :=
  map (fun i => float_of_nat (start + i)) (seq 0 416).

(** A network that connects and replies to the rate query. *)
Definition cooperative (reply : string) : Network :=
  MkNetwork true (replying reply).

(** Two channels, recording, with three chunks waiting on the queue of a
    streaming handler. *)
Definition waiting_chunks : list output_data :=
  [MkOutput 0 "L-TIBI" [1; 2]%float; MkOutput 1 "L-GAST" [3]%float;
   MkOutput 0 "L-TIBI" [4]%float].

Definition queued_handler : DelsysDataHandler :=
  set_streaming true (set_output_queue (MkQueue 1000 waiting_chunks) built_handler).

Definition recording_globals : Session.Globals :=
  Session.MkGlobals
    (App.MkState (Some queued_handler) (App.empty_buffers 2) true None None 1 [])
    (Session.new_live_buffers 2).

(** The handler of the application once it streams, and the globals just
    after a start with it. *)
Definition streaming_handler : DelsysDataHandler :=
  set_streaming true built_handler.

Definition started_globals : Session.Globals :=
  Session.MkGlobals
    (App.MkState (Some streaming_handler) (App.empty_buffers 16) true None
       None 1 [])
    (Session.new_live_buffers 16).

(** Two reads of the data socket, of the 1728 bytes of a frame: one of
    zeros, and one whose first four bytes are those of a float32 NaN
    ([0x7fc00000], little-endian), which [struct.unpack] returns as
    [float('nan')]. *)
Definition zero_read : list Init.Byte.byte := repeat Byte.x00 1728.
Definition nan_read : list Init.Byte.byte :=
  [Byte.x00; Byte.x00; Byte.xc0; Byte.x7f] ++ repeat Byte.x00 1724.

(** The window of channel 0 after two reads of zeros and the read with the
    NaN: the 81 samples received less the 6 oldest. *)
Definition nan_window : list float :=
  repeat 0%float 48 ++ [nan] ++ repeat 0%float 26.

(** A session of the application: a start, three frames of zeros from the
    data thread, and the sixteen turns in which the worker records the
    sixteen chunks. *)
Definition one_session : list Session.event :=
  [Session.start_recording (Session.MkStartEnv clock (cooperative "2000.000"));
   Session.meanwhile
     (Session.data_thread [Ok zero_read; Ok zero_read; Ok zero_read])]
  ++ map (fun i => Session.meanwhile (Session.worker_turn 1000 (75 * i)))
       (seq 0 16).

(** A stop request that has made its file names when a second session is
    started, recorded and stopped; the first stop then writes its files. *)
Definition overlapping_stops : list Session.event :=
  one_session
  ++ [Session.stop_recording saving [] [] []
        (one_session ++ [Session.stop_recording saving [] [] [] []])].

(** A stop request during which the worker and the data thread go on. *)
Definition stop_among_threads : Session.event :=
  Session.stop_recording saving
    [Session.meanwhile Session.worker_get;
     Session.meanwhile (Session.worker_record 1001 (sample_chunk 0) 0)]
    [Session.meanwhile (Session.worker_live (sample_chunk 0));
     Session.meanwhile (Session.data_thread_channel (ramp_frame 0) 0)]
    [Session.meanwhile (Session.data_thread [Ok zero_read])]
    [Session.meanwhile (Session.worker_turn 1002 0)].

(** A client that waits for each response: a session, a look at the
    preview, the stop above, and a second session. *)
Definition serial_history : list Session.event :=
  one_session ++ [Session.get_live_data; stop_among_threads] ++ one_session.

(* ================================================================= *)
(** * Proofs *)

(* ================================================================= *)
(** ** Containers: lemmas *)

Section ContainerLemmas.
Variable A : Type.
Implicit Types (l xs : list A) (d : deque A).

Lemma lastn_length n l : length (lastn n l) = Nat.min n (length l).
Proof. unfold lastn. rewrite length_skipn. lia. Qed.

Lemma lastn_all n l : length l <= n -> lastn n l = l.
Proof.
  intros H. unfold lastn. replace (length l - n) with 0 by lia. reflexivity.
Qed.

Lemma lastn_app_lastn n l xs : lastn n (lastn n l ++ xs) = lastn n (l ++ xs).
Proof.
  unfold lastn. rewrite !length_app, length_skipn.
  destruct (Nat.le_gt_cases (length l) n) as [Hle | Hgt].
  - replace (length l - n) with 0 by lia. simpl. rewrite Nat.sub_0_r. reflexivity.
  - rewrite (skipn_app (length l + length xs - n) l xs).
    rewrite (skipn_app _ (skipn (length l - n) l) xs).
    rewrite skipn_skipn, length_skipn.
    f_equal; [ f_equal | f_equal ]; lia.
Qed.

Lemma lastn_app_long n l xs : n <= length xs -> lastn n (l ++ xs) = lastn n xs.
Proof.
  intros H. unfold lastn. rewrite length_app, skipn_app.
  rewrite (skipn_all2 l) by lia. simpl. f_equal. lia.
Qed.

Lemma deque_append_maxlen d x : maxlen (deque_append d x) = maxlen d.
Proof.
  unfold deque_append.
  destruct (maxlen d =? 0); [ reflexivity | ].
  destruct (maxlen d <=? length (items d)); reflexivity.
Qed.

Lemma deque_append_items d x :
  length (items d) <= maxlen d ->
  items (deque_append d x) = lastn (maxlen d) (items d ++ [x]).
Proof.
  intros H. unfold deque_append, lastn. rewrite length_app.
  change (length [x]) with 1.
  destruct (Nat.eqb_spec (maxlen d) 0) as [E | NE].
  - destruct (items d) as [| y t]; cbn [length] in H; [ | lia ].
    rewrite E. reflexivity.
  - destruct (Nat.leb_spec (maxlen d) (length (items d))) as [Hfull | Hroom];
      cbn [items].
    + destruct (items d) as [| y t]; cbn [length] in *; [ lia | ].
      replace (S (length t) + 1 - maxlen d) with 1 by lia. reflexivity.
    + replace (length (items d) + 1 - maxlen d) with 0 by lia. reflexivity.
Qed.

Lemma deque_extend_maxlen xs : forall d, maxlen (deque_extend d xs) = maxlen d.
Proof.
  unfold deque_extend. induction xs as [| x xs IH]; intros d; simpl.
  - reflexivity.
  - rewrite IH. apply deque_append_maxlen.
Qed.

(** [extend] on a bounded deque keeps the newest [maxlen] elements. *)
Lemma deque_extend_items xs : forall d,
  length (items d) <= maxlen d ->
  items (deque_extend d xs) = lastn (maxlen d) (items d ++ xs).
Proof.
  unfold deque_extend. induction xs as [| x xs IH]; intros d H; simpl.
  - rewrite app_nil_r. symmetry. apply lastn_all. exact H.
  - rewrite IH.
    + rewrite deque_append_maxlen, deque_append_items by exact H.
      rewrite lastn_app_lastn, <- app_assoc. reflexivity.
    + rewrite deque_append_maxlen, deque_append_items by exact H.
      rewrite lastn_length. lia.
Qed.

Lemma deque_extend_length d xs :
  length (items d) <= maxlen d ->
  length (items (deque_extend d xs))
  = Nat.min (maxlen d) (length (items d) + length xs).
Proof.
  intros H. rewrite deque_extend_items by exact H.
  rewrite lastn_length, length_app. reflexivity.
Qed.

(** The length of a strided slice. *)
Lemma take_every_length p : forall l k,
  length (take_every (S p) k l) = (length l + p - k) / S p.
Proof.
  induction l as [| x t IH]; intros k; cbn [take_every length].
  - symmetry. apply Nat.div_small. lia.
  - destruct k as [| k'].
    + cbn [length]. rewrite IH.
      replace (S p - 1) with p by lia.
      replace (length t + p - p) with (length t) by lia.
      replace (S (length t) + p - 0) with (length t + 1 * S p) by lia.
      rewrite Nat.div_add by lia. lia.
    + rewrite IH. f_equal.
Qed.

Lemma slice_from_step_length n s l c :
  length l = n * S s -> c <= s ->
  length (slice_from_step c (S s) l) = n.
Proof.
  intros Hl Hc. unfold slice_from_step. rewrite take_every_length, Hl.
  replace (n * S s + s - c) with ((s - c) + n * S s) by lia.
  rewrite Nat.div_add by lia. rewrite Nat.div_small by lia. reflexivity.
Qed.

Lemma list_set_length l : forall i x, length (list_set l i x) = length l.
Proof.
  induction l as [| y t IH]; intros [| i] x; simpl; try reflexivity.
  rewrite IH. reflexivity.
Qed.

Lemma nth_error_list_set_eq l : forall i x,
  i < length l -> nth_error (list_set l i x) i = Some x.
Proof.
  induction l as [| y t IH]; intros [| i] x H; simpl in *; try lia.
  - reflexivity.
  - apply IH. lia.
Qed.

Lemma nth_error_list_set_neq l : forall i j x,
  i <> j -> nth_error (list_set l i x) j = nth_error l j.
Proof.
  induction l as [| y t IH]; intros [| i] [| j] x H; simpl; try reflexivity.
  - contradiction.
  - apply IH. congruence.
Qed.

End ContainerLemmas.

(* ================================================================= *)
(** ** The output queue *)

Lemma set_output_queue_same (h : DelsysDataHandler) :
  set_output_queue (output_queue h) h = h.
Proof. destruct h. reflexivity. Qed.

(** One push: the queue keeps the newest [maxsize] of its entries and the
    pushed one, and nothing is raised. *)
Lemma put_drop_oldest_spec (h : DelsysDataHandler) (x : output_data) :
  0 < maxsize (output_queue h) ->
  qsize (output_queue h) <= maxsize (output_queue h) ->
  put_drop_oldest x h
  = (Ok tt,
     set_output_queue
       (MkQueue (maxsize (output_queue h))
          (lastn (maxsize (output_queue h)) (qitems (output_queue h) ++ [x]))) h).
Proof.
  intros Hpos Hsize.
  unfold put_drop_oldest, try_except, q_put_nowait, q_get_nowait, bind, get,
    lift, modify, ret, put_nowait, get_nowait, qsize in *.
  destruct (output_queue h) as [m its] eqn:Eq. cbn [maxsize qitems] in *.
  destruct (Nat.ltb_spec 0 m) as [_ | ?]; [ | lia ]. cbn [andb].
  destruct (Nat.leb_spec m (length its)) as [Hfull | Hroom].
  - cbn [reraise_unless]. rewrite Eq. cbn [qitems maxsize].
    destruct its as [| y t]; cbn [length] in *; [ lia | ].
    cbn [snd fst output_queue set_output_queue qitems maxsize].
    destruct (Nat.ltb_spec 0 m) as [_ | ?]; [ | lia ]. cbn [andb].
    destruct (Nat.leb_spec m (length t)) as [? | _]; [ lia | ].
    unfold lastn. rewrite length_app. cbn [length app].
    replace (S (length t) + 1 - m) with 1 by lia. reflexivity.
  - rewrite lastn_all by (rewrite length_app; cbn [length]; lia). reflexivity.
Qed.

Lemma for_each_put_drop_oldest (pushed : list output_data) :
  forall h : DelsysDataHandler,
  0 < maxsize (output_queue h) ->
  qsize (output_queue h) <= maxsize (output_queue h) ->
  for_each pushed put_drop_oldest h
  = (Ok tt,
     set_output_queue
       (MkQueue (maxsize (output_queue h))
          (lastn (maxsize (output_queue h)) (qitems (output_queue h) ++ pushed))) h).
Proof.
  induction pushed as [| x rest IH]; intros h Hpos Hsize.
  - cbn [for_each]. unfold ret. rewrite app_nil_r, lastn_all by exact Hsize.
    destruct h as [? ? ? ? [m its] ? ? ? ? ? ? ? ? ?]. reflexivity.
  - cbn [for_each]. unfold bind at 1. rewrite put_drop_oldest_spec by assumption.
    rewrite IH; cbn [output_queue set_output_queue maxsize qitems qsize].
    + rewrite lastn_app_lastn, <- app_assoc. reflexivity.
    + exact Hpos.
    + unfold qsize. cbn [qitems]. rewrite lastn_length. lia.
Qed.

(** C3: pushing more than 1000 chunks into the output queue (capacity 1000,
    nothing consumed meanwhile) raises nothing and leaves exactly 1000
    chunks: the 1000 pushed last, in the order they were pushed. *)
Theorem output_queue_keeps_newest_1000
    (h : DelsysDataHandler) (pushed : list output_data) :
  maxsize (output_queue h) = 1000 ->
  qsize (output_queue h) <= 1000 ->
  1000 < length pushed ->
  let r := for_each pushed put_drop_oldest h in
  fst r = Ok tt
  /\ qsize (output_queue (snd r)) = 1000
  /\ qitems (output_queue (snd r)) = skipn (length pushed - 1000) pushed.
Proof.
  intros Hmax Hsize Hlen r. subst r.
  rewrite for_each_put_drop_oldest by lia.
  unfold qsize. cbn [fst snd output_queue set_output_queue qitems]. rewrite Hmax.
  rewrite lastn_app_long by lia.
  split; [ reflexivity | split ].
  - rewrite lastn_length. lia.
  - reflexivity.
Qed.

(** On the queue of a new handler, 1002 chunks pushed. *)
Lemma output_queue_keeps_newest_1000_witness :
  let h := init_attributes 16 2000 false in
  let pushed := map sample_chunk (seq 0 1002) in
  let r := for_each pushed put_drop_oldest h in
  fst r = Ok tt
  /\ qsize (output_queue (snd r)) = 1000
  /\ qitems (output_queue (snd r)) = skipn (length pushed - 1000) pushed.
Proof.
  apply (output_queue_keeps_newest_1000 (init_attributes 16 2000 false)
           (map sample_chunk (seq 0 1002))).
  - reflexivity.
  - cbn. lia.
  - rewrite length_map, length_seq. lia.
Defined.

(* ================================================================= *)
(** ** The handler: invariants *)

Section HandlerInvariants.
Context {L : SciPy} {LL : SciPyLaws L}.

Lemma and_then_ok {A B} (r : result A) (k : A -> result B) y :
  and_then r k = Ok y -> exists x, r = Ok x /\ k x = Ok y.
Proof. destruct r as [x | e]; simpl; intros H; [ eauto | discriminate ]. Qed.

Lemma stage_rectify_length x : length (stage_rectify x) = length x.
Proof. apply length_map. Qed.

Lemma stage_envelope_length h x y :
  stage_envelope h x = Ok y -> length y = length x.
Proof.
  unfold stage_envelope. destruct (envelope h); intros H.
  - eapply filtfilt_shape; eassumption.
  - congruence.
Qed.

(** The pipeline preserves the length of the window. *)
Lemma process_emg_channel_length h x y :
  process_emg_channel h x = Ok y -> length y = length x.
Proof.
  unfold process_emg_channel. intros H.
  apply and_then_ok in H as (x1 & H1 & H).
  apply and_then_ok in H as (x2 & H2 & H).
  apply and_then_ok in H as (x3 & H3 & H).
  apply stage_envelope_length in H. rewrite stage_rectify_length in H.
  apply filtfilt_shape in H1, H2, H3. congruence.
Qed.

Lemma filtfilt_ready c n x :
  designed c -> taps c n -> 3 * n < length x ->
  exists y, filtfilt (b_ c) (a_ c) x = Ok y /\ length y = length x.
Proof.
  intros Hd [Hb Ha] Hx.
  destruct (@filtfilt_returns L LL c x Hd) as [y Hy].
  - unfold padlen. rewrite Hb, Ha, Nat.max_id. exact Hx.
  - exists y. split; [ exact Hy | eapply filtfilt_shape; exact Hy ].
Qed.

(** On a window of more than 27 samples the pipeline returns. *)
Lemma process_emg_channel_returns h x :
  filters_ready h -> 27 < length x ->
  exists y, process_emg_channel h x = Ok y /\ length y = length x.
Proof.
  intros [[Dh Th] [Dn Tn] [Db Tb] [Dl Tl]] Hx.
  unfold process_emg_channel, stage_highpass, stage_notch, stage_bandpass.
  destruct (filtfilt_ready x Dh Th) as (x1 & E1 & L1); [ lia | ].
  destruct (filtfilt_ready x1 Dn Tn) as (x2 & E2 & L2); [ lia | ].
  destruct (filtfilt_ready x2 Db Tb) as (x3 & E3 & L3); [ lia | ].
  rewrite E1. cbn [and_then]. rewrite E2. cbn [and_then]. rewrite E3.
  cbn [and_then]. unfold stage_envelope. destruct (envelope h).
  - destruct (filtfilt_ready (stage_rectify x3) Dl Tl) as (x5 & E5 & L5).
    + rewrite stage_rectify_length. lia.
    + exists x5. split; [ exact E5 | ]. rewrite L5, stage_rectify_length. lia.
  - eexists. split; [ reflexivity | ]. rewrite stage_rectify_length. lia.
Qed.

End HandlerInvariants.

(* ================================================================= *)
(** ** Filter design *)

Section Design.
Context {L : SciPy}.
Local Open Scope float_scope.

Lemma _design_filters_eq (h : DelsysDataHandler) :
  _design_filters h =
  match design_hp (SAMPLING_RATE h) with
  | Raise e => (Raise e, h)
  | Ok c1 =>
    match design_notch (SAMPLING_RATE h) with
    | Raise e => (Raise e, set_hp c1 h)
    | Ok c2 =>
      match design_bp (SAMPLING_RATE h) with
      | Raise e => (Raise e, set_notch c2 (set_hp c1 h))
      | Ok c3 =>
        match design_lp (SAMPLING_RATE h) with
        | Raise e => (Raise e, set_bp c3 (set_notch c2 (set_hp c1 h)))
        | Ok c4 => (Ok tt, set_lp c4 (set_bp c3 (set_notch c2 (set_hp c1 h))))
        end
      end
    end
  end.
Proof.
  unfold _design_filters, design_hp, design_notch, design_bp, design_lp,
    bind, get, lift, modify.
  destruct (butter 2 _ high); [ | reflexivity ]. cbn [SAMPLING_RATE set_hp].
  destruct (iirnotch _ _); [ | reflexivity ]. cbn [SAMPLING_RATE set_hp set_notch].
  destruct (butter 4 _ band); [ | reflexivity ].
  destruct (butter 2 _ low); reflexivity.
Qed.

Lemma _design_filters_frame (h : DelsysDataHandler) :
  same_but_filters h (snd (_design_filters h)).
Proof.
  rewrite _design_filters_eq. unfold same_but_filters.
  destruct (design_hp _); [ | destruct h; reflexivity ].
  destruct (design_notch _); [ | destruct h; reflexivity ].
  destruct (design_bp _); [ | destruct h; reflexivity ].
  destruct (design_lp _); destruct h; reflexivity.
Qed.

Lemma _design_filters_ok (h h' : DelsysDataHandler) :
  _design_filters h = (Ok tt, h') -> designed_for (SAMPLING_RATE h) h'.
Proof.
  rewrite _design_filters_eq. unfold designed_for.
  destruct (design_hp _) as [c1 |]; [ | discriminate ].
  destruct (design_notch _) as [c2 |]; [ | discriminate ].
  destruct (design_bp _) as [c3 |]; [ | discriminate ].
  destruct (design_lp _) as [c4 |]; [ | discriminate ].
  intros H. injection H as <-. repeat split; reflexivity.
Qed.

Context {LL : SciPyLaws L}.

Lemma butter_ready n Wn bt c :
  butter n Wn bt = Ok c -> designed c /\ taps c (butter_taps n bt).
Proof.
  intros H. split.
  - left. eauto.
  - eapply butter_size. exact H.
Qed.

Lemma iirnotch_ready w0 Q c :
  iirnotch w0 Q = Ok c -> designed c /\ taps c 3.
Proof.
  intros H. split.
  - right. eauto.
  - eapply iirnotch_size. exact H.
Qed.

Lemma designed_for_ready fs h : designed_for fs h -> filters_ready h.
Proof.
  intros (H1 & H2 & H3 & H4).
  split; [ exact (@butter_ready 2 _ high _ H1) | exact (@iirnotch_ready _ _ _ H2)
         | exact (@butter_ready 4 _ band _ H3) | exact (@butter_ready 2 _ low _ H4) ].
Qed.

(** Whatever [_design_filters] does, including a design that raises half
    way, coefficient pairs that were ready stay ready. *)
Lemma _design_filters_keeps_ready (h : DelsysDataHandler) :
  filters_ready h -> filters_ready (snd (_design_filters h)).
Proof.
  intros [Rh Rn Rb Rl]. rewrite _design_filters_eq.
  destruct (design_hp _) as [c1 |] eqn:E1; [ | split; assumption ].
  apply butter_ready in E1.
  destruct (design_notch _) as [c2 |] eqn:E2; [ | split; assumption ].
  apply iirnotch_ready in E2.
  destruct (design_bp _) as [c3 |] eqn:E3; [ | split; assumption ].
  apply butter_ready in E3.
  destruct (design_lp _) as [c4 |] eqn:E4; [ | split; assumption ].
  apply butter_ready in E4.
  split; assumption.
Qed.

(** The critical frequencies of the two supported rates are valid, so the
    design returns at these rates. *)
Lemma design_returns fs (h : DelsysDataHandler) :
  fs = rate_2000 \/ fs = rate_1925_926 ->
  SAMPLING_RATE h = fs ->
  exists h', _design_filters h = (Ok tt, h').
Proof.
  intros Hfs Hrate. rewrite _design_filters_eq, Hrate.
  unfold design_hp, design_notch, design_bp, design_lp.
  destruct (@butter_returns L LL 2%nat [0.5 / (0.5 * fs)] high) as [c1 ->];
    [ lia | destruct Hfs as [-> | ->]; reflexivity | ].
  destruct (@iirnotch_returns L LL (60 / (0.5 * fs)) 30) as [c2 ->];
    [ destruct Hfs as [-> | ->]; reflexivity | ].
  destruct (@butter_returns L LL 4%nat [20 / (0.5 * fs); 450 / (0.5 * fs)] band)
    as [c3 ->]; [ lia | destruct Hfs as [-> | ->]; reflexivity | ].
  destruct (@butter_returns L LL 2%nat [10 / (0.5 * fs)] low) as [c4 ->];
    [ lia | destruct Hfs as [-> | ->]; reflexivity | ].
  eauto.
Qed.

End Design.

(* ================================================================= *)
(** ** One frame *)

Lemma same_settings_refl h : same_settings h h.
Proof. split; reflexivity. Qed.

Lemma same_settings_trans h1 h2 h3 :
  same_settings h1 h2 -> same_settings h2 h3 -> same_settings h1 h3.
Proof. intros [] []. split; congruence. Qed.

Lemma Forall_list_set {A} (P : A -> Prop) (l : list A) : forall i x,
  Forall P l -> P x -> Forall P (list_set l i x).
Proof.
  induction l as [| y t IH]; intros [| i] x Hl Hx; cbn [list_set];
    inversion Hl; subst; constructor; auto.
Qed.

Lemma list_set_twice {A} (l : list A) : forall i x y,
  list_set (list_set l i x) i y = list_set l i y.
Proof.
  induction l as [| z t IH]; intros [| i] x y; cbn [list_set]; try reflexivity.
  rewrite IH. reflexivity.
Qed.

Section Frames.
Context {L : SciPy} {LL : SciPyLaws L}.

Lemma chunk_of_same h h' p :
  same_settings h h' -> chunk_of h' p = chunk_of h p.
Proof.
  intros [_ _ Hl _ He _ H1 H2 H3 H4]. unfold chunk_of, process_emg_channel,
    stage_highpass, stage_notch, stage_bandpass, stage_envelope.
  rewrite Hl, He, H1, H2, H3, H4. reflexivity.
Qed.

Lemma wf_buffer_lookup h c :
  wf h -> c < NUM_SENSORS h ->
  exists d, nth_error (emg_processing_buffers h) c = Some d
            /\ nth c (emg_processing_buffers h) (deque_new 0) = d
            /\ maxlen d = 75 /\ length (items d) < 75.
Proof.
  intros W Hc. destruct W as [_ Hlen Hdq _ _ _].
  rewrite <- Hlen in Hc.
  exists (nth c (emg_processing_buffers h) (deque_new 0)).
  split; [ apply nth_error_nth'; exact Hc | split; [ reflexivity | ] ].
  rewrite Forall_forall in Hdq. apply Hdq. apply nth_In. exact Hc.
Qed.

Lemma extended_length h raw c :
  wf h -> c < NUM_SENSORS h -> length (extended h raw c) <= 75.
Proof.
  intros W Hc. destruct (wf_buffer_lookup W Hc) as (d & _ & Hd & Hmax & Hlen).
  unfold extended. rewrite Hd, deque_extend_length by lia. lia.
Qed.

(** One turn of the loop of [_process_raw_data] on a well-formed handler. *)
Lemma channel_turn h raw c :
  wf h -> c < NUM_SENSORS h ->
  exists h',
    _process_raw_data_channel raw c h = (Ok tt, h')
    /\ wf h' /\ same_settings h h'
    /\ emg_processing_buffers h'
       = list_set (emg_processing_buffers h) c
           (Deque 75 (after_turn 75 (extended h raw c)))
    /\ filter_passes h' = filter_passes h ++ pass_of 75 c (extended h raw c)
    /\ qitems (output_queue h')
       = lastn 1000 (qitems (output_queue h)
                     ++ map (chunk_of h) (pass_of 75 c (extended h raw c))).
Proof.
  intros W Hc.
  destruct (wf_buffer_lookup W Hc) as (d & Hnth & Hd & Hmax & Hlen).
  pose proof (extended_length raw W Hc) as Hext.
  destruct W as [Hacc Hbufs Hdq Hlab [Hqm Hqs] Hf].
  unfold _process_raw_data_channel, bind, get, lift, modify, index.
  rewrite Hnth, Hacc. unfold after_turn, pass_of.
  fold (extended h raw c) in *. unfold extended in *. rewrite Hd in *.
  set (ext := items (deque_extend d (slice_from_step c (NUM_SENSORS h) raw))) in *.
  assert (Hdm : maxlen (deque_extend d (slice_from_step c (NUM_SENSORS h) raw)) = 75)
    by (rewrite deque_extend_maxlen; exact Hmax).
  destruct (Nat.leb_spec 75 (length ext)) as [Hfull | Hpart].
  - destruct (process_emg_channel_returns (h:=h) ext Hf) as (y & Hy & Hylen);
      [ lia | ].
    rewrite Hy.
    destruct (nth_error (muscle_labels h) c) as [lab |] eqn:Elab;
      [ | apply nth_error_None in Elab; lia ].
    rewrite put_drop_oldest_spec
      by (cbn [output_queue log_filter_pass set_emg_processing_buffers]; lia).
    cbn [output_queue log_filter_pass set_emg_processing_buffers
         set_output_queue emg_processing_buffers].
    unfold deque_clear. rewrite Hdm, list_set_twice.
    eexists. split; [ reflexivity | ].
    cbn [emg_processing_buffers set_emg_processing_buffers filter_passes
         set_output_queue log_filter_pass].
    split; [ | split; [ split; reflexivity | split; [ reflexivity | split ] ] ];
      [ | reflexivity
        | cbn [output_queue qitems map]; unfold chunk_of; cbn [fst snd];
          rewrite Hy, Hqm, (nth_error_nth _ _ _ Elab); reflexivity ].
    split; cbn [ACCUMULATION_SIZE emg_processing_buffers NUM_SENSORS
                muscle_labels output_queue set_emg_processing_buffers
                set_output_queue log_filter_pass]; try assumption.
    + rewrite list_set_length. exact Hbufs.
    + apply Forall_list_set; [ exact Hdq | cbn; lia ].
    + unfold qsize. cbn [maxsize qitems]. rewrite lastn_length. lia.
    + destruct Hf. split; assumption.
  - eexists. split; [ reflexivity | ].
    cbn [emg_processing_buffers set_emg_processing_buffers filter_passes].
    split; [ | split; [ split; reflexivity | split ] ].
    + split; cbn [ACCUMULATION_SIZE emg_processing_buffers NUM_SENSORS
                  muscle_labels output_queue set_emg_processing_buffers];
        try assumption.
      * rewrite list_set_length. exact Hbufs.
      * apply Forall_list_set; [ exact Hdq | ]. split; [ exact Hdm | exact Hpart ].
      * split; assumption.
      * destruct Hf. split; assumption.
    + f_equal. subst ext.
      destruct (deque_extend d _) as [m its]. cbn in Hdm |- *. congruence.
    + cbn [map output_queue]. rewrite !app_nil_r.
      split; [ reflexivity | ]. symmetry. apply lastn_all. exact Hqs.
Qed.

Lemma nth_list_set_eq {A} (l : list A) : forall i x d,
  i < length l -> nth i (list_set l i x) d = x.
Proof.
  induction l as [| y t IH]; intros [| i] x d H; cbn [length list_set nth] in *;
    try lia; [ reflexivity | apply IH; lia ].
Qed.

Lemma nth_list_set_neq {A} (l : list A) : forall i j x d,
  i <> j -> nth j (list_set l i x) d = nth j l d.
Proof.
  induction l as [| y t IH]; intros [| i] [| j] x d H; cbn [list_set nth];
    try reflexivity; [ contradiction | apply IH; congruence ].
Qed.

Lemma flat_map_ext_In {A B} (f g : A -> list B) (l : list A) :
  (forall a, In a l -> f a = g a) -> flat_map f l = flat_map g l.
Proof.
  induction l as [| a t IH]; intros H; cbn [flat_map]; [ reflexivity | ].
  rewrite (H a) by (left; reflexivity). rewrite IH; [ reflexivity | ].
  intros a' Ha'. apply H. right. exact Ha'.
Qed.

(** The loop of [_process_raw_data] over a list of distinct channels. *)
Lemma channels_loop raw : forall cs h,
  wf h -> NoDup cs -> (forall c, In c cs -> c < NUM_SENSORS h) ->
  exists h',
    for_each cs (_process_raw_data_channel raw) h = (Ok tt, h')
    /\ wf h' /\ same_settings h h'
    /\ (forall c, In c cs -> buffer h' c = after_turn 75 (extended h raw c))
    /\ (forall c, ~ In c cs ->
          nth c (emg_processing_buffers h') (deque_new 0)
          = nth c (emg_processing_buffers h) (deque_new 0))
    /\ filter_passes h'
       = filter_passes h ++ flat_map (fun c => pass_of 75 c (extended h raw c)) cs
    /\ qitems (output_queue h')
       = lastn 1000 (qitems (output_queue h)
           ++ map (chunk_of h)
                (flat_map (fun c => pass_of 75 c (extended h raw c)) cs)).
Proof.
  induction cs as [| x cs IH]; intros h W Hnd Hlt.
  - exists h. cbn [for_each flat_map map]. rewrite !app_nil_r.
    split; [ reflexivity | ]. split; [ exact W | ].
    split; [ apply same_settings_refl | ].
    split; [ intros c [] | ]. split; [ reflexivity | ].
    split; [ reflexivity | ]. symmetry. apply lastn_all. apply (wf_queue W).
  - inversion Hnd as [| ? ? Hx Hnd']; subst.
    destruct (@channel_turn h raw x W) as (h1 & E1 & W1 & S1 & B1 & P1 & Q1);
      [ apply Hlt; left; reflexivity | ].
    destruct (IH h1 W1 Hnd') as (h' & E' & W' & S' & Bin & Bout & P' & Q').
    { intros c Hc. rewrite (same_NUM_SENSORS S1). apply Hlt. right. exact Hc. }
    assert (Hsame : forall c, c <> x -> extended h1 raw c = extended h raw c).
    { intros c Hcx. unfold extended.
      rewrite (same_NUM_SENSORS S1), B1, nth_list_set_neq by congruence.
      reflexivity. }
    exists h'. cbn [for_each]. unfold bind at 1. rewrite E1.
    split; [ exact E' | ]. split; [ exact W' | ].
    split; [ eapply same_settings_trans; eassumption | ].
    assert (Hfm : flat_map (fun c => pass_of 75 c (extended h1 raw c)) cs
                  = flat_map (fun c => pass_of 75 c (extended h raw c)) cs).
    { apply flat_map_ext_In. intros c Hc. rewrite Hsame; [ reflexivity | ].
      intros ->. contradiction. }
    split; [ | split; [ | split ] ].
    + intros c [<- | Hc].
      * unfold buffer. rewrite (Bout x Hx), B1, nth_list_set_eq; [ reflexivity | ].
        rewrite (wf_buffers W). apply Hlt. left. reflexivity.
      * rewrite (Bin c Hc), Hsame; [ reflexivity | ]. intros ->. contradiction.
    + intros c Hc. rewrite Bout by (intros Hc'; apply Hc; right; exact Hc').
      rewrite B1. apply nth_list_set_neq. intros ->. apply Hc. left. reflexivity.
    + rewrite P', P1, <- app_assoc, Hfm. reflexivity.
    + rewrite Q', Q1, Hfm, lastn_app_lastn, <- app_assoc. cbn [flat_map].
      rewrite map_app. do 3 f_equal. apply map_ext. intros p.
      apply chunk_of_same. exact S1.
Qed.

(** One frame: every channel takes its turn, nothing is raised. *)
Lemma frame_spec h raw :
  wf h ->
  exists h',
    _process_raw_data raw h = (Ok tt, h')
    /\ wf h' /\ same_settings h h'
    /\ (forall c, c < NUM_SENSORS h ->
          buffer h' c = after_turn 75 (extended h raw c))
    /\ filter_passes h' = filter_passes h ++ frame_passes h raw
    /\ qitems (output_queue h')
       = lastn 1000 (qitems (output_queue h)
                     ++ map (chunk_of h) (frame_passes h raw)).
Proof.
  intros W.
  destruct (@channels_loop raw (seq 0 (NUM_SENSORS h)) h W (seq_NoDup _ _))
    as (h' & E & W' & S & Bin & _ & P & Q).
  { intros c Hc. apply in_seq in Hc. lia. }
  exists h'. unfold _process_raw_data, try_except, bind, get. rewrite E.
  split; [ reflexivity | ]. split; [ exact W' | ]. split; [ exact S | ].
  unfold frame_passes. rewrite (wf_accumulation W). fold (pass_of 75).
  split; [ | split; [ exact P | exact Q ] ].
  intros c Hc. apply Bin. apply in_seq. lia.
Qed.

Lemma frame_passes_full h raw :
  wf h -> Forall (fun p => length (snd p) = 75) (frame_passes h raw).
Proof.
  intros W. apply Forall_forall. intros [c w] Hin.
  unfold frame_passes in Hin. apply in_flat_map in Hin as (c' & Hc' & Hin).
  apply in_seq in Hc'. rewrite (wf_accumulation W) in Hin.
  destruct (Nat.leb_spec 75 (length (extended h raw c'))) as [Hfull | ?];
    [ | contradiction ].
  destruct Hin as [Heq | []]. injection Heq as <- <-. cbn [snd].
  assert (length (extended h raw c') <= 75)
    by (apply extended_length; [ exact W | lia ]).
  lia.
Qed.

(** A sequence of frames keeps the handler well formed, and each call of
    the pipeline it causes is on 75 samples. *)
Lemma ingest_spec frames : forall h,
  wf h ->
  wf (ingest frames h) /\ same_settings h (ingest frames h)
  /\ exists new, filter_passes (ingest frames h) = filter_passes h ++ new
                 /\ Forall (fun p => length (snd p) = 75) new
                 /\ qitems (output_queue (ingest frames h))
                    = lastn 1000 (qitems (output_queue h) ++ map (chunk_of h) new).
Proof.
  induction frames as [| raw frames IH]; intros h W.
  - cbn. split; [ exact W | split; [ apply same_settings_refl | ] ].
    exists []. cbn [map]. rewrite !app_nil_r.
    split; [ reflexivity | split; [ constructor | ] ].
    symmetry. apply lastn_all. apply (wf_queue W).
  - destruct (frame_spec raw W) as (h1 & E1 & W1 & S1 & _ & P1 & Q1).
    unfold ingest. cbn [fold_left]. rewrite E1. cbn [snd].
    fold (ingest frames h1).
    destruct (IH h1 W1) as (W2 & S2 & new & P2 & F2 & Q2).
    split; [ exact W2 | split; [ eapply same_settings_trans; eassumption | ] ].
    exists (frame_passes h raw ++ new). split; [ | split ].
    + rewrite P2, P1, app_assoc. reflexivity.
    + apply Forall_app. split; [ apply frame_passes_full; exact W | exact F2 ].
    + rewrite Q2, Q1, lastn_app_lastn, <- app_assoc, map_app.
      do 3 f_equal. apply map_ext. intros p. apply chunk_of_same. exact S1.
Qed.

End Frames.

(* ================================================================= *)
(** ** Construction *)

Section Construction.
Context {L : SciPy} {LL : SciPyLaws L}.

(** A handler that [__init__] returned is well formed, for up to 16
    sensors (the number of muscle labels). *)
Lemma init_wf num_sensors sampling_rate env h :
  __init__ num_sensors sampling_rate env = Ok h ->
  num_sensors <= 16 ->
  wf h /\ designed_for sampling_rate h /\ SAMPLING_RATE h = sampling_rate
  /\ rate_adjusted_bytes h = 1728 /\ filter_passes h = []
  /\ forall c, c < num_sensors -> buffer h c = [].
Proof.
  unfold __init__. intros H Hn.
  pose proof (_design_filters_frame (init_attributes num_sensors sampling_rate env)) as Hs.
  destruct (_design_filters _) as [[[] | e] h1] eqn:E; [ | discriminate ].
  injection H as <-. cbn [snd] in Hs.
  apply _design_filters_ok in E. cbn [SAMPLING_RATE init_attributes] in E.
  pose proof (designed_for_ready E) as R.
  unfold same_but_filters in Hs.
  assert (Hb : emg_processing_buffers h1
               = map (fun _ => deque_new 75) (seq 0 num_sensors))
    by (rewrite Hs; reflexivity).
  split; [ | split; [ exact E | ] ].
  - split; try (rewrite Hs; cbn; first [ reflexivity | lia ]); [ | | exact R ].
    + rewrite Hb, length_map, length_seq, Hs. reflexivity.
    + rewrite Hb. apply Forall_forall. intros d Hd.
      apply in_map_iff in Hd as (i & <- & _). cbn. lia.
  - split; [ rewrite Hs; reflexivity | ].
    split; [ rewrite Hs; reflexivity | ].
    split; [ rewrite Hs; reflexivity | ].
    intros c Hc. unfold buffer. rewrite Hb.
    rewrite (nth_indep _ _ (deque_new 75)) by (rewrite length_map, length_seq; exact Hc).
    rewrite (map_nth (fun _ => deque_new 75) (seq 0 num_sensors) 0 c). reflexivity.
Qed.

End Construction.

Lemma unit_taps_length n : length (AllPass.unit_taps n) = n.
Proof. destruct n; cbn; [ reflexivity | rewrite repeat_length; reflexivity ]. Qed.

Lemma AllPass_laws : SciPyLaws AllPass.scipy.
Proof.
  split; cbn [butter iirnotch filtfilt AllPass.scipy].
  - intros n Wn bt _ H. unfold AllPass.butter. rewrite H. eauto.
  - intros n Wn bt c. unfold AllPass.butter.
    destruct (valid_Wn bt Wn); [ | discriminate ].
    intros H. injection H as <-. cbn [b_ a_]. rewrite unit_taps_length. auto.
  - intros w0 Q H. unfold AllPass.iirnotch. rewrite H. eauto.
  - intros w0 Q c. unfold AllPass.iirnotch.
    destruct (critical w0); [ | discriminate ].
    intros H. injection H as <-. auto.
  - intros b a x H. unfold AllPass.filtfilt.
    destruct (Nat.leb_spec (length x) (padlen b a)); [ reflexivity | lia ].
  - intros c x _ H. unfold AllPass.filtfilt.
    destruct (Nat.leb_spec (length x) (padlen (b_ c) (a_ c))); [ lia | eauto ].
  - intros b a x y. unfold AllPass.filtfilt.
    destruct (length x <=? padlen b a); [ discriminate | congruence ].
Qed.

Lemma built_handler_init :
  __init__ (L := AllPass.scipy) 16 2000 false = Ok built_handler.
Proof. reflexivity. Qed.

Lemma built_handler_wf : @wf AllPass.scipy built_handler.
Proof.
  apply (@init_wf AllPass.scipy AllPass_laws 16 2000%float false built_handler
           built_handler_init).
  lia.
Defined.

(* ================================================================= *)
(** ** Accumulation and drain *)

Section Accumulation.
Context {L : SciPy} {LL : SciPyLaws L}.

Lemma in_frame_passes h raw c w :
  wf h ->
  In (c, w) (frame_passes h raw)
  <-> c < NUM_SENSORS h /\ w = extended h raw c
      /\ length (extended h raw c) = 75.
Proof.
  intros W. unfold frame_passes. rewrite (wf_accumulation W), in_flat_map.
  split.
  - intros (c' & Hc' & Hin). apply in_seq in Hc'.
    assert (length (extended h raw c') <= 75)
      by (apply extended_length; [ exact W | lia ]).
    destruct (Nat.leb_spec 75 (length (extended h raw c'))); [ | contradiction ].
    destruct Hin as [Heq | []]. injection Heq as <- <-.
    repeat split; lia.
  - intros (Hc & -> & Hlen). exists c. split; [ apply in_seq; lia | ].
    rewrite Hlen. left. reflexivity.
Qed.

(** C6: at every point of every sequence of frames, the frame that follows
    raises nothing and calls the filter pipeline for channel [c] exactly
    when the buffer of [c], with the samples of the frame added, has reached
    75 samples; the array handed over is that buffer, of exactly 75 samples;
    the buffer is empty after the call, and otherwise keeps the added
    samples.  No call since the start was on another number of samples. *)
Theorem filtering_pass_exactly_on_full_buffer
    (h0 : DelsysDataHandler) (frames : list (list float)) (raw : list float) :
  wf h0 ->
  let h := ingest frames h0 in
  let h' := snd (_process_raw_data raw h) in
  ACCUMULATION_SIZE h = 75
  /\ fst (_process_raw_data raw h) = Ok tt
  /\ filter_passes h' = filter_passes h ++ frame_passes h raw
  /\ (forall c w, In (c, w) (frame_passes h raw)
                  <-> c < NUM_SENSORS h /\ w = extended h raw c
                      /\ length (extended h raw c) = 75)
  /\ (forall c, c < NUM_SENSORS h ->
        length (buffer h c) < 75
        /\ length (extended h raw c) <= 75
        /\ (length (extended h raw c) = 75 -> buffer h' c = [])
        /\ (length (extended h raw c) < 75 -> buffer h' c = extended h raw c))
  /\ exists calls, filter_passes h' = filter_passes h0 ++ calls
                   /\ Forall (fun p => length (snd p) = 75) calls.
Proof.
  intros W0 h h'.
  destruct (ingest_spec frames W0) as (W & S & old & Pold & Fold & _).
  fold h in W, S, Pold.
  destruct (frame_spec raw W) as (h1 & E1 & W1 & S1 & B1 & P1 & _).
  subst h'. rewrite E1. cbn [fst snd].
  split; [ apply (wf_accumulation W) | ].
  split; [ reflexivity | ]. split; [ exact P1 | ].
  split; [ intros c w; apply in_frame_passes; exact W | ].
  split.
  - intros c Hc.
    destruct (wf_buffer_lookup W Hc) as (d & _ & Hd & _ & Hlen).
    pose proof (extended_length raw W Hc) as Hext.
    split; [ unfold buffer; rewrite Hd; exact Hlen | ].
    split; [ exact Hext | ].
    rewrite (B1 c Hc). unfold after_turn.
    split; intros Hl.
    + rewrite Hl. reflexivity.
    + destruct (Nat.leb_spec 75 (length (extended h raw c))); [ lia | reflexivity ].
  - exists (old ++ frame_passes h raw). split.
    + rewrite P1, Pold, app_assoc. reflexivity.
    + apply Forall_app. split; [ exact Fold | apply frame_passes_full; exact W ].
Qed.

End Accumulation.

(** On the handler of the application, the third default-profile frame. *)
Lemma filtering_pass_exactly_on_full_buffer_witness :
  let h := ingest (L := AllPass.scipy) [ramp_frame 0; ramp_frame 432] built_handler in
  let raw := ramp_frame 864 in
  let h' := snd (_process_raw_data (L := AllPass.scipy) raw h) in
  ACCUMULATION_SIZE h = 75
  /\ fst (_process_raw_data (L := AllPass.scipy) raw h) = Ok tt
  /\ filter_passes h' = filter_passes h ++ frame_passes h raw
  /\ (forall c w, In (c, w) (frame_passes h raw)
                  <-> c < NUM_SENSORS h /\ w = extended h raw c
                      /\ length (extended h raw c) = 75)
  /\ (forall c, c < NUM_SENSORS h ->
        length (buffer h c) < 75
        /\ length (extended h raw c) <= 75
        /\ (length (extended h raw c) = 75 -> buffer h' c = [])
        /\ (length (extended h raw c) < 75 -> buffer h' c = extended h raw c))
  /\ exists calls, filter_passes h' = filter_passes built_handler ++ calls
                   /\ Forall (fun p => length (snd p) = 75) calls.
Proof.
  exact (@filtering_pass_exactly_on_full_buffer AllPass.scipy AllPass_laws
           built_handler [ramp_frame 0; ramp_frame 432] (ramp_frame 864)
           built_handler_wf).
Defined.

(* ================================================================= *)
(** ** Eviction from the accumulation buffers *)

Section Eviction.
Context {L : SciPy} {LL : SciPyLaws L}.

(** After the [extend], a buffer holds the newest 75 of the samples it held
    and the samples of the frame. *)
Lemma extended_lastn h raw c :
  wf h -> c < NUM_SENSORS h ->
  extended h raw c
  = lastn 75 (buffer h c ++ slice_from_step c (NUM_SENSORS h) raw).
Proof.
  intros W Hc. destruct (wf_buffer_lookup W Hc) as (d & _ & Hd & Hmax & Hlen).
  unfold extended, buffer. rewrite Hd, deque_extend_items by lia.
  rewrite Hmax. reflexivity.
Qed.

Lemma flat_map_nil {A B} (f : A -> list B) (l : list A) :
  (forall a, In a l -> f a = []) -> flat_map f l = [].
Proof.
  intros H. rewrite (flat_map_ext_In f (fun _ => []) l H). clear H.
  induction l as [| a t IH]; cbn; [ reflexivity | exact IH ].
Qed.

Lemma flat_map_single {A B} (f : A -> list B) (g : A -> B) (l : list A) :
  (forall a, In a l -> f a = [g a]) -> flat_map f l = map g l.
Proof.
  intros H. rewrite (flat_map_ext_In f (fun a => [g a]) l H). clear H.
  induction l as [| a t IH]; cbn; [ reflexivity | rewrite IH; reflexivity ].
Qed.

Lemma slice16_length raw c :
  length raw = 432 -> c < 16 -> length (slice16 raw c) = 27.
Proof.
  intros Hraw Hc. unfold slice16.
  apply (@slice_from_step_length float 27 15 raw c); [ exact Hraw | lia ].
Qed.

(** A default-profile frame on buffers that all hold [n] samples, with
    [n + 27 < 75]: no call, each buffer receives its 27 samples. *)
Lemma frame_fills h raw (held : nat -> list float) :
  wf h -> NUM_SENSORS h = 16 -> length raw = 432 ->
  (forall c, c < 16 -> buffer h c = held c /\ length (held c) + 27 < 75) ->
  exists h',
    _process_raw_data raw h = (Ok tt, h') /\ wf h' /\ NUM_SENSORS h' = 16
    /\ filter_passes h' = filter_passes h
    /\ forall c, c < 16 -> buffer h' c = held c ++ slice16 raw c.
Proof.
  intros W HN Hraw Hheld.
  destruct (frame_spec raw W) as (h' & E & W' & S & B & P & _).
  assert (Hext : forall c, c < 16 ->
            extended h raw c = held c ++ slice16 raw c
            /\ length (extended h raw c) < 75).
  { intros c Hc. destruct (Hheld c Hc) as [Hb Hl].
    rewrite extended_lastn by (try exact W; lia). rewrite HN, Hb.
    fold (slice16 raw c).
    assert (length (held c ++ slice16 raw c) < 75)
      by (rewrite length_app, slice16_length by assumption; lia).
    rewrite lastn_all by lia. split; [ reflexivity | assumption ]. }
  exists h'. split; [ exact E | ]. split; [ exact W' | ].
  split; [ rewrite (same_NUM_SENSORS S); exact HN | ]. split.
  - rewrite P. unfold frame_passes. rewrite flat_map_nil; [ apply app_nil_r | ].
    intros c Hc. apply in_seq in Hc. rewrite HN in Hc.
    destruct (Hext c) as [_ Hl]; [ lia | ]. rewrite (wf_accumulation W).
    destruct (Nat.leb_spec 75 (length (extended h raw c))); [ lia | reflexivity ].
  - intros c Hc. rewrite B by lia. destruct (Hext c Hc) as [-> Hl].
    unfold after_turn.
    destruct (Nat.leb_spec 75 (length (held c ++ slice16 raw c))); [ lia | reflexivity ].
Qed.

(** A default-profile frame on buffers that all hold 54 samples: the 6
    oldest are evicted, the other 75 are handed to the pipeline, and the
    buffers are empty afterwards. *)
Lemma frame_drains h raw (held : nat -> list float) :
  wf h -> NUM_SENSORS h = 16 -> length raw = 432 ->
  (forall c, c < 16 -> buffer h c = held c /\ length (held c) = 54) ->
  exists h',
    _process_raw_data raw h = (Ok tt, h') /\ wf h' /\ NUM_SENSORS h' = 16
    /\ filter_passes h'
       = filter_passes h
         ++ map (fun c => (c, skipn 6 (held c ++ slice16 raw c))) (seq 0 16)
    /\ forall c, c < 16 -> buffer h' c = [].
Proof.
  intros W HN Hraw Hheld.
  destruct (frame_spec raw W) as (h' & E & W' & S & B & P & _).
  assert (Hext : forall c, c < 16 ->
            extended h raw c = skipn 6 (held c ++ slice16 raw c)
            /\ length (extended h raw c) = 75).
  { intros c Hc. destruct (Hheld c Hc) as [Hb Hl].
    rewrite extended_lastn by (try exact W; lia). rewrite HN, Hb.
    fold (slice16 raw c). unfold lastn.
    rewrite length_skipn, length_app, slice16_length, Hl by assumption.
    split; reflexivity. }
  exists h'. split; [ exact E | ]. split; [ exact W' | ].
  split; [ rewrite (same_NUM_SENSORS S); exact HN | ]. split.
  - rewrite P. f_equal. unfold frame_passes. rewrite HN.
    apply flat_map_single. intros c Hc. apply in_seq in Hc.
    destruct (Hext c) as [He Hl]; [ lia | ]. rewrite (wf_accumulation W), Hl.
    cbn [Nat.leb]. rewrite He. reflexivity.
  - intros c Hc. rewrite B by lia. destruct (Hext c Hc) as [_ Hl].
    unfold after_turn. rewrite Hl. reflexivity.
Qed.

Lemma cycle_spec h cyc :
  wf h -> NUM_SENSORS h = 16 -> default_cycle cyc ->
  (forall c, c < 16 -> buffer h c = []) ->
  let h' := ingest (cycle_frames cyc) h in
  wf h' /\ NUM_SENSORS h' = 16
  /\ filter_passes h' = filter_passes h ++ cycle_calls cyc
  /\ forall c, c < 16 -> buffer h' c = [].
Proof.
  destruct cyc as [[f1 f2] f3]. intros W HN (H1 & H2 & H3) Hempty.
  destruct (@frame_fills h f1 (fun _ => []) W HN H1) as (h1 & E1 & W1 & N1 & P1 & B1).
  { intros c Hc. split; [ apply Hempty; exact Hc | cbn; lia ]. }
  destruct (@frame_fills h1 f2 (fun c => slice16 f1 c) W1 N1 H2)
    as (h2 & E2 & W2 & N2 & P2 & B2).
  { intros c Hc. split; [ apply B1; exact Hc | ].
    rewrite slice16_length by assumption. lia. }
  destruct (@frame_drains h2 f3 (fun c => slice16 f1 c ++ slice16 f2 c) W2 N2 H3)
    as (h3 & E3 & W3 & N3 & P3 & B3).
  { intros c Hc. split; [ apply B2; exact Hc | ].
    rewrite length_app, !slice16_length by assumption. reflexivity. }
  unfold ingest, cycle_frames. cbn [fold_left]. rewrite E1. cbn [snd].
  rewrite E2. cbn [snd]. rewrite E3. cbn [snd].
  split; [ exact W3 | ]. split; [ exact N3 | ]. split; [ | exact B3 ].
  rewrite P3, P2, P1. f_equal. unfold cycle_calls.
  apply map_ext. intros c. rewrite <- app_assoc. reflexivity.
Qed.

Lemma ingest_app frames1 frames2 (h : DelsysDataHandler) :
  ingest (frames1 ++ frames2) h = ingest frames2 (ingest frames1 h).
Proof. unfold ingest. apply fold_left_app. Qed.

Lemma cycles_spec cycles : forall h,
  wf h -> NUM_SENSORS h = 16 -> Forall default_cycle cycles ->
  (forall c, c < 16 -> buffer h c = []) ->
  let h' := ingest (flat_map cycle_frames cycles) h in
  filter_passes h' = filter_passes h ++ flat_map cycle_calls cycles
  /\ forall c, c < 16 -> buffer h' c = [].
Proof.
  induction cycles as [| cyc cycles IH]; intros h W HN Hall Hempty.
  - cbn. rewrite app_nil_r. split; [ reflexivity | exact Hempty ].
  - inversion Hall as [| ? ? Hcyc Hall']; subst.
    cbn [flat_map]. rewrite ingest_app.
    destruct (@cycle_spec h cyc W HN Hcyc Hempty) as (W1 & N1 & P1 & B1).
    destruct (IH _ W1 N1 Hall' B1) as (P2 & B2).
    split; [ | exact B2 ].
    rewrite P2, P1, <- app_assoc. reflexivity.
Qed.

End Eviction.

Section EvictionClaim.
Context {L : SciPy} {LL : SciPyLaws L}.

(** C8: the accumulation buffers are deques of capacity 75, so a frame that
    arrives when the buffer of a channel holds more than 75 - S samples (S
    the samples of the channel in the frame) makes the [extend] discard the
    oldest [held + S - 75] samples before the drain check: the array handed
    to the pipeline is what is left, and the buffer is then emptied.  With
    the default profile (16 sensors, frames of 432 floats, S = 27) every
    third frame drains all channels after evicting the 6 oldest samples of
    each, so over any number of such cycles the arrays filtered are, for each
    cycle and channel, the 81 samples received less their first 6, and the
    chunks queued are made from these arrays only. *)
Theorem bounded_buffer_evicts_oldest (h : DelsysDataHandler) :
  wf h ->
  (forall raw c,
     c < NUM_SENSORS h ->
     let data := slice_from_step c (NUM_SENSORS h) raw in
     let evicted := length (buffer h c) + length data - 75 in
     75 - length data < length (buffer h c) ->
     0 < evicted
     /\ buffer h c ++ data
        = firstn evicted (buffer h c ++ data) ++ extended h raw c
     /\ length (extended h raw c) = 75
     /\ In (c, extended h raw c) (frame_passes h raw)
     /\ buffer (snd (_process_raw_data raw h)) c = [])
  /\ (NUM_SENSORS h = 16 ->
      (forall c, c < 16 -> buffer h c = []) ->
      forall cycles, Forall default_cycle cycles ->
      let h' := ingest (flat_map cycle_frames cycles) h in
      filter_passes h' = filter_passes h ++ flat_map cycle_calls cycles
      /\ qitems (output_queue h')
         = lastn 1000 (qitems (output_queue h)
                       ++ map (chunk_of h) (flat_map cycle_calls cycles))
      /\ (forall c, c < 16 -> buffer h' c = [])
      /\ forall f1 f2 f3 c, In (f1, f2, f3) cycles -> c < 16 ->
           let received := slice16 f1 c ++ slice16 f2 c ++ slice16 f3 c in
           length received = 81
           /\ received = firstn 6 (slice16 f1 c) ++ skipn 6 received
           /\ length (firstn 6 (slice16 f1 c)) = 6
           /\ In (c, skipn 6 received) (filter_passes h')).
Proof.
  intros W. split.
  - intros raw c Hc data evicted Hheld.
    destruct (frame_spec raw W) as (h' & E & _ & _ & B & _).
    destruct (wf_buffer_lookup W Hc) as (d & _ & Hd & _ & Hlen).
    assert (Hb : length (buffer h c) < 75) by (unfold buffer; rewrite Hd; exact Hlen).
    assert (He : extended h raw c = skipn evicted (buffer h c ++ data)).
    { rewrite extended_lastn by assumption. unfold lastn.
      rewrite length_app. reflexivity. }
    assert (Hl : length (extended h raw c) = 75).
    { rewrite He, length_skipn, length_app. subst evicted. lia. }
    split; [ subst evicted; lia | ].
    split; [ rewrite He; symmetry; apply firstn_skipn | ].
    split; [ exact Hl | ].
    split; [ apply in_frame_passes; auto | ].
    rewrite E. cbn [snd]. rewrite B by exact Hc. unfold after_turn.
    rewrite Hl. reflexivity.
  - intros HN Hempty cycles Hall h'.
    destruct (cycles_spec W HN Hall Hempty) as (P & B). fold h' in P, B.
    destruct (ingest_spec (flat_map cycle_frames cycles) W)
      as (_ & _ & new & Pn & _ & Q).
    fold h' in Pn, Q. rewrite P in Pn. apply app_inv_head in Pn. subst new.
    split; [ exact P | ]. split; [ exact Q | ]. split; [ exact B | ].
    intros f1 f2 f3 c Hin Hc received.
    rewrite Forall_forall in Hall. destruct (Hall _ Hin) as (H1 & H2 & H3).
    assert (Hr : length received = 81)
      by (subst received; rewrite !length_app, !slice16_length by assumption;
          reflexivity).
    split; [ exact Hr | ]. split; [ | split ].
    + subst received. rewrite (skipn_app 6 (slice16 f1 c)).
      rewrite (app_assoc (firstn 6 (slice16 f1 c))).
      rewrite firstn_skipn, slice16_length by assumption.
      reflexivity.
    + rewrite length_firstn, slice16_length by assumption. reflexivity.
    + rewrite P. apply in_or_app. right. apply in_flat_map.
      exists (f1, f2, f3). split; [ exact Hin | ].
      cbn [cycle_calls]. apply in_map_iff. exists c.
      split; [ reflexivity | apply in_seq; lia ].
Qed.

End EvictionClaim.

Lemma built_handler_empty c : c < 16 -> buffer built_handler c = [].
Proof.
  apply (@init_wf AllPass.scipy AllPass_laws 16 2000%float false built_handler
           built_handler_init).
  lia.
Defined.

Lemma two_frames_in_wf : @wf AllPass.scipy two_frames_in.
Proof.
  apply (@ingest_spec AllPass.scipy AllPass_laws
           [ramp_frame 0; ramp_frame 432] built_handler built_handler_wf).
Defined.

(** On the handler of the application: channel 3 when the third frame
    arrives on 54 samples held, and two drain cycles from the start. *)
Lemma bounded_buffer_evicts_oldest_witness :
  (let h := two_frames_in in
   let raw := ramp_frame 864 in
   let c := 3 in
   let data := slice_from_step c (NUM_SENSORS h) raw in
   let evicted := length (buffer h c) + length data - 75 in
   0 < evicted
   /\ buffer h c ++ data
      = firstn evicted (buffer h c ++ data) ++ extended h raw c
   /\ length (extended h raw c) = 75
   /\ In (c, extended h raw c) (frame_passes h raw)
   /\ buffer (snd (_process_raw_data (L := AllPass.scipy) raw h)) c = [])
  /\ (let h := built_handler in
      let cycles := [(ramp_frame 0, ramp_frame 432, ramp_frame 864);
                     (ramp_frame 1296, ramp_frame 1728, ramp_frame 2160)] in
      let h' := ingest (L := AllPass.scipy) (flat_map cycle_frames cycles) h in
      filter_passes h' = filter_passes h ++ flat_map cycle_calls cycles
      /\ qitems (output_queue h')
         = lastn 1000 (qitems (output_queue h)
                       ++ map (chunk_of (H := AllPass.scipy) h)
                            (flat_map cycle_calls cycles))
      /\ (forall c, c < 16 -> buffer h' c = [])
      /\ forall f1 f2 f3 c, In (f1, f2, f3) cycles -> c < 16 ->
           let received := slice16 f1 c ++ slice16 f2 c ++ slice16 f3 c in
           length received = 81
           /\ received = firstn 6 (slice16 f1 c) ++ skipn 6 received
           /\ length (firstn 6 (slice16 f1 c)) = 6
           /\ In (c, skipn 6 received) (filter_passes h')).
Proof.
  split.
  - intros h raw c.
    apply (proj1 (@bounded_buffer_evicts_oldest AllPass.scipy AllPass_laws
                    two_frames_in two_frames_in_wf) raw c).
    + vm_compute. lia.
    + vm_compute. lia.
  - intros h cycles.
    apply (proj2 (@bounded_buffer_evicts_oldest AllPass.scipy AllPass_laws
                    built_handler built_handler_wf)).
    + reflexivity.
    + exact built_handler_empty.
    + repeat constructor.
Defined.

(* ================================================================= *)
(** ** Floats *)

Lemma Prim2SF_zero : Prim2SF 0%float = S754_zero false.
Proof. reflexivity. Qed.

(** [abs] never returns a negative number; what it returns is at least
    zero exactly when its argument is a number, and is a NaN when its
    argument is one. *)
Lemma abs_sign (v : float) :
  (PrimFloat.abs v <? 0)%float = false
  /\ (0 <=? PrimFloat.abs v)%float = negb (PrimFloat.is_nan v)
  /\ PrimFloat.is_nan (PrimFloat.abs v) = PrimFloat.is_nan v.
Proof.
  unfold PrimFloat.is_nan.
  rewrite ltb_spec, leb_spec, !FloatAxioms.eqb_spec, abs_spec, Prim2SF_zero.
  destruct (Prim2SF v) as [s | s | | s m e]; cbn;
    try (repeat split; destruct s; reflexivity); try (repeat split; reflexivity).
  unfold SFeqb, SFcompare.
  rewrite !Z.compare_refl, !Pos.compare_cont_refl.
  destruct s; repeat split; reflexivity.
Qed.

(** [==] on floats is equality of the values, when one side is a finite
    number other than zero. *)
Lemma eqb_finite_eq (x y : float) s m e :
  Prim2SF x = S754_finite s m e -> (x =? y)%float = true -> y = x.
Proof.
  intros Hx H. rewrite FloatAxioms.eqb_spec, Hx in H.
  assert (Hy : Prim2SF y = S754_finite s m e).
  { unfold SFeqb, SFcompare in H.
    destruct (Prim2SF y) as [s' | s' | | s' m' e']; try discriminate;
      try (destruct s; discriminate); try (destruct s, s'; discriminate).
    destruct s, s'; try discriminate;
      destruct (Z.compare_spec e e') as [He | He | He]; try discriminate;
      subst e'; fold (Pos.compare m m') in H;
      destruct (Pos.compare_spec m m') as [Hm | Hm | Hm]; try discriminate;
      subst m'; reflexivity. }
  rewrite <- (SF2Prim_Prim2SF y), Hy, <- Hx. apply SF2Prim_Prim2SF.
Qed.

Lemma eqb_rate_2000 (y : float) : (rate_2000 =? y)%float = true -> y = rate_2000.
Proof. apply (@eqb_finite_eq rate_2000 y false 8796093022208000 (-42)). reflexivity. Qed.

Lemma eqb_rate_1925_926 (y : float) :
  (rate_1925_926 =? y)%float = true -> y = rate_1925_926.
Proof. apply (@eqb_finite_eq rate_1925_926 y false 8470312124944482 (-42)). reflexivity. Qed.

(* ================================================================= *)
(** ** The filter pipeline *)

Section Pipeline.
Context {L : SciPy} {LL : SciPyLaws L}.

(** The rectification stage, index by index. *)
Lemma stage_rectify_nth (x : list float) (i : nat) :
  i < length x ->
  let v := nth i (stage_rectify x) 0%float in
  (v <? 0)%float = false
  /\ (non_negative v <-> PrimFloat.is_nan (nth i x 0%float) = false)
  /\ PrimFloat.is_nan v = PrimFloat.is_nan (nth i x 0%float).
Proof.
  intros Hi v. subst v. unfold stage_rectify, non_negative.
  rewrite (nth_indep _ 0%float (PrimFloat.abs 0)) by (rewrite length_map; exact Hi).
  rewrite map_nth.
  destruct (abs_sign (nth i x 0%float)) as (H1 & H2 & H3).
  split; [ exact H1 | split; [ | exact H3 ] ].
  rewrite H2. destruct (PrimFloat.is_nan (nth i x 0%float)); cbn; split;
    intros; first [ reflexivity | discriminate ].
Qed.

(** A window of 27 samples or fewer is refused: by the high-pass stage up
    to 9 samples, by the band-pass stage from 10 to 27. *)
Lemma process_emg_channel_short h x :
  filters_ready h -> length x <= 27 ->
  process_emg_channel h x = Raise ValueError.
Proof.
  intros [[Dh [Th Th']] [Dn [Tn Tn']] [Db [Tb Tb']] _] Hx.
  unfold process_emg_channel, stage_highpass, stage_notch, stage_bandpass.
  destruct (Nat.le_gt_cases (length x) 9) as [Hs | Hl].
  - rewrite filtfilt_short; [ reflexivity | ].
    unfold padlen. rewrite Th, Th'. exact Hs.
  - destruct (filtfilt_ready x Dh (conj Th Th')) as (x1 & E1 & L1); [ lia | ].
    destruct (filtfilt_ready x1 Dn (conj Tn Tn')) as (x2 & E2 & L2); [ lia | ].
    rewrite E1. cbn [and_then]. rewrite E2. cbn [and_then].
    rewrite filtfilt_short; [ reflexivity | ].
    unfold padlen. rewrite Tb, Tb'. cbn. lia.
Qed.

(** C10, as the code has it: on a window of more than 27 samples (the
    handler only filters windows of 75) the three filter stages, the
    rectification and the envelope stage return one after the other, each
    with as many samples as the window has, and so does the pipeline, whose
    output is the rectified signal when the envelope stage is off; a window
    of 27 samples or fewer makes the pipeline raise [ValueError].  The
    rectification, which is always applied, gives at every index a sample
    that is not below zero; the sample is at least zero exactly where the
    band-pass output is a number, and is a NaN where the band-pass output is
    a NaN. *)
Theorem pipeline_preserves_length_and_rectifies
    (h : DelsysDataHandler) (x : list float) :
  filters_ready h ->
  (27 < length x ->
   exists x1 x2 x3 y,
     stage_highpass h x = Ok x1
     /\ stage_notch h x1 = Ok x2
     /\ stage_bandpass h x2 = Ok x3
     /\ stage_envelope h (stage_rectify x3) = Ok y
     /\ process_emg_channel h x = Ok y
     /\ (envelope h = false -> y = stage_rectify x3)
     /\ length x1 = length x /\ length x2 = length x /\ length x3 = length x
     /\ length (stage_rectify x3) = length x /\ length y = length x
     /\ forall i, i < length x ->
          let v := nth i (stage_rectify x3) 0%float in
          (v <? 0)%float = false
          /\ (non_negative v <-> PrimFloat.is_nan (nth i x3 0%float) = false)
          /\ PrimFloat.is_nan v = PrimFloat.is_nan (nth i x3 0%float))
  /\ (length x <= 27 -> process_emg_channel h x = Raise ValueError).
Proof.
  intros R. split; [ | apply process_emg_channel_short; exact R ].
  intros Hx. destruct R as [[Dh Th] [Dn Tn] [Db Tb] [Dl Tl]].
  destruct (filtfilt_ready x Dh Th) as (x1 & E1 & L1); [ lia | ].
  destruct (filtfilt_ready x1 Dn Tn) as (x2 & E2 & L2); [ lia | ].
  destruct (filtfilt_ready x2 Db Tb) as (x3 & E3 & L3); [ lia | ].
  assert (Lr : length (stage_rectify x3) = length x)
    by (rewrite stage_rectify_length; lia).
  assert (Ey : exists y, stage_envelope h (stage_rectify x3) = Ok y
                         /\ length y = length x
                         /\ (envelope h = false -> y = stage_rectify x3)).
  { unfold stage_envelope. destruct (envelope h).
    - destruct (filtfilt_ready (stage_rectify x3) Dl Tl) as (y & Ey & Ly);
        [ lia | ].
      exists y. split; [ exact Ey | split; [ lia | discriminate ] ].
    - exists (stage_rectify x3). split; [ reflexivity | split; [ exact Lr | reflexivity ] ]. }
  destruct Ey as (y & Ey & Ly & Hoff).
  exists x1, x2, x3, y.
  split; [ exact E1 | split; [ exact E2 | split; [ exact E3 | ] ] ].
  split; [ exact Ey | split ].
  - unfold process_emg_channel, stage_highpass, stage_notch, stage_bandpass.
    rewrite E1. cbn [and_then]. rewrite E2. cbn [and_then]. rewrite E3.
    cbn [and_then]. exact Ey.
  - split; [ exact Hoff | ].
    split; [ exact L1 | split; [ lia | split; [ lia | ] ] ].
    split; [ exact Lr | split; [ exact Ly | ] ].
    intros i Hi. apply stage_rectify_nth. lia.
Qed.

End Pipeline.

(** On the handler of the application and a window of 75 samples. *)
Lemma pipeline_preserves_length_and_rectifies_witness :
  let h := built_handler in
  let x := firstn 75 (ramp_frame 0) in
  (27 < length x ->
   exists x1 x2 x3 y,
     stage_highpass (L := AllPass.scipy) h x = Ok x1
     /\ stage_notch (L := AllPass.scipy) h x1 = Ok x2
     /\ stage_bandpass (L := AllPass.scipy) h x2 = Ok x3
     /\ stage_envelope (L := AllPass.scipy) h (stage_rectify x3) = Ok y
     /\ process_emg_channel (L := AllPass.scipy) h x = Ok y
     /\ (envelope h = false -> y = stage_rectify x3)
     /\ length x1 = length x /\ length x2 = length x /\ length x3 = length x
     /\ length (stage_rectify x3) = length x /\ length y = length x
     /\ forall i, i < length x ->
          let v := nth i (stage_rectify x3) 0%float in
          (v <? 0)%float = false
          /\ (non_negative v <-> PrimFloat.is_nan (nth i x3 0%float) = false)
          /\ PrimFloat.is_nan v = PrimFloat.is_nan (nth i x3 0%float))
  /\ (length x <= 27 ->
      process_emg_channel (L := AllPass.scipy) h x = Raise ValueError).
Proof.
  exact (@pipeline_preserves_length_and_rectifies AllPass.scipy AllPass_laws
           built_handler (firstn 75 (ramp_frame 0))
           (wf_filters built_handler_wf)).
Defined.

(** C10 does not hold for every input window: a NaN read from the data
    socket reaches the window of its channel, and there the rectified
    signal is not non-negative.  The handler of the application, streaming,
    reads two frames of zeros and a frame that starts with a float32 NaN;
    the third frame fills the window of channel 0, which is filtered with
    the NaN at index 48; the pipeline (over the all-pass model of scipy)
    returns the rectified band-pass output, whose sample at index 48 is not
    at least zero. *)
Lemma rectified_nan_is_not_non_negative :
  let h := snd (emg_data_thread (L := AllPass.scipy)
                  [Ok zero_read; Ok zero_read; Ok nan_read]
                  streaming_handler) in
  length zero_read = rate_adjusted_bytes streaming_handler
  /\ length nan_read = rate_adjusted_bytes streaming_handler
  /\ In (0, nan_window) (filter_passes h)
  /\ length nan_window = 75
  /\ exists x1 x2 x3,
       stage_highpass (L := AllPass.scipy) h nan_window = Ok x1
       /\ stage_notch (L := AllPass.scipy) h x1 = Ok x2
       /\ stage_bandpass (L := AllPass.scipy) h x2 = Ok x3
       /\ process_emg_channel (L := AllPass.scipy) h nan_window
          = Ok (stage_rectify x3)
       /\ length (stage_rectify x3) = 75
       /\ ~ non_negative (nth 48 (stage_rectify x3) 0%float).
Proof.
  cbv zeta.
  split; [ reflexivity | split; [ reflexivity | ] ].
  split; [ vm_compute; left; reflexivity | ].
  split; [ reflexivity | ].
  exists nan_window, nan_window, nan_window.
  repeat (split; [ vm_compute; reflexivity | ]).
  unfold non_negative. vm_compute. discriminate.
Qed.

(* ================================================================= *)
(** ** Rate negotiation *)

Lemma prefix_space_head a n c s :
  is_space a = false -> is_space c = true ->
  String.prefix (String a n) (String c s) = false.
Proof.
  intros Ha Hc. cbn [String.prefix].
  destruct (ascii_dec a c) as [-> | _]; [ congruence | reflexivity ].
Qed.

Lemma prefix_nil s : String.prefix EmptyString s = true.
Proof. destruct s; reflexivity. Qed.

Lemma prefix_rstrip n : forall s,
  no_space n = true -> String.prefix n (rstrip s) = String.prefix n s.
Proof.
  induction n as [| a n IH]; intros s Hn; [ rewrite !prefix_nil; reflexivity | ].
  cbn [no_space] in Hn. apply andb_prop in Hn as [Ha Hn].
  apply negb_true_iff in Ha.
  destruct s as [| c s]; [ reflexivity | ].
  cbn [rstrip]. specialize (IH s Hn).
  destruct (rstrip s) as [| c' r] eqn:Er.
  - destruct (is_space c) eqn:Ec.
    + rewrite prefix_space_head by assumption. reflexivity.
    + cbn [String.prefix]. destruct (ascii_dec a c); [ exact IH | reflexivity ].
  - cbn [String.prefix]. destruct (ascii_dec a c); [ exact IH | reflexivity ].
Qed.

Lemma contains_rstrip n s :
  no_space n = true -> n <> EmptyString ->
  contains n (rstrip s) = contains n s.
Proof.
  intros Hn Hne. induction s as [| c s IH]; [ reflexivity | ].
  assert (Hempty : contains n EmptyString = false)
    by (destruct n; [ contradiction | reflexivity ]).
  cbn [contains]. rewrite <- (@prefix_rstrip n (String c s) Hn), <- IH.
  cbn [rstrip]. destruct (rstrip s) as [| c' r].
  - destruct (is_space c).
    + rewrite Hempty. destruct n; [ contradiction | reflexivity ].
    + cbn [contains]. reflexivity.
  - reflexivity.
Qed.

Lemma contains_lstrip n s :
  no_space n = true -> n <> EmptyString ->
  contains n (lstrip s) = contains n s.
Proof.
  intros Hn Hne. destruct n as [| a n]; [ contradiction | ].
  cbn [no_space] in Hn. apply andb_prop in Hn as [Ha _].
  apply negb_true_iff in Ha.
  induction s as [| c s IH]; [ reflexivity | ].
  cbn [lstrip]. destruct (is_space c) eqn:Ec; [ | reflexivity ].
  rewrite IH. cbn [contains]. rewrite prefix_space_head by assumption.
  reflexivity.
Qed.

(** Stripping the reply does not change whether it contains ["1925"]. *)
Lemma contains_1925_strip reply :
  contains "1925" (strip reply) = contains "1925" reply.
Proof.
  unfold strip. rewrite contains_rstrip, contains_lstrip;
    first [ reflexivity | discriminate ].
Qed.

Section Negotiation.
Context {L : SciPy} {LL : SciPyLaws L}.

Lemma profile_rate_cases reply :
  profile_rate reply = rate_2000 \/ profile_rate reply = rate_1925_926.
Proof. unfold profile_rate. destruct (contains "1925" reply); auto. Qed.

Lemma eqb_profile_rate reply y :
  (profile_rate reply =? y)%float = true -> y = profile_rate reply.
Proof.
  unfold profile_rate. destruct (contains "1925" reply);
    [ apply eqb_rate_1925_926 | apply eqb_rate_2000 ].
Qed.

(** The end of [configure_system], for either profile: the rate is kept
    when it is the one selected, else it is replaced and the filters are
    designed again. *)
Ltac negotiation_tail :=
  match goal with
  | Hd : designed_for (SAMPLING_RATE ?h) ?h
    |- context [ (?rate =? SAMPLING_RATE ?h)%float ] =>
      let Eeq := fresh "Eeq" in
      destruct (rate =? SAMPLING_RATE h)%float eqn:Eeq; cbn [negb];
      [ first [ apply eqb_rate_1925_926 in Eeq | apply eqb_rate_2000 in Eeq ];
        unfold ret; eexists; split; [ reflexivity | ];
        cbn [rate_adjusted_bytes SAMPLING_RATE set_rate_adjusted_bytes];
        split; [ reflexivity | ]; split; [ exact Eeq | ];
        split; [ rewrite <- Eeq; exact Hd | ];
        unfold same_but_filters; rewrite <- Eeq; destruct h; reflexivity
      | unfold modify at 1;
        match goal with
        | |- context [ _design_filters ?h2 ] =>
            let h' := fresh "h'" in
            let E' := fresh "E'" in
            let Hfr := fresh "Hfr" in
            let Hok := fresh "Hok" in
            destruct (@design_returns _ _ rate h2) as [h' E'];
            [ first [ left; reflexivity | right; reflexivity ]
            | reflexivity | ];
            pose proof (_design_filters_frame h2) as Hfr;
            pose proof E' as Hok; apply _design_filters_ok in Hok;
            rewrite E' in Hfr |- *; cbn [snd] in Hfr;
            cbn [SAMPLING_RATE set_SAMPLING_RATE] in Hok;
            unfold ret; exists h';
            split; [ reflexivity | ];
            split; [ rewrite Hfr; reflexivity | ];
            split; [ rewrite Hfr; reflexivity | ];
            split; [ exact Hok | exact Hfr ]
        end ]
  end.

(** [configure_system] when the negotiation gets its reply. *)
Lemma configure_system_replied h sock reply n :
  designed_for (SAMPLING_RATE h) h ->
  flush_error sock = None ->
  int_of_float (SAMPLING_RATE h) = Ok n ->
  send_ok sock (RATE n) = true ->
  send_ok sock RATE_query = true ->
  recv_decode sock = Ok reply ->
  exists h',
    configure_system sock h = (Ok true, h')
    /\ rate_adjusted_bytes h' = profile_bytes reply
    /\ SAMPLING_RATE h' = profile_rate reply
    /\ designed_for (profile_rate reply) h'
    /\ same_but_filters (set_SAMPLING_RATE (profile_rate reply)
                           (set_rate_adjusted_bytes (profile_bytes reply) h)) h'.
Proof.
  intros Hd Hflush Hint Hs1 Hs2 Hrecv.
  unfold configure_system, try_except, bind, get, lift, send_command.
  rewrite Hflush. unfold ret at 1. rewrite Hint, Hs1. cbn [negb].
  rewrite Hs2. cbn [negb]. rewrite Hrecv, contains_1925_strip.
  unfold profile_bytes, profile_rate.
  destruct (contains "1925" reply);
    unfold modify at 1; unfold ret at 1;
    cbn [SAMPLING_RATE set_rate_adjusted_bytes];
    negotiation_tail.
Qed.

End Negotiation.

Section NegotiationClaim.
Context {L : SciPy} {LL : SciPyLaws L}.

(** C5: when the negotiation gets its reply, [configure_system] returns
    [True]; if the reply contains ["1925"] the frame size is 1664 bytes, the
    rate 1925.926 Hz and the four coefficient pairs are the designs for
    1925.926 Hz; if it does not, they are 1728 bytes, 2000 Hz and the designs
    for 2000 Hz. *)
Theorem rate_negotiation_selects_profile
    (h : DelsysDataHandler) (sock : CommSocket) (reply : string) (n : Z) :
  designed_for (SAMPLING_RATE h) h ->
  flush_error sock = None ->
  int_of_float (SAMPLING_RATE h) = Ok n ->
  send_ok sock (RATE n) = true ->
  send_ok sock RATE_query = true ->
  recv_decode sock = Ok reply ->
  let r := configure_system sock h in
  fst r = Ok true
  /\ (contains "1925" reply = true ->
      rate_adjusted_bytes (snd r) = 1664
      /\ SAMPLING_RATE (snd r) = rate_1925_926
      /\ designed_for rate_1925_926 (snd r))
  /\ (contains "1925" reply = false ->
      rate_adjusted_bytes (snd r) = 1728
      /\ SAMPLING_RATE (snd r) = rate_2000
      /\ designed_for rate_2000 (snd r)).
Proof.
  intros Hd Hflush Hint Hs1 Hs2 Hrecv r.
  destruct (@configure_system_replied L LL h sock reply n
              Hd Hflush Hint Hs1 Hs2 Hrecv)
    as (h' & E & Hb & Hr & Hf & _).
  subst r. rewrite E. cbn [fst snd]. unfold profile_bytes, profile_rate in *.
  split; [ reflexivity | ].
  split; intros Hc; rewrite Hc in *; auto.
Qed.

(** Whatever happens on the command socket, [configure_system] changes
    nothing but the rate, the frame size and the coefficients, and leaves
    the handler well formed. *)
Lemma configure_system_wf (h : DelsysDataHandler) (sock : CommSocket) :
  wf h -> wf (snd (configure_system sock h)).
Proof.
  intros W.
  assert (Hset : forall bytes rate h',
            same_but_filters
              (set_SAMPLING_RATE rate (set_rate_adjusted_bytes bytes h)) h' ->
            filters_ready h' -> wf h').
  { intros bytes rate h' Hs Hf. unfold same_but_filters in Hs.
    destruct W as [W1 W2 W3 W4 W5 _].
    split; try exact Hf; rewrite Hs; assumption. }
  assert (Hsame : wf (set_rate_adjusted_bytes 1664 h)
                  /\ wf (set_rate_adjusted_bytes 1728 h)).
  { destruct W as [W1 W2 W3 W4 W5 [F1 F2 F3 F4]].
    split; split; try assumption; split; assumption. }
  destruct Hsame as [Wa Wb].
  unfold configure_system, try_except, bind, get, lift, send_command, raise.
  destruct (flush_error sock); [ exact W | ]. unfold ret at 1.
  destruct (int_of_float (SAMPLING_RATE h)) as [n |]; [ | exact W ].
  destruct (send_ok sock (RATE n)); cbn [negb]; [ | exact W ].
  destruct (send_ok sock RATE_query); cbn [negb]; [ | exact W ].
  destruct (recv_decode sock) as [reply |]; [ | exact W ].
  destruct (contains "1925" (strip reply));
    unfold modify at 1; unfold ret at 1;
    cbn [SAMPLING_RATE set_rate_adjusted_bytes];
    match goal with
    | |- context [ (?rate =? SAMPLING_RATE h)%float ] =>
        destruct (rate =? SAMPLING_RATE h)%float; cbn [negb];
        [ assumption | unfold modify at 1 ]
    end;
    match goal with
    | |- context [ _design_filters ?h2 ] =>
        pose proof (_design_filters_frame h2) as Hfr;
        assert (Hk : filters_ready (snd (_design_filters h2)))
          by (apply _design_filters_keeps_ready; destruct W as [_ _ _ _ _ [F1 F2 F3 F4]];
              split; assumption);
        destruct (_design_filters h2) as [[[] | e] h'];
        cbn [snd] in *; eapply Hset; eassumption
    end.
Qed.

End NegotiationClaim.

Lemma built_handler_designed :
  designed_for (L := AllPass.scipy) (SAMPLING_RATE built_handler) built_handler.
Proof.
  apply (@init_wf AllPass.scipy AllPass_laws 16 2000%float false built_handler
           built_handler_init).
  lia.
Defined.

(** On the handler of the application, for the replies [1925.926] and
    [2000.000]. *)
Lemma rate_negotiation_selects_profile_witness :
  (let r := configure_system (L := AllPass.scipy) (replying "1925.926") built_handler in
   fst r = Ok true
   /\ (contains "1925" "1925.926" = true ->
       rate_adjusted_bytes (snd r) = 1664
       /\ SAMPLING_RATE (snd r) = rate_1925_926
       /\ designed_for (L := AllPass.scipy) rate_1925_926 (snd r))
   /\ (contains "1925" "1925.926" = false ->
       rate_adjusted_bytes (snd r) = 1728
       /\ SAMPLING_RATE (snd r) = rate_2000
       /\ designed_for (L := AllPass.scipy) rate_2000 (snd r)))
  /\ (let r := configure_system (L := AllPass.scipy) (replying "2000.000") built_handler in
      fst r = Ok true
      /\ (contains "1925" "2000.000" = true ->
          rate_adjusted_bytes (snd r) = 1664
          /\ SAMPLING_RATE (snd r) = rate_1925_926
          /\ designed_for (L := AllPass.scipy) rate_1925_926 (snd r))
      /\ (contains "1925" "2000.000" = false ->
          rate_adjusted_bytes (snd r) = 1728
          /\ SAMPLING_RATE (snd r) = rate_2000
          /\ designed_for (L := AllPass.scipy) rate_2000 (snd r))).
Proof.
  split.
  - apply (@rate_negotiation_selects_profile AllPass.scipy AllPass_laws
             built_handler (replying "1925.926") "1925.926" 2000%Z);
      first [ exact built_handler_designed | reflexivity ].
  - apply (@rate_negotiation_selects_profile AllPass.scipy AllPass_laws
             built_handler (replying "2000.000") "2000.000" 2000%Z);
      first [ exact built_handler_designed | reflexivity ].
Defined.

(* ================================================================= *)
(** ** The shortest window that the pipeline accepts *)

Section MinWindow.
Context {L : SciPy} {LL : SciPyLaws L}.


End MinWindow.

(* ================================================================= *)
(** ** The recording session: stop *)

Section Stop.
Variable N : nat.
Variable rate : float.

Lemma align_length min_samples buffer_data :
  length (App.align min_samples buffer_data) = min_samples.
Proof.
  unfold App.align.
  destruct (Nat.ltb_spec min_samples (length buffer_data)).
  - rewrite length_firstn. lia.
  - destruct (Nat.ltb_spec (length buffer_data) min_samples).
    + rewrite length_app, repeat_length. lia.
    + lia.
Qed.

(** On a buffer of at least [min_samples] samples the alignment keeps the
    first [min_samples]. *)
Lemma align_trims min_samples buffer_data :
  min_samples <= length buffer_data ->
  App.align min_samples buffer_data = firstn min_samples buffer_data.
Proof.
  intros H. unfold App.align.
  destruct (Nat.ltb_spec min_samples (length buffer_data)); [ reflexivity | ].
  destruct (Nat.ltb_spec (length buffer_data) min_samples); [ lia | ].
  symmetry. apply firstn_all2. lia.
Qed.

(** [lengths_of] reads the state only. *)
Lemma lengths_of_state idx : forall s, snd (App.lengths_of idx s) = s.
Proof.
  induction idx as [| i idx IH]; intros s; cbn [App.lengths_of].
  - reflexivity.
  - unfold bind, get, lift.
    destruct (index (App.recording_data_buffer s) i); [ | reflexivity ].
    specialize (IH s). destruct (App.lengths_of idx s) as [[t | e] s'];
      cbn [snd] in *; subst; reflexivity.
Qed.

Lemma lengths_of_ok idx : forall s,
  (forall i, In i idx -> i < length (App.recording_data_buffer s)) ->
  App.lengths_of idx s
  = (Ok (map (fun i => length (nth i (App.recording_data_buffer s) [])) idx), s).
Proof.
  induction idx as [| i idx IH]; intros s H; cbn [App.lengths_of map].
  - reflexivity.
  - unfold bind, get, lift, index.
    rewrite (nth_error_nth' _ [] (H i (or_introl eq_refl))).
    rewrite IH by (intros j Hj; apply H; right; exact Hj). reflexivity.
Qed.

(** The alignment loop changes the buffers only. *)
Lemma align_all_state min_samples idx : forall s,
  exists b, snd (App.align_all min_samples idx s)
            = App.set_recording_data_buffer b s.
Proof.
  induction idx as [| i idx IH]; intros s; cbn [App.align_all].
  - exists (App.recording_data_buffer s). destruct s. reflexivity.
  - unfold bind, get, lift, modify.
    destruct (index (App.recording_data_buffer s) i) as [buf |].
    + match goal with
      | |- context [ App.align_all min_samples idx ?s1 ] =>
          destruct (IH s1) as [b Hb];
          destruct (App.align_all min_samples idx s1) as [[t | e] s'];
          cbn [snd] in *; subst s'; exists b; reflexivity
      end.
    + exists (App.recording_data_buffer s). destruct s. reflexivity.
Qed.

Lemma align_all_ok min_samples idx : forall s,
  NoDup idx ->
  (forall i, In i idx -> i < length (App.recording_data_buffer s)) ->
  exists b,
    App.align_all min_samples idx s
    = (Ok (map (fun i => App.align min_samples
                           (nth i (App.recording_data_buffer s) [])) idx),
       App.set_recording_data_buffer b s).
Proof.
  induction idx as [| i idx IH]; intros s Hnd H; cbn [App.align_all map].
  - exists (App.recording_data_buffer s). destruct s. reflexivity.
  - inversion Hnd as [| ? ? Hi Hnd']; subst.
    unfold bind, get, lift, modify, index.
    rewrite (nth_error_nth' _ [] (H i (or_introl eq_refl))).
    match goal with
    | |- context [ App.align_all min_samples idx ?s1 ] =>
        destruct (IH s1 Hnd') as [b Hb]
    end.
    { intros j Hj. cbn [App.recording_data_buffer App.set_recording_data_buffer].
      rewrite list_set_length. apply H. right. exact Hj. }
    rewrite Hb. unfold ret.
    cbn [App.recording_data_buffer App.set_recording_data_buffer].
    exists b. f_equal. f_equal. f_equal.
    apply map_ext_in. intros j Hj. rewrite nth_list_set_neq; [ reflexivity | ].
    intros ->. contradiction.
Qed.

Lemma list_min_fold_le l : forall x y,
  (y = x \/ In y l) -> fold_left Nat.min l x <= y.
Proof.
  induction l as [| z l IH]; intros x y H; cbn [fold_left].
  - destruct H as [-> | []]. lia.
  - destruct H as [-> | [-> | H]].
    + transitivity (Nat.min x z); [ apply IH; left; reflexivity | lia ].
    + transitivity (Nat.min x y); [ apply IH; left; reflexivity | lia ].
    + apply IH. right. exact H.
Qed.

Lemma list_min_le l y : In y l -> App.list_min l <= y.
Proof.
  destruct l as [| x l]; intros H; [ destruct H | ].
  cbn [App.list_min]. apply list_min_fold_le.
  destruct H as [-> | H]; auto.
Qed.

Lemma list_min_fold_in l : forall x,
  fold_left Nat.min l x = x \/ In (fold_left Nat.min l x) l.
Proof.
  induction l as [| z l IH]; intros x; cbn [fold_left].
  - left. reflexivity.
  - destruct (IH (Nat.min x z)) as [H | H].
    + rewrite H. destruct (Nat.min_dec x z) as [-> | ->]; [ left | right; left ];
        reflexivity.
    + right. right. exact H.
Qed.

Lemma list_min_in l : l <> [] -> In (App.list_min l) l.
Proof.
  destruct l as [| x l]; intros H; [ contradiction | ].
  cbn [App.list_min]. destruct (list_min_fold_in l x) as [-> | Hin].
  - left. reflexivity.
  - right. exact Hin.
Qed.

Lemma timestamps_length s n : length (timestamps rate s n) = n.
Proof.
  unfold timestamps. destruct (App.start_time s);
    rewrite length_map, length_seq; reflexivity.
Qed.

Lemma stop_saves env s :
  active N s -> 0 < N -> (forall i, i < N -> channel_buffer s i <> []) ->
  App.stop_delsys_recording N rate env s
  = if App.tofile_ok env
    then (Ok (true, App.Recording_saved_successfully (min_samples N s)),
          App.MkState None (App.empty_buffers N) false None
            (Some (session_of env s)) (App.trial_counter s + 1)
            (App.files s ++ written N rate env s))
    else (Ok (false, App.Error_saving_binary_file),
          App.MkState None (App.empty_buffers N) false None
            (Some (session_of env s)) (App.trial_counter s) (App.files s)).
Proof.
  intros [Hrec Hlen] HN Hdata.
  unfold App.stop_delsys_recording, try_except, bind, get, modify.
  rewrite Hrec. cbn [negb].
  rewrite lengths_of_ok.
  2:{ intros i Hi. apply in_seq in Hi. cbn. lia. }
  cbn [App.recording_data_buffer App.set_handler App.set_is_recording].
  fold (sample_counts N s). fold (min_samples N s).
  assert (Hcounts : forall n, In n (sample_counts N s) -> 0 < n).
  { intros n Hin. unfold sample_counts in Hin.
    apply in_map_iff in Hin as (i & <- & Hi). apply in_seq in Hi.
    destruct i as [| i]; [ lia | ].
    specialize (Hdata i ltac:(lia)). unfold channel_buffer in Hdata.
    destruct (nth (S i) (App.recording_data_buffer s) []);
      [ contradiction | cbn; lia ]. }
  assert (Hne : sample_counts N s <> []).
  { unfold sample_counts. destruct N; [ lia | discriminate ]. }
  assert (Hmin : 0 < min_samples N s)
    by (apply Hcounts, list_min_in; exact Hne).
  destruct (sample_counts N s) as [| n0 rest] eqn:Ecounts; [ contradiction | ].
  assert (Hn0 : 0 < n0) by (apply Hcounts; left; reflexivity).
  cbn [forallb orb].
  destruct (Nat.eqb_spec n0 0) as [? | _]; [ lia | ]. cbn [andb].
  destruct (Nat.eqb_spec (min_samples N s) 0) as [? | _]; [ lia | ].
  unfold App.generate_timestamps, bind, get.
  cbn [App.start_time App.set_handler App.set_is_recording].
  assert (Ets : match App.start_time s with
                | Some t0 =>
                    ret (map (fun i => (t0 + float_of_nat i / rate)%float)
                           (seq 0 (min_samples N s)))
                | None => ret (map (fun _ => 0%float) (seq 0 (min_samples N s)))
                end (App.set_handler None (App.set_is_recording false s))
                = (Ok (timestamps rate s (min_samples N s)),
                   App.set_handler None (App.set_is_recording false s))).
  { unfold timestamps. destruct (App.start_time s); reflexivity. }
  rewrite Ets. clear Ets.
  cbn [App.recording_data_buffer App.set_handler App.set_is_recording].
  destruct (App.recording_data_buffer s) as [| row0 rows] eqn:Ebuf;
    [ cbn in Hlen; lia | ].
  rewrite <- Ebuf.
  destruct (@align_all_ok (min_samples N s) (seq 0 (N + 1))
              (App.set_recording_data_buffer
                 (list_set (App.recording_data_buffer s) 0
                    (timestamps rate s (min_samples N s)))
                 (App.set_handler None (App.set_is_recording false s))))
    as [b Hb].
  { apply seq_NoDup. }
  { intros i Hi. apply in_seq in Hi.
    cbn [App.recording_data_buffer App.set_recording_data_buffer].
    rewrite list_set_length, Ebuf. lia. }
  rewrite Hb. clear Hb.
  cbn [App.recording_data_buffer App.set_recording_data_buffer].
  assert (Hrows : map (fun i => App.align (min_samples N s)
                     (nth i (list_set (App.recording_data_buffer s) 0
                               (timestamps rate s (min_samples N s))) []))
                    (seq 0 (N + 1))
                  = saved_matrix N rate s).
  { rewrite Nat.add_1_r. cbn [seq map]. unfold saved_matrix. f_equal.
    - rewrite Ebuf. cbn [list_set nth].
      rewrite align_trims by (rewrite timestamps_length; lia).
      apply firstn_all2. rewrite timestamps_length. lia.
    - rewrite <- seq_shift, map_map. apply map_ext_in. intros i Hi.
      apply in_seq in Hi.
      rewrite nth_list_set_neq by discriminate.
      unfold channel_buffer. apply align_trims.
      unfold min_samples. apply list_min_le. unfold sample_counts.
      apply in_map_iff. exists (S i). split; [ reflexivity | ].
      apply in_seq. lia. }
  rewrite Hrows. clear Hrows.
  unfold App.reset_buffers, bind, modify, lift.
  assert (Hv : App.vstack (saved_matrix N rate s) = Ok (saved_matrix N rate s)).
  { unfold saved_matrix, App.vstack.
    rewrite (proj2 (forallb_forall _ _)); [ reflexivity | ].
    intros r Hr. apply in_map_iff in Hr as (i & <- & Hi). apply in_seq in Hi.
    rewrite timestamps_length, length_firstn. apply Nat.eqb_eq.
    apply Nat.min_l. unfold min_samples. apply list_min_le. unfold sample_counts.
    apply in_map_iff. exists (S i). split; [ reflexivity | ].
    apply in_seq. lia. }
  rewrite Hv. clear Hv.
  cbn [App.recording_session_start_time App.set_start_time
       App.set_recording_data_buffer App.set_handler App.set_is_recording].
  unfold written, saved_meta, session_of.
  unfold ret, App.set_trial_counter, App.write_file,
    App.set_recording_session_start_time, App.set_start_time,
    App.set_recording_data_buffer, App.set_handler, App.set_is_recording.
  cbn [App.recording_session_start_time App.trial_counter App.files
       App.handler App.recording_data_buffer App.is_recording App.start_time].
  destruct (App.recording_session_start_time s) as [d |] eqn:Esess;
    cbn [App.recording_session_start_time App.trial_counter App.files
         App.handler App.recording_data_buffer App.is_recording
         App.start_time];
    destruct (App.tofile_ok env); cbn [negb];
    destruct (App.savemat_ok env);
    cbn [App.recording_session_start_time App.trial_counter App.files
         App.handler App.recording_data_buffer App.is_recording
         App.start_time];
    rewrite <- ?app_assoc; reflexivity.
Qed.

(** A stop of an active session in which no channel holds a sample. *)
Lemma stop_no_data env s :
  active N s -> (forall i, i < N -> channel_buffer s i = []) ->
  App.stop_delsys_recording N rate env s
  = (Ok (false, App.No_data_was_captured), finalized N s).
Proof.
  intros [Hrec Hlen] Hempty.
  unfold App.stop_delsys_recording, try_except, bind, get, modify.
  rewrite Hrec. cbn [negb].
  rewrite lengths_of_ok.
  2:{ intros i Hi. apply in_seq in Hi. cbn. lia. }
  cbn [App.recording_data_buffer App.set_handler App.set_is_recording].
  fold (sample_counts N s).
  assert (Hz : forallb (fun count => count =? 0) (sample_counts N s) = true).
  { apply forallb_forall. intros n Hin. unfold sample_counts in Hin.
    apply in_map_iff in Hin as (i & <- & Hi). apply in_seq in Hi.
    destruct i as [| i]; [ lia | ].
    specialize (Hempty i ltac:(lia)). unfold channel_buffer in Hempty.
    rewrite Hempty. reflexivity. }
  rewrite Hz, orb_true_r.
  unfold App.reset_buffers, bind, modify, ret, finalized.
  destruct s. reflexivity.
Qed.

(** Whatever the state and the environment, a stop either reports success,
    increments the trial counter and has written the binary file (and the
    metadata file if that write succeeded), or reports failure and leaves
    the trial counter and the files as they were. *)
Lemma stop_counter_and_files env s :
  let r := App.stop_delsys_recording N rate env s in
  (exists msg session matrix meta,
     fst r = Ok (true, msg)
     /\ App.trial_counter (snd r) = App.trial_counter s + 1
     /\ App.files (snd r)
        = App.files s
          ++ App.bin_file session (App.trial_counter s) matrix
             :: (if App.savemat_ok env
                 then [App.meta_file session (App.trial_counter s) meta]
                 else []))
  \/ (exists msg,
        fst r = Ok (false, msg)
        /\ App.trial_counter (snd r) = App.trial_counter s
        /\ App.files (snd r) = App.files s).
Proof.
  unfold App.stop_delsys_recording, try_except, bind, get, modify.
  destruct (App.is_recording s); cbn [negb];
    [ | right; eexists; repeat split; reflexivity ].
  set (s1 := App.set_handler None (App.set_is_recording false s)).
  pose proof (lengths_of_state (seq 1 N) s1) as Hs2.
  destruct (App.lengths_of (seq 1 N) s1) as [[cnts | e] s2];
    cbn [snd] in Hs2; subst s2;
    [ | right; eexists; repeat split; reflexivity ].
  destruct (match cnts with [] => true | _ => false end
            || forallb (fun count => count =? 0) cnts);
    [ right; eexists; repeat split; reflexivity | ].
  destruct (App.list_min cnts =? 0);
    [ right; eexists; repeat split; reflexivity | ].
  unfold App.generate_timestamps, bind, get.
  assert (Ets : exists ts,
            match App.start_time s1 with
            | Some t0 =>
                ret (map (fun i => (t0 + float_of_nat i / rate)%float)
                       (seq 0 (App.list_min cnts)))
            | None => ret (map (fun _ => 0%float) (seq 0 (App.list_min cnts)))
            end s1 = (Ok ts, s1))
    by (destruct (App.start_time s1); eexists; reflexivity).
  destruct Ets as [ts ->].
  destruct (App.recording_data_buffer s1) as [| row0 rows] eqn:Ebuf;
    [ right; eexists; repeat split; reflexivity | ].
  match goal with
  | |- context [ App.align_all ?m ?idx ?s3 ] =>
      destruct (align_all_state m idx s3) as [b Hb];
      destruct (App.align_all m idx s3) as [[final | e] s4];
      cbn [snd] in Hb; subst s4;
      [ | right; eexists; repeat split; reflexivity ]
  end.
  unfold App.reset_buffers, bind, modify, lift.
  destruct (App.vstack final) as [matrix | e];
    [ | right; eexists; repeat split; reflexivity ].
  cbn [App.recording_session_start_time App.set_start_time
       App.set_recording_data_buffer App.set_handler App.set_is_recording s1].
  destruct (App.recording_session_start_time s) as [d |]; unfold ret;
    destruct (App.tofile_ok env); cbn [negb];
    try (right; eexists; repeat split; reflexivity);
    left; destruct (App.savemat_ok env);
    [ do 4 eexists
    | do 3 eexists;
      exists (App.MkMeta [] rate rate [] (App.now env) (App.now env) 0)
    | do 4 eexists
    | do 3 eexists;
      exists (App.MkMeta [] rate rate [] (App.now env) (App.now env) 0) ];
    cbn; (split; [ reflexivity | ]); (split; [ reflexivity | ]);
    rewrite <- ?app_assoc; reflexivity.
Qed.

End Stop.

(** The worker sets [start_time] when it records its first chunk, and
    appends the samples to the buffer of the channel. *)
Lemma first_chunk_sets_start_time (now : float)
    (processed_data : output_data) (s : App.State) (buf : list float) :
  App.is_recording s = true ->
  App.start_time s = None ->
  nth_error (App.recording_data_buffer s) (channel processed_data + 1) = Some buf ->
  let r := App.recording_worker_record now processed_data 0 s in
  fst r = Ok (length (samples processed_data))
  /\ App.start_time (snd r) = Some now
  /\ App.recording_data_buffer (snd r)
     = list_set (App.recording_data_buffer s) (channel processed_data + 1)
         (buf ++ samples processed_data).
Proof.
  intros Hrec Hstart Hbuf r. subst r.
  unfold App.recording_worker_record, bind, get, lift, modify, index.
  rewrite Hrec, Hbuf, Hstart. cbn [Nat.add]. rewrite Nat.eqb_refl.
  repeat split.
Qed.

(* ================================================================= *)
(** ** The recording session: claims *)

Section StopClaims.
Variable N : nat.
Variable rate : float.

(** C9: a stop of an active session whose channel buffers are all empty
    returns the failure "no data was captured", writes no file, and leaves
    every recording buffer empty (and the trial counter as it was). *)
Theorem stop_without_data_reports_no_data (env : App.StopEnv) (s : App.State) :
  active N s ->
  (forall i, i < N -> channel_buffer s i = []) ->
  let r := App.stop_delsys_recording N rate env s in
  fst r = Ok (false, App.No_data_was_captured)
  /\ App.files (snd r) = App.files s
  /\ App.recording_data_buffer (snd r) = App.empty_buffers N
  /\ (forall i, nth i (App.recording_data_buffer (snd r)) [] = [])
  /\ App.trial_counter (snd r) = App.trial_counter s
  /\ App.is_recording (snd r) = false.
Proof.
  intros Ha He r. subst r. rewrite (stop_no_data rate env Ha He).
  cbn [fst snd finalized App.files App.recording_data_buffer
       App.trial_counter App.is_recording].
  repeat split. unfold App.empty_buffers.
  induction (seq 0 (N + 1)) as [| k l IH]; intros [| i]; cbn [map nth];
    auto.
Qed.

(** C7: a stop increments the trial counter exactly when it has written the
    binary file: it either succeeds, with the counter incremented and the
    binary file written (the metadata file too if that write succeeded),
    or fails, with the counter and the files unchanged.  On a session with
    data, a binary write that succeeds gives success even when the metadata
    write fails, and a binary write that fails gives the failure "error
    saving binary file". *)
Theorem trial_counter_increments_with_binary_write
    (env : App.StopEnv) (s : App.State) :
  active N s -> 0 < N -> (forall i, i < N -> channel_buffer s i <> []) ->
  let r := App.stop_delsys_recording N rate env s in
  ((exists msg session matrix meta,
      fst r = Ok (true, msg)
      /\ App.trial_counter (snd r) = App.trial_counter s + 1
      /\ App.files (snd r)
         = App.files s
           ++ App.bin_file session (App.trial_counter s) matrix
              :: (if App.savemat_ok env
                  then [App.meta_file session (App.trial_counter s) meta]
                  else []))
   \/ (exists msg,
         fst r = Ok (false, msg)
         /\ App.trial_counter (snd r) = App.trial_counter s
         /\ App.files (snd r) = App.files s))
  /\ (App.tofile_ok env = true ->
      fst r = Ok (true, App.Recording_saved_successfully (min_samples N s))
      /\ App.trial_counter (snd r) = App.trial_counter s + 1
      /\ App.files (snd r) = App.files s ++ written N rate env s)
  /\ (App.tofile_ok env = true -> App.savemat_ok env = false ->
      fst r = Ok (true, App.Recording_saved_successfully (min_samples N s))
      /\ App.trial_counter (snd r) = App.trial_counter s + 1
      /\ App.files (snd r)
         = App.files s
           ++ [App.bin_file (session_of env s) (App.trial_counter s)
                 (saved_matrix N rate s)])
  /\ (App.tofile_ok env = false ->
      fst r = Ok (false, App.Error_saving_binary_file)
      /\ App.trial_counter (snd r) = App.trial_counter s
      /\ App.files (snd r) = App.files s).
Proof.
  intros Ha HN Hd r.
  split; [ apply stop_counter_and_files | ].
  subst r. rewrite (stop_saves rate env Ha HN Hd). unfold written.
  split; [ | split ]; intros Hb; rewrite Hb; try intros ->;
    cbn [fst snd App.trial_counter App.files]; repeat split.
Qed.

End StopClaims.

Section Alignment.
Variable N : nat.
Variable rate : float.

Lemma saved_matrix_row s i :
  i < N ->
  nth (S i) (saved_matrix N rate s) []
  = firstn (min_samples N s) (channel_buffer s i).
Proof.
  intros Hi. unfold saved_matrix. cbn [nth].
  rewrite (nth_indep _ [] (firstn (min_samples N s) (channel_buffer s 0)))
    by (rewrite length_map, length_seq; exact Hi).
  rewrite (map_nth (fun i => firstn (min_samples N s) (channel_buffer s i))
             (seq 0 N) 0 i).
  rewrite seq_nth by exact Hi. reflexivity.
Qed.

Lemma min_samples_le s i :
  i < N -> min_samples N s <= length (channel_buffer s i).
Proof.
  intros Hi. unfold min_samples. apply list_min_le. unfold sample_counts.
  apply in_map_iff. exists (S i). split; [ reflexivity | apply in_seq; lia ].
Qed.

(** C4, as the code has it: a stop of an active session in which every
    channel holds samples (so that the minimum length is not zero) hands to
    the binary write a matrix of [N + 1] rows and [min_samples] columns,
    [min_samples] being the least channel length; row [i + 1] is the first
    [min_samples] samples of channel [i], hence the channel itself when its
    length is [min_samples].  No channel is shorter than [min_samples]; a
    buffer that were would be padded with zeros at its tail. *)
Theorem stop_trims_channels_to_min_len (env : App.StopEnv) (s : App.State) :
  active N s -> 0 < N -> (forall i, i < N -> channel_buffer s i <> []) ->
  App.tofile_ok env = true ->
  let r := App.stop_delsys_recording N rate env s in
  let m := min_samples N s in
  let matrix := saved_matrix N rate s in
  fst r = Ok (true, App.Recording_saved_successfully m)
  /\ In (App.bin_file (session_of env s) (App.trial_counter s) matrix)
        (App.files (snd r))
  /\ length matrix = N + 1
  /\ Forall (fun row => length row = m) matrix
  /\ 0 < m
  /\ (forall i, i < N -> m <= length (channel_buffer s i))
  /\ (exists i, i < N /\ length (channel_buffer s i) = m)
  /\ (forall i, i < N -> nth (S i) matrix [] = firstn m (channel_buffer s i))
  /\ (forall i, i < N -> length (channel_buffer s i) = m ->
                nth (S i) matrix [] = channel_buffer s i)
  /\ (forall buffer_data, length buffer_data < m ->
        App.align m buffer_data
        = buffer_data ++ repeat 0%float (m - length buffer_data)).
Proof.
  intros Ha HN Hd Hb r m matrix.
  assert (Hex : exists i, i < N /\ length (channel_buffer s i) = m).
  { assert (Hin : In m (sample_counts N s)).
    { apply list_min_in. unfold sample_counts. destruct N; [ lia | discriminate ]. }
    unfold sample_counts in Hin. apply in_map_iff in Hin as (k & Hk & Hin).
    apply in_seq in Hin. destruct k as [| k]; [ lia | ].
    exists k. split; [ lia | exact Hk ]. }
  subst r. rewrite (stop_saves rate env Ha HN Hd), Hb.
  cbn [fst snd App.files].
  split; [ reflexivity | ].
  split; [ apply in_or_app; right; left; reflexivity | ].
  split; [ subst matrix; unfold saved_matrix; cbn [length];
           rewrite length_map, length_seq; lia | ].
  split.
  { subst matrix. unfold saved_matrix. constructor.
    - apply timestamps_length.
    - apply Forall_forall. intros row Hrow.
      apply in_map_iff in Hrow as (i & <- & Hi). apply in_seq in Hi.
      rewrite length_firstn. apply Nat.min_l. apply min_samples_le. lia. }
  split.
  { destruct Hex as (i & Hi & <-). specialize (Hd i Hi).
    destruct (channel_buffer s i); [ contradiction | cbn; lia ]. }
  split; [ intros i Hi; apply min_samples_le; exact Hi | ].
  split; [ exact Hex | ].
  split; [ intros i Hi; apply saved_matrix_row; exact Hi | ].
  split.
  { intros i Hi Hl. subst matrix. rewrite saved_matrix_row by exact Hi.
    apply firstn_all2. fold m. lia. }
  intros buffer_data Hl. unfold App.align.
  destruct (Nat.ltb_spec m (length buffer_data)); [ lia | ].
  destruct (Nat.ltb_spec (length buffer_data) m); [ reflexivity | lia ].
Qed.

End Alignment.

Lemma four_channels_active :
  active 4 four_channels /\ 0 < 4
  /\ forall i, i < 4 -> channel_buffer four_channels i <> [].
Proof.
  split; [ split; reflexivity | split; [ lia | ] ].
  intros i Hi.
  destruct i as [| [| [| [| i]]]]; try lia; discriminate.
Defined.

(** With four channels of 100, 100, 97 and 100 samples: 97 columns, the
    channel of 97 samples unchanged, the others cut to their first 97. *)
Lemma stop_trims_channels_to_min_len_witness :
  let s := four_channels in
  let r := App.stop_delsys_recording 4 2000 saving s in
  let m := min_samples 4 s in
  let matrix := saved_matrix 4 2000 s in
  (m = 97 /\ nth 3 matrix [] = ramp 2000 97
   /\ nth 1 matrix [] = ramp 0 97 /\ nth 4 matrix [] = ramp 3000 97)
  /\ fst r = Ok (true, App.Recording_saved_successfully m)
  /\ In (App.bin_file (session_of saving s) (App.trial_counter s) matrix)
        (App.files (snd r))
  /\ length matrix = 4 + 1
  /\ Forall (fun row => length row = m) matrix
  /\ 0 < m
  /\ (forall i, i < 4 -> m <= length (channel_buffer s i))
  /\ (exists i, i < 4 /\ length (channel_buffer s i) = m)
  /\ (forall i, i < 4 -> nth (S i) matrix [] = firstn m (channel_buffer s i))
  /\ (forall i, i < 4 -> length (channel_buffer s i) = m ->
                nth (S i) matrix [] = channel_buffer s i)
  /\ (forall buffer_data, length buffer_data < m ->
        App.align m buffer_data
        = buffer_data ++ repeat 0%float (m - length buffer_data)).
Proof.
  split; [ repeat split; vm_compute; reflexivity | ].
  apply (@stop_trims_channels_to_min_len 4 2000%float saving four_channels
           (proj1 four_channels_active)
           (proj1 (proj2 four_channels_active))
           (proj2 (proj2 four_channels_active))).
  reflexivity.
Defined.

(** The sample counts 75, 0, ..., 0 are not all zero, and the stop persists
    nothing: it reports that no data was captured (after trimming). *)
Lemma stop_with_one_empty_channel_persists_nothing :
  let s := first_chunk_only in
  let r := App.stop_delsys_recording 16 2000 saving s in
  active 16 s
  /\ sample_counts 16 s = 75 :: repeat 0 15
  /\ fst r = Ok (false, App.No_data_was_captured_after_trimming)
  /\ App.files (snd r) = []
  /\ App.trial_counter (snd r) = App.trial_counter s.
Proof. repeat split; vm_compute; reflexivity. Qed.

Lemma one_window_each_active h :
  active 16 (one_window_each h) /\ 0 < 16
  /\ forall i, i < 16 -> channel_buffer (one_window_each h) i <> [].
Proof.
  split; [ split; reflexivity | split; [ lia | ] ].
  intros i Hi. unfold channel_buffer, one_window_each, session.
  cbn [App.recording_data_buffer nth].
  rewrite (nth_indep _ [] (ramp (100 * 0) 75))
    by (rewrite length_map, length_seq; exact Hi).
  rewrite (map_nth (fun c => ramp (100 * c) 75) (seq 0 16) 0 i).
  discriminate.
Defined.

(** On a session of 16 channels in which nothing was recorded. *)
Lemma stop_without_data_reports_no_data_witness :
  let s := nothing_recorded in
  let r := App.stop_delsys_recording 16 2000 saving s in
  fst r = Ok (false, App.No_data_was_captured)
  /\ App.files (snd r) = App.files s
  /\ App.recording_data_buffer (snd r) = App.empty_buffers 16
  /\ (forall i, nth i (App.recording_data_buffer (snd r)) [] = [])
  /\ App.trial_counter (snd r) = App.trial_counter s
  /\ App.is_recording (snd r) = false.
Proof.
  apply (@stop_without_data_reports_no_data 16 2000%float saving nothing_recorded).
  - split; reflexivity.
  - intros i Hi. unfold channel_buffer, nothing_recorded, session.
    cbn [App.recording_data_buffer nth].
    do 16 (destruct i as [| i]; [ reflexivity | ]). lia.
Defined.

(** On 16 channels of 75 samples: with the metadata write failing the
    counter goes from 1 to 2, with the binary write failing it stays 1. *)
Lemma trial_counter_increments_with_binary_write_witness :
  counter_statement binary_only (one_window_each None)
  /\ counter_statement disk_full (one_window_each None)
  /\ App.trial_counter
       (snd (App.stop_delsys_recording 16 2000 binary_only (one_window_each None)))
     = 2
  /\ App.trial_counter
       (snd (App.stop_delsys_recording 16 2000 disk_full (one_window_each None)))
     = 1.
Proof.
  split; [ | split; [ | split; reflexivity ] ].
  - apply (@trial_counter_increments_with_binary_write 16 2000%float
             binary_only (one_window_each None));
      apply (one_window_each_active None).
  - apply (@trial_counter_increments_with_binary_write 16 2000%float
             disk_full (one_window_each None));
      apply (one_window_each_active None).
Defined.

(* ================================================================= *)
(** ** The timestamp row and the negotiated rate *)

(** C1: in a session whose negotiation selected 1925.926 Hz, the timestamp
    row that a stop persists is [start_time + i / 2000] (the constant
    [SAMPLING_RATE] of app.py), not [start_time + i / 1925.926]; the
    metadata records 2000 Hz as well. *)
Theorem timestamp_row_uses_the_configured_rate :
  let s := one_window_each (Some negotiated_handler) in
  let r := App.stop_delsys_recording 16 2000 saving s in
  SAMPLING_RATE negotiated_handler = rate_1925_926
  /\ rate_adjusted_bytes negotiated_handler = 1664
  /\ fst r = Ok (true, App.Recording_saved_successfully 75)
  /\ exists matrix meta,
       App.files (snd r) = [App.bin_file clock 1 matrix; App.meta_file clock 1 meta]
       /\ length matrix = 17
       /\ nth 0 matrix []
          = map (fun i => (1000 + float_of_nat i / 2000)%float) (seq 0 75)
       /\ nth 0 matrix []
          <> map (fun i => (1000 + float_of_nat i / rate_1925_926)%float) (seq 0 75)
       /\ App.fs meta = 2000%float.
Proof.
  split; [ reflexivity | ]. split; [ reflexivity | ].
  split; [ vm_compute; reflexivity | ].
  eexists. eexists. split; [ vm_compute; reflexivity | ].
  split; [ reflexivity | ]. split; [ vm_compute; reflexivity | ].
  split; [ | reflexivity ].
  intros H. apply (f_equal (fun row => (nth 1 row 0 =? 1000 + 1 / 2000)%float)) in H.
  vm_compute in H. discriminate.
Qed.

(* ================================================================= *)
(** * Further properties of the handler and of the application *)

(* ================================================================= *)
(** ** Demultiplexing *)

Section Demultiplexing.
Variable A : Type.

Lemma take_every_nth_error (p : nat) : forall (raw : list A) k i,
  nth_error (take_every (S p) k raw) i = nth_error raw (k + i * S p).
Proof.
  induction raw as [| x t IH]; intros k i; cbn [take_every].
  - rewrite !nth_error_nil. reflexivity.
  - destruct k as [| k'].
    + destruct i as [| i']; [ reflexivity | ].
      cbn [nth_error]. rewrite IH.
      replace (0 + S i' * S p) with (S (S p - 1 + i' * S p)) by lia.
      reflexivity.
    + rewrite IH. reflexivity.
Qed.

(** X1: The slice [raw[c::step]] of channel [c] holds, at index [i], the
    element [c + i * step] of the frame; and the element [j] of the frame
    is found in the slice of channel [j mod step], at index [j / step]. *)
Theorem slice_from_step_indexing (raw : list A) (step : nat) :
  0 < step ->
  (forall c i,
     nth_error (slice_from_step c step raw) i = nth_error raw (c + i * step))
  /\ (forall j,
        nth_error raw j
        = nth_error (slice_from_step (j mod step) step raw) (j / step)).
Proof.
  intros Hstep. destruct step as [| p]; [ lia | ].
  split.
  - intros c i. apply take_every_nth_error.
  - intros j. unfold slice_from_step. rewrite take_every_nth_error.
    f_equal. rewrite (Nat.div_mod_eq j (S p)) at 1. lia.
Qed.

Lemma slice_lengths_cons (p : nat) (x : A) (t : list A) :
  list_sum (map (fun c => length (take_every (S p) c (x :: t))) (seq 0 (S p)))
  = S (list_sum (map (fun c => length (take_every (S p) c t)) (seq 0 (S p)))).
Proof.
  rewrite (seq_S p 0) at 2. rewrite map_app, list_sum_app.
  cbn [seq map list_sum take_every length Nat.add].
  rewrite <- seq_shift, map_map. cbn [take_every].
  replace (S p - 1) with p by lia. unfold list_sum. cbn [fold_right]. lia.
Qed.

(** X2: Demultiplexing neither drops nor duplicates a sample: the slices of the
    channels have together as many elements as the frame; and a frame of
    [n * step] elements gives [n] elements to each channel. *)
Theorem slices_partition_the_frame (raw : list A) (step : nat) :
  0 < step ->
  list_sum (map (fun c => length (slice_from_step c step raw)) (seq 0 step))
  = length raw
  /\ (forall n c, length raw = n * step -> c < step ->
        length (slice_from_step c step raw) = n).
Proof.
  intros Hstep. destruct step as [| p]; [ lia | ]. split.
  - unfold slice_from_step. induction raw as [| x t IH].
    + cbn [length]. induction (seq 0 (S p)) as [| c l IHl];
        [ reflexivity | exact IHl ].
    + rewrite slice_lengths_cons, IH. reflexivity.
  - intros n c Hraw Hc. apply slice_from_step_length; [ exact Hraw | lia ].
Qed.

End Demultiplexing.

(** On a frame of 6 elements and 3 channels. *)
Lemma slice_from_step_indexing_witness :
  (forall c i,
     nth_error (slice_from_step c 3 [10; 11; 12; 20; 21; 22]) i
     = nth_error [10; 11; 12; 20; 21; 22] (c + i * 3))
  /\ (forall j,
        nth_error [10; 11; 12; 20; 21; 22] j
        = nth_error (slice_from_step (j mod 3) 3 [10; 11; 12; 20; 21; 22])
            (j / 3)).
Proof.
  apply (@slice_from_step_indexing nat [10; 11; 12; 20; 21; 22] 3). lia.
Defined.

(** On a default-profile frame of 432 floats and 16 channels. *)
Lemma slices_partition_the_frame_witness :
  list_sum (map (fun c => length (slice_from_step c 16 (ramp_frame 0))) (seq 0 16))
  = length (ramp_frame 0)
  /\ (forall n c, length (ramp_frame 0) = n * 16 -> c < 16 ->
        length (slice_from_step c 16 (ramp_frame 0)) = n).
Proof.
  apply (@slices_partition_the_frame float (ramp_frame 0) 16). lia.
Defined.

(* ================================================================= *)
(** ** Negotiation: outcome and repetition *)

Section NegotiationOutcome.
Context {L : SciPy} {LL : SciPyLaws L}.

(** X3: [configure_system] never raises.  It returns [True] exactly when the
    flush ended by its timeout, the requested rate is a finite number, both
    commands were sent and a reply was received and decoded; and when it
    returns [False] the handler is as it was. *)
Theorem configure_system_outcome (h : DelsysDataHandler) (sock : CommSocket) :
  let r := configure_system sock h in
  (exists b, fst r = Ok b)
  /\ (fst r = Ok true <->
      flush_error sock = None
      /\ exists n reply,
           int_of_float (SAMPLING_RATE h) = Ok n
           /\ send_ok sock (RATE n) = true
           /\ send_ok sock RATE_query = true
           /\ recv_decode sock = Ok reply)
  /\ (fst r = Ok false -> snd r = h).
Proof.
  intros r. assert (Hr : r = configure_system sock h) by reflexivity.
  clearbody r. revert Hr.
  unfold configure_system, try_except, bind, get, lift, send_command, raise.
  destruct (flush_error sock) as [e |] eqn:Ef.
  { unfold ret. intros ->. cbn [fst snd].
    split; [ eauto | split; [ split | reflexivity ] ];
      [ discriminate | intros [Hn _]; discriminate ]. }
  unfold ret at 1.
  destruct (int_of_float (SAMPLING_RATE h)) as [n | e] eqn:Ei.
  2:{ unfold ret. intros ->. cbn [fst snd].
      split; [ eauto | split; [ split | reflexivity ] ];
        [ discriminate | intros (_ & n & reply & Hn & _); discriminate ]. }
  destruct (send_ok sock (RATE n)) eqn:E1; cbn [negb].
  2:{ unfold ret. intros ->. cbn [fst snd].
      split; [ eauto | split; [ split | reflexivity ] ];
        [ discriminate
        | intros (_ & n' & reply & Hn & Hs & _); congruence ]. }
  destruct (send_ok sock RATE_query) eqn:E2; cbn [negb].
  2:{ unfold ret. intros ->. cbn [fst snd].
      split; [ eauto | split; [ split | reflexivity ] ];
        [ discriminate
        | intros (_ & n' & reply & _ & _ & Hs & _); congruence ]. }
  destruct (recv_decode sock) as [reply | e] eqn:Er.
  2:{ unfold ret. intros ->. cbn [fst snd].
      split; [ eauto | split; [ split | reflexivity ] ];
        [ discriminate
        | intros (_ & n' & reply & _ & _ & _ & Hs); discriminate ]. }
  destruct (contains "1925" (strip reply));
    unfold modify at 1; unfold ret at 1;
    cbn [SAMPLING_RATE set_rate_adjusted_bytes];
    match goal with
    | |- context [ (?rate =? SAMPLING_RATE h)%float ] =>
        destruct (rate =? SAMPLING_RATE h)%float; cbn [negb];
        [ unfold ret; intros ->; cbn [fst snd];
          split; [ eauto | split; [ split; [ | reflexivity ] | discriminate ] ];
          intros _; split; [ reflexivity | ];
          exists n, reply; auto
        | unfold modify at 1;
          match goal with
          | |- context [ _design_filters ?h2 ] =>
              let h' := fresh "h'" in
              let E' := fresh "E'" in
              destruct (@design_returns L LL rate h2) as [h' E'];
              [ first [ left; reflexivity | right; reflexivity ]
              | reflexivity | ];
              rewrite E'; unfold ret; intros ->; cbn [fst snd];
              split; [ eauto | split; [ split; [ | reflexivity ] | discriminate ] ];
              intros _; split; [ reflexivity | ];
              exists n, reply; auto
          end ]
    end.
Qed.

(** A handler whose rate and frame size are already those that the reply
    selects is left exactly as it is by the negotiation: nothing is designed
    again. *)
Lemma configure_system_settled (h : DelsysDataHandler) (sock : CommSocket)
    (reply : string) :
  SAMPLING_RATE h = profile_rate reply ->
  rate_adjusted_bytes h = profile_bytes reply ->
  flush_error sock = None ->
  (forall cmd, send_ok sock cmd = true) ->
  recv_decode sock = Ok reply ->
  configure_system sock h = (Ok true, h).
Proof.
  intros Hr Hb Hflush Hsend Hrecv.
  unfold configure_system, try_except, bind, get, lift, send_command.
  rewrite Hflush. unfold ret at 1. rewrite Hr.
  assert (Hint : exists n, int_of_float (profile_rate reply) = Ok n).
  { unfold profile_rate. destruct (contains "1925" reply); eexists; reflexivity. }
  destruct Hint as [n ->]. rewrite !Hsend. cbn [negb].
  rewrite Hrecv, contains_1925_strip.
  unfold profile_rate, profile_bytes in *.
  destruct (contains "1925" reply);
    unfold modify at 1; unfold ret at 1;
    cbn [SAMPLING_RATE set_rate_adjusted_bytes]; rewrite Hr;
    match goal with
    | |- context [ (?rate =? ?rate)%float ] =>
        replace (rate =? rate)%float with true by reflexivity
    end;
    cbn [negb]; unfold ret; rewrite <- Hb; destruct h; reflexivity.
Qed.

(** X4: Negotiating again after a negotiation that got the same reply changes
    nothing and succeeds. *)
Theorem renegotiation_changes_nothing
    (h : DelsysDataHandler) (sock sock' : CommSocket) (reply : string) (n : Z) :
  designed_for (SAMPLING_RATE h) h ->
  flush_error sock = None ->
  int_of_float (SAMPLING_RATE h) = Ok n ->
  send_ok sock (RATE n) = true ->
  send_ok sock RATE_query = true ->
  recv_decode sock = Ok reply ->
  flush_error sock' = None ->
  (forall cmd, send_ok sock' cmd = true) ->
  recv_decode sock' = Ok reply ->
  let h' := snd (configure_system sock h) in
  configure_system sock' h' = (Ok true, h').
Proof.
  intros Hd Hflush Hint Hs1 Hs2 Hrecv Hflush' Hsend' Hrecv' h'.
  destruct (@configure_system_replied L LL h sock reply n
              Hd Hflush Hint Hs1 Hs2 Hrecv) as (h1 & E & Hb & Hr & _).
  subst h'. rewrite E. cbn [snd].
  apply configure_system_settled with (reply := reply); assumption.
Qed.

End NegotiationOutcome.

(** On the handler of the application, for a socket that replies. *)
Lemma configure_system_outcome_witness :
  let h := built_handler in
  let sock := replying "1925.926" in
  let r := configure_system (L := AllPass.scipy) sock h in
  (exists b, fst r = Ok b)
  /\ (fst r = Ok true <->
      flush_error sock = None
      /\ exists n reply,
           int_of_float (SAMPLING_RATE h) = Ok n
           /\ send_ok sock (RATE n) = true
           /\ send_ok sock RATE_query = true
           /\ recv_decode sock = Ok reply)
  /\ (fst r = Ok false -> snd r = h).
Proof.
  exact (@configure_system_outcome AllPass.scipy AllPass_laws built_handler
           (replying "1925.926")).
Defined.

(** On the handler of the application, negotiated twice to the alternate
    profile. *)
Lemma renegotiation_changes_nothing_witness :
  let h' := snd (configure_system (L := AllPass.scipy) (replying "1925.926")
                   built_handler) in
  configure_system (L := AllPass.scipy) (replying "1925.926") h' = (Ok true, h').
Proof.
  apply (@renegotiation_changes_nothing AllPass.scipy AllPass_laws
           built_handler (replying "1925.926") (replying "1925.926")
           "1925.926" 2000%Z);
    first [ exact built_handler_designed | reflexivity ].
Defined.

(* ================================================================= *)
(** ** Frames on a handler in any state *)

Lemma only_data_changed_refl h : only_data_changed h h.
Proof. split; [ apply same_settings_refl | reflexivity .. ]. Qed.

Lemma only_data_changed_trans h1 h2 h3 :
  only_data_changed h1 h2 -> only_data_changed h2 h3 -> only_data_changed h1 h3.
Proof.
  intros [S1 T1 Q1 B1] [S2 T2 Q2 B2].
  split; [ eapply same_settings_trans; eassumption | congruence .. ].
Qed.

Lemma map_list_set_same {A B} (f : A -> B) (l : list A) : forall i x d,
  nth_error l i = Some d -> f x = f d -> map f (list_set l i x) = map f l.
Proof.
  induction l as [| y t IH]; intros [| i] x d H E; cbn [nth_error list_set map] in *;
    try discriminate.
  - injection H as ->. rewrite E. reflexivity.
  - rewrite (IH i x d H E). reflexivity.
Qed.

Lemma Forall_list_set_any {A} (P : A -> Prop) (l : list A) : forall i x,
  Forall P l -> P x -> Forall P (list_set l i x).
Proof.
  induction l as [| y t IH]; intros [| i] x H Hx; cbn [list_set];
    inversion H; subst; constructor; auto.
Qed.

Lemma set_output_queue_twice q q' (h : DelsysDataHandler) :
  set_output_queue q (set_output_queue q' h) = set_output_queue q h.
Proof. reflexivity. Qed.

(** One push on any queue: the queue keeps its capacity and gets no entry
    other than the pushed one, also when the push raises. *)
Lemma put_drop_oldest_any (h : DelsysDataHandler) (x : output_data) :
  exists q,
    snd (put_drop_oldest x h) = set_output_queue q h
    /\ maxsize q = maxsize (output_queue h)
    /\ (forall y, In y (qitems q) -> In y (qitems (output_queue h)) \/ y = x)
    /\ (0 < maxsize (output_queue h) ->
        qsize (output_queue h) <= maxsize (output_queue h) ->
        qsize q <= maxsize q).
Proof.
  unfold put_drop_oldest, try_except, q_put_nowait, q_get_nowait, bind, get,
    lift, modify, ret, raise, put_nowait, get_nowait, qsize.
  destruct (output_queue h) as [m its] eqn:Eq. cbn [maxsize qitems].
  destruct ((0 <? m) && (m <=? length its)) eqn:Efull.
  - cbn [reraise_unless]. rewrite Eq. cbn [qitems maxsize].
    destruct its as [| y t].
    + cbn [reraise_unless snd]. exists (output_queue h).
      rewrite set_output_queue_same, Eq. cbn [maxsize qitems length].
      split; [ reflexivity | split; [ reflexivity | split; [ intros ? [] | lia ] ] ].
    + cbn [snd fst output_queue set_output_queue qitems maxsize].
      destruct ((0 <? m) && (m <=? length t)) eqn:Efull'.
      * cbn [reraise_unless snd]. exists (MkQueue m t). cbn [maxsize qitems].
        split; [ reflexivity | split; [ reflexivity | split ] ].
        -- intros z Hz. left. right. exact Hz.
        -- cbn [length]. lia.
      * cbn [snd]. exists (MkQueue m (t ++ [x])). cbn [maxsize qitems].
        split; [ reflexivity | split; [ reflexivity | split ] ].
        -- intros z Hz. apply in_app_or in Hz as [Hz | [<- | []]];
             [ left; right; exact Hz | right; reflexivity ].
        -- rewrite length_app. cbn [length]. lia.
  - cbn [snd]. exists (MkQueue m (its ++ [x])). cbn [maxsize qitems].
    split; [ reflexivity | split; [ reflexivity | split ] ].
    + intros z Hz. apply in_app_or in Hz as [Hz | [<- | []]];
        [ left; exact Hz | right; reflexivity ].
    + intros Hpos Hsize. rewrite length_app. cbn [length].
      apply andb_false_iff in Efull as [E | E];
        [ apply Nat.ltb_ge in E | apply Nat.leb_gt in E ]; lia.
Qed.

Section AnyState.
Context {L : SciPy}.

Lemma emitted_same h h' x w :
  same_settings h h' -> emitted h' x w -> emitted h x w.
Proof.
  intros [_ Ha Hl _ He _ H1 H2 H3 H4]. unfold emitted, process_emg_channel,
    stage_highpass, stage_notch, stage_bandpass, stage_envelope.
  rewrite Hl, He, H1, H2, H3, H4, Ha. exact (fun H => H).
Qed.

Lemma evolves_refl h : evolves h h.
Proof.
  split; [ apply only_data_changed_refl | split; [ exact (fun H => H) | ] ].
  exists []. split; [ symmetry; apply app_nil_r | ]. intros x Hx. left. exact Hx.
Qed.

Lemma evolves_trans h1 h2 h3 : evolves h1 h2 -> evolves h2 h3 -> evolves h1 h3.
Proof.
  intros (D1 & C1 & new1 & P1 & Q1) (D2 & C2 & new2 & P2 & Q2).
  split; [ eapply only_data_changed_trans; eassumption | ].
  split; [ auto | ].
  exists (new1 ++ new2). split; [ rewrite P2, P1, app_assoc; reflexivity | ].
  intros x Hx. destruct (Q2 x Hx) as [Hold | (w & Hw & He)].
  - destruct (Q1 x Hold) as [Hold' | (w & Hw & He)]; [ left; exact Hold' | ].
    right. exists w. split; [ apply in_or_app; left; exact Hw | exact He ].
  - right. exists w. split; [ apply in_or_app; right; exact Hw | ].
    eapply emitted_same; [ apply (kept_settings D1) | exact He ].
Qed.

(** The buffers of a channel replaced by a deque of the same capacity. *)
Lemma evolves_buffer h c d buf :
  nth_error (emg_processing_buffers h) c = Some d ->
  maxlen buf = maxlen d ->
  (length (items d) <= maxlen d -> length (items buf) <= maxlen buf) ->
  evolves h (set_emg_processing_buffers
               (list_set (emg_processing_buffers h) c buf) h).
Proof.
  intros Hnth Hmax Hlen.
  split; [ | split ].
  - split; [ split; reflexivity | reflexivity | reflexivity | ].
    cbn [emg_processing_buffers set_emg_processing_buffers].
    eapply map_list_set_same; eassumption.
  - intros [Hb Hq]. split; [ | exact Hq ].
    cbn [emg_processing_buffers set_emg_processing_buffers].
    apply Forall_list_set_any; [ exact Hb | ]. apply Hlen.
    rewrite Forall_forall in Hb. apply Hb. eapply nth_error_In. exact Hnth.
  - exists []. split; [ symmetry; apply app_nil_r | ].
    intros x Hx. left. exact Hx.
Qed.

(** One turn of the loop of [_process_raw_data], on any handler and whether
    or not the turn raises. *)
Lemma channel_turn_any raw c h :
  evolves h (snd (_process_raw_data_channel raw c h)).
Proof.
  unfold _process_raw_data_channel, bind, get, lift, modify, index.
  destruct (nth_error (emg_processing_buffers h) c) as [d |] eqn:Hnth;
    [ | apply evolves_refl ].
  set (buf := deque_extend d (slice_from_step c (NUM_SENSORS h) raw)).
  assert (Hmax : maxlen buf = maxlen d) by apply deque_extend_maxlen.
  assert (Hlen : length (items d) <= maxlen d -> length (items buf) <= maxlen buf).
  { intros Hd. unfold buf. rewrite deque_extend_maxlen, deque_extend_length by exact Hd.
    lia. }
  pose proof (@evolves_buffer h c d buf Hnth Hmax Hlen) as E1.
  set (h1 := set_emg_processing_buffers
               (list_set (emg_processing_buffers h) c buf) h) in *.
  destruct (Nat.leb_spec (ACCUMULATION_SIZE h) (length (items buf))) as [Hfull | Hpart];
    [ | exact E1 ].
  set (h2 := log_filter_pass c (items buf) h1).
  assert (E2 : evolves h h2).
  { destruct E1 as (D1 & C1 & new1 & P1 & Q1).
    split; [ | split ].
    - destruct D1 as [S1 T1 Qc1 B1]. split; [ | exact T1 | exact Qc1 | exact B1 ].
      destruct S1. split; assumption.
    - exact C1.
    - exists (new1 ++ [(c, items buf)]). split.
      + unfold h2. cbn [filter_passes log_filter_pass]. rewrite P1, app_assoc.
        reflexivity.
      + intros x Hx. destruct (Q1 x Hx) as [Hold | (w & Hw & He)];
          [ left; exact Hold | ].
        right. exists w. split; [ apply in_or_app; left; exact Hw | exact He ]. }
  destruct (process_emg_channel h (items buf)) as [y | e] eqn:Ey; [ | exact E2 ].
  destruct (nth_error (muscle_labels h) c) as [lab |] eqn:Elab; [ | exact E2 ].
  set (out := MkOutput c lab y).
  destruct (put_drop_oldest_any h2 out) as (q & Hq & Hqm & Hqin & Hqb).
  assert (E3 : evolves h (set_output_queue q h2)).
  { destruct E2 as (D2 & C2 & new2 & P2 & Q2).
    split; [ | split ].
    - destruct D2 as [S2 T2 Qc2 B2].
      split; [ destruct S2; split; assumption | exact T2 | | exact B2 ].
      cbn [output_queue set_output_queue]. congruence.
    - intros W. destruct (C2 W) as [Hb Hqs]. split; [ exact Hb | ].
      cbn [output_queue set_output_queue]. intros Hpos. apply Hqb; [ lia | ].
      apply Hqs. lia.
    - exists ([] ++ [(c, items buf)]). split.
      + reflexivity.
      + cbn [output_queue set_output_queue]. intros x Hx.
        destruct (Hqin x Hx) as [Hold | ->].
        * left. exact Hold.
        * right. exists (items buf). split; [ left; reflexivity | ].
          split; [ exact Elab | split; [ exact Ey | exact Hfull ] ]. }
  destruct (put_drop_oldest out h2) as [[[] | e] h3] eqn:Eput;
    cbn [snd] in Hq; subst h3; [ | exact E3 ].
  cbn [snd].
  eapply evolves_trans; [ exact E3 | ].
  assert (Hnth' : nth_error (emg_processing_buffers (set_output_queue q h2)) c
                  = Some buf).
  { cbn [emg_processing_buffers set_output_queue log_filter_pass
         set_emg_processing_buffers h2 h1].
    apply nth_error_list_set_eq. apply nth_error_Some. congruence. }
  apply (@evolves_buffer _ c buf (deque_clear buf) Hnth'); [ reflexivity | ].
  intros _. cbn [deque_clear items length]. lia.
Qed.

Lemma channels_loop_any raw : forall cs h,
  evolves h (snd (for_each cs (_process_raw_data_channel raw) h)).
Proof.
  induction cs as [| c cs IH]; intros h; cbn [for_each].
  - apply evolves_refl.
  - unfold bind at 1. pose proof (channel_turn_any raw c h) as E.
    destruct (_process_raw_data_channel raw c h) as [[[] | e] h1]; cbn [snd] in *.
    + eapply evolves_trans; [ exact E | apply IH ].
    + exact E.
Qed.

Lemma frame_any raw h :
  fst (_process_raw_data raw h) = Ok tt
  /\ evolves h (snd (_process_raw_data raw h)).
Proof.
  unfold _process_raw_data, try_except, bind, get, ret.
  pose proof (channels_loop_any raw (seq 0 (NUM_SENSORS h)) h) as E.
  destruct (for_each _ _ h) as [[[] | e] h']; cbn [fst snd] in *; auto.
Qed.

Lemma ingest_any frames : forall h, evolves h (ingest frames h).
Proof.
  induction frames as [| raw frames IH]; intros h.
  - apply evolves_refl.
  - unfold ingest. cbn [fold_left]. fold (ingest frames (snd (_process_raw_data raw h))).
    eapply evolves_trans; [ apply frame_any | apply IH ].
Qed.

End AnyState.

(* ================================================================= *)
(** ** The window and the filter orders *)

Section WindowFits.
Context {L : SciPy} {LL : SciPyLaws L}.












End WindowFits.


(** X5: Between two frames nothing is raised, and only the buffers' contents,
    the queue's entries and the log change: the settings, the coefficients,
    the [streaming] flag and every capacity are kept, on a handler in any
    state and for a frame of any length. *)
Theorem frame_processing_is_contained `{SciPy}
    (h : DelsysDataHandler) (raw : list float) :
  let r := _process_raw_data raw h in
  fst r = Ok tt
  /\ only_data_changed h (snd r)
  /\ (within_capacity h -> within_capacity (snd r)).
Proof.
  intros r. destruct (frame_any raw h) as (Hok & D & C & _).
  split; [ exact Hok | split; [ exact D | exact C ] ].
Qed.

(** X6: Whatever the frames and the state of the handler, every chunk found on
    the output queue afterwards was there before or was built from a window
    that the log records: it carries the label of its channel, the output of
    the pipeline on that window, and the window has at least
    [ACCUMULATION_SIZE] samples.  So no chunk is queued for a channel that has
    no label. *)
Theorem queued_chunks_come_from_logged_windows `{SciPy}
    (h : DelsysDataHandler) (frames : list (list float)) :
  let h' := ingest frames h in
  exists new,
    filter_passes h' = filter_passes h ++ new
    /\ forall x, In x (qitems (output_queue h')) ->
         In x (qitems (output_queue h))
         \/ (channel x < length (muscle_labels h)
             /\ exists w, In (channel x, w) new /\ emitted h x w).
Proof.
  intros h'. destruct (ingest_any frames h) as (_ & _ & new & P & Q).
  exists new. split; [ exact P | ].
  intros x Hx. destruct (Q x Hx) as [Hold | (w & Hw & He)];
    [ left; exact Hold | right ].
  split; [ | exists w; split; assumption ].
  destruct He as (Hlab & _). apply nth_error_Some. congruence.
Qed.

(* ================================================================= *)
(** ** The data thread *)

(** [decode_float32] on the little-endian encodings of 1.0, -2.5, the
    smallest subnormal and the infinity. *)
Example decode_float32_examples :
  decode_float32 Init.Byte.x00 Init.Byte.x00 Init.Byte.x80 Init.Byte.x3f = 1%float
  /\ decode_float32 Init.Byte.x00 Init.Byte.x00 Init.Byte.x20 Init.Byte.xc0
     = (-2.5)%float
  /\ decode_float32 Init.Byte.x01 Init.Byte.x00 Init.Byte.x00 Init.Byte.x00
     = 0x1p-149%float
  /\ decode_float32 Init.Byte.x00 Init.Byte.x00 Init.Byte.x80 Init.Byte.x7f
     = infinity.
Proof. repeat split; vm_compute; reflexivity. Qed.

Lemma unpack_floats_upto n : forall data_bytes,
  length data_bytes <= n ->
  match unpack_floats data_bytes with
  | Some samples => length data_bytes = 4 * length samples
  | None => length data_bytes mod 4 <> 0
  end.
Proof.
  induction n as [| n IH]; intros data_bytes Hn.
  - destruct data_bytes; cbn [length] in Hn; [ reflexivity | lia ].
  - destruct data_bytes as [| b0 [| b1 [| b2 [| b3 rest]]]];
      cbn [unpack_floats]; try (cbn; lia).
    cbn [length] in Hn. specialize (IH rest ltac:(lia)).
    destruct (unpack_floats rest) as [samples |]; cbn [length].
    + lia.
    + replace (S (S (S (S (length rest))))) with (length rest + 1 * 4) by lia.
      rewrite Nat.Div0.mod_add. exact IH.
Qed.

(** X7: [struct.unpack] succeeds exactly on a number of bytes that is a
    multiple of 4, and gives one float for every 4 bytes. *)
Theorem unpack_floats_length (data_bytes : list Init.Byte.byte) :
  match unpack_floats data_bytes with
  | Some samples => length data_bytes = 4 * length samples
  | None => length data_bytes mod 4 <> 0
  end.
Proof. apply (@unpack_floats_upto (length data_bytes)). lia. Qed.

(** X8: A read of the frame size that the negotiation selected is always
    unpacked, and gives every one of 16 channels the same number of samples:
    27 for 1728 bytes, 26 for 1664 bytes. *)
Theorem negotiated_frame_feeds_every_channel
    (reply : string) (data_bytes : list Init.Byte.byte) :
  length data_bytes = profile_bytes reply ->
  exists samples_array,
    unpack_floats data_bytes = Some samples_array
    /\ forall c, c < 16 ->
         length (slice_from_step c 16 samples_array)
         = if contains "1925" reply then 26 else 27.
Proof.
  intros Hlen. pose proof (unpack_floats_length data_bytes) as Hu.
  unfold profile_bytes in Hlen.
  destruct (unpack_floats data_bytes) as [samples |].
  - exists samples. split; [ reflexivity | ]. intros c Hc.
    destruct (contains "1925" reply);
      apply slice_from_step_length; lia.
  - exfalso. apply Hu. rewrite Hlen.
    destruct (contains "1925" reply); reflexivity.
Qed.

Lemma data_thread_eq `{SciPy}
    (reads : list (result (list Init.Byte.byte))) (h : DelsysDataHandler) :
  emg_data_thread reads h
  = (Ok tt,
     if streaming h
     then ingest (accepted_frames (rate_adjusted_bytes h) reads) h
     else h).
Proof.
  revert h. induction reads as [| recv rest IH]; intros h.
  - cbn [emg_data_thread accepted_frames]. destruct (streaming h); reflexivity.
  - cbn [emg_data_thread]. unfold bind at 1, get at 1.
    destruct (streaming h) eqn:Es; [ | reflexivity ].
    unfold bind at 1, emg_data_turn.
    destruct recv as [data_bytes | e]; [ | reflexivity ].
    unfold bind at 1, get at 1. cbn [accepted_frames].
    destruct (length data_bytes =? rate_adjusted_bytes h).
    + destruct (unpack_floats data_bytes) as [samples |]; [ | reflexivity ].
      unfold bind at 1.
      destruct (frame_any samples h) as (Hok & D & _).
      destruct (_process_raw_data samples h) as [r h1] eqn:E1.
      cbn [fst snd] in Hok, D. subst r. unfold ret at 1.
      rewrite IH, (kept_streaming D), Es,
        (same_rate_adjusted_bytes (kept_settings D)).
      unfold ingest at 2. cbn [fold_left]. rewrite E1. reflexivity.
    + unfold ret at 1. rewrite IH, Es. reflexivity.
Qed.

(** X9: The data thread never raises.  While [streaming] is set it hands to
    [_process_raw_data], in order, the reads that have exactly the negotiated
    size, up to the first read that raises or cannot be unpacked; a read of
    another size is dropped whole.  When [streaming] is not set it does
    nothing. *)
Theorem data_thread_processes_whole_frames `{SciPy}
    (reads : list (result (list Init.Byte.byte))) (h : DelsysDataHandler) :
  emg_data_thread reads h
  = (Ok tt,
     if streaming h
     then ingest (accepted_frames (rate_adjusted_bytes h) reads) h
     else h).
Proof. apply data_thread_eq. Qed.

(* ================================================================= *)
(** ** Starting and stopping the stream *)

(** X10: [stop_streaming] never raises; it resets [streaming] and empties every
    processing buffer, so the samples that had not yet filled a window are
    discarded; the chunks already on the output queue stay there, and the
    settings, the coefficients and the log are untouched.  A data thread
    that looks at the handler afterwards does nothing, and a second
    [stop_streaming] changes nothing. *)
Theorem stop_streaming_discards_pending_samples `{SciPy}
    (h : DelsysDataHandler) :
  let h' := snd (stop_streaming h) in
  fst (stop_streaming h) = Ok tt
  /\ streaming h' = false
  /\ (forall c, buffer h' c = [])
  /\ output_queue h' = output_queue h
  /\ filter_passes h' = filter_passes h
  /\ same_settings h h'
  /\ (forall reads, emg_data_thread reads h' = (Ok tt, h'))
  /\ snd (stop_streaming h') = h'.
Proof.
  unfold stop_streaming, clear_processing_buffers, bind, modify.
  cbn [fst snd streaming set_streaming output_queue filter_passes
       set_emg_processing_buffers].
  split; [ reflexivity | split; [ reflexivity | split ] ].
  - intros c. unfold buffer.
    cbn [emg_processing_buffers set_streaming set_emg_processing_buffers].
    change (deque_new 0) with (deque_clear (@deque_new float 0)).
    rewrite map_nth. reflexivity.
  - split; [ reflexivity | split; [ reflexivity | split; [ split; reflexivity | ] ] ].
    split.
    + intros [| recv rest]; reflexivity.
    + cbn [emg_processing_buffers set_streaming set_emg_processing_buffers
           NUM_SENSORS envelope SAMPLING_RATE muscle_labels output_queue
           ACCUMULATION_SIZE streaming rate_adjusted_bytes hp notch bp lp
           filter_passes].
      rewrite map_map. reflexivity.
Qed.

Section Start.
Context {L : SciPy}.

(** Whatever happens on the command socket, and whether or not the designs
    succeed, [configure_system] returns a boolean and changes nothing but
    the rate, the frame size and the coefficients. *)
Lemma configure_system_frame (h : DelsysDataHandler) (sock : CommSocket) :
  exists b h',
    configure_system sock h = (Ok b, h')
    /\ exists bytes rate,
         same_but_filters
           (set_SAMPLING_RATE rate (set_rate_adjusted_bytes bytes h)) h'.
Proof.
  assert (Hsame : forall b : bool, exists (b' : bool) h',
            (@Ok bool b, h) = (Ok b', h')
            /\ exists bytes rate,
                 same_but_filters
                   (set_SAMPLING_RATE rate (set_rate_adjusted_bytes bytes h)) h').
  { intros b. exists b, h. split; [ reflexivity | ].
    exists (rate_adjusted_bytes h), (SAMPLING_RATE h).
    unfold same_but_filters. destruct h. reflexivity. }
  unfold configure_system, try_except, bind, get, lift, send_command, raise.
  destruct (flush_error sock); [ apply Hsame | ].
  unfold ret at 1.
  destruct (int_of_float (SAMPLING_RATE h)) as [n |]; [ | apply Hsame ].
  destruct (send_ok sock (RATE n)); cbn [negb]; [ | apply Hsame ].
  destruct (send_ok sock RATE_query); cbn [negb]; [ | apply Hsame ].
  destruct (recv_decode sock) as [reply |]; [ | apply Hsame ].
  destruct (contains "1925" (strip reply));
    unfold modify at 1; unfold ret at 1;
    cbn [SAMPLING_RATE set_rate_adjusted_bytes];
    match goal with
    | |- context [ (?rate =? SAMPLING_RATE h)%float ] =>
        destruct (rate =? SAMPLING_RATE h)%float; cbn [negb];
        [ match goal with
          | |- context [ set_rate_adjusted_bytes ?b h ] =>
              eexists; eexists; split; [ reflexivity | ];
              exists b, (SAMPLING_RATE h); unfold same_but_filters;
              destruct h; reflexivity
          end
        | unfold modify at 1 ]
    end;
    match goal with
    | |- context [ _design_filters (set_SAMPLING_RATE ?rate (set_rate_adjusted_bytes ?b h)) ] =>
        pose proof (_design_filters_frame
                      (set_SAMPLING_RATE rate (set_rate_adjusted_bytes b h))) as Hfr;
        destruct (_design_filters _) as [[[] | e] h'];
        cbn [snd fst] in *; eexists; eexists; (split; [ reflexivity | ]);
        exists b, rate; exact Hfr
    end.
Qed.

Lemma configure_system_keeps_streaming (h : DelsysDataHandler) sock :
  set_streaming (streaming h) (snd (configure_system sock h))
  = snd (configure_system sock h).
Proof.
  destruct (configure_system_frame h sock) as (b & h' & E & bytes & rate & Hs).
  rewrite E. cbn [snd]. unfold same_but_filters in Hs. rewrite Hs.
  destruct h. reflexivity.
Qed.

(** X11: [start_streaming] never raises.  It returns [True] exactly when the
    connections were made, [configure_system] returned [True] and the START
    command was sent, and only then sets [streaming].  When the connections
    fail the handler is as it was; otherwise it is as [configure_system] left
    it, also when the start fails afterwards. *)
Theorem start_streaming_outcome (net : Network) (h : DelsysDataHandler) :
  let r := start_streaming net h in
  let configured := configure_system (command_socket net) h in
  exists started,
    fst r = Ok started
    /\ (started = true <->
        connect_ok net = true /\ fst configured = Ok true
        /\ send_ok (command_socket net) START = true)
    /\ snd r = (if connect_ok net
                then set_streaming (started || streaming h) (snd configured)
                else h).
Proof.
  intros r configured.
  pose proof (configure_system_keeps_streaming h (command_socket net)) as Hk.
  assert (Hb : exists b, fst (configure_system (command_socket net) h) = Ok b).
  { destruct (configure_system_frame h (command_socket net)) as (b & h' & E & _).
    exists b. rewrite E. reflexivity. }
  destruct Hb as [b Hb].
  subst r. unfold start_streaming, setup_connections, send_command, bind.
  destruct (connect_ok net); cbn [negb].
  2:{ exists false. unfold ret. cbn [fst snd].
      split; [ reflexivity | split; [ | reflexivity ] ].
      split; [ discriminate | intros [Hc _]; discriminate ]. }
  fold configured in Hb, Hk |- *.
  destruct configured as [rc hc]. cbn [fst snd] in *. subst rc.
  destruct b; cbn [negb].
  2:{ exists false. unfold ret. cbn [fst snd orb].
      split; [ reflexivity | split; [ | symmetry; exact Hk ] ].
      split; [ discriminate | intros (_ & Hc & _); discriminate ]. }
  destruct (send_ok (command_socket net) START); cbn [negb].
  - exists true. unfold modify, ret. cbn [fst snd orb].
    split; [ reflexivity | split; [ | reflexivity ] ].
    split; auto.
  - exists false. unfold ret. cbn [fst snd orb].
    split; [ reflexivity | split; [ | symmetry; exact Hk ] ].
    split; [ discriminate | intros (_ & _ & Hc); discriminate ].
Qed.

Context {LL : SciPyLaws L}.

(** X12: After a start on a cooperative network the handler is streaming with
    the profile that the reply selected, and the data thread then processes
    exactly the reads of that profile's frame size: 1664 bytes when the reply
    contains ["1925"], 1728 bytes otherwise. *)
Theorem started_thread_reads_negotiated_frames
    (net : Network) (h : DelsysDataHandler) (reply : string) (n : Z)
    (reads : list (result (list Init.Byte.byte))) :
  designed_for (SAMPLING_RATE h) h ->
  connect_ok net = true ->
  flush_error (command_socket net) = None ->
  int_of_float (SAMPLING_RATE h) = Ok n ->
  (forall cmd, send_ok (command_socket net) cmd = true) ->
  recv_decode (command_socket net) = Ok reply ->
  let h' := snd (start_streaming net h) in
  fst (start_streaming net h) = Ok true
  /\ streaming h' = true
  /\ SAMPLING_RATE h' = profile_rate reply
  /\ designed_for (profile_rate reply) h'
  /\ emg_data_thread reads h'
     = (Ok tt, ingest (accepted_frames (profile_bytes reply) reads) h').
Proof.
  intros Hd Hc Hflush Hint Hsend Hrecv.
  destruct (@configure_system_replied L LL h (command_socket net) reply n
              Hd Hflush Hint (Hsend _) (Hsend _) Hrecv)
    as (h1 & E & Hb & Hr & Hf & _).
  unfold start_streaming, setup_connections, send_command, bind.
  rewrite Hc. cbn [negb]. rewrite E. cbn [negb]. rewrite Hsend. cbn [negb].
  unfold modify, ret. cbn [fst snd].
  split; [ reflexivity | split; [ reflexivity | split; [ exact Hr | ] ] ].
  split; [ exact Hf | ].
  rewrite data_thread_eq.
  cbn [streaming set_streaming rate_adjusted_bytes]. rewrite Hb. reflexivity.
Qed.

End Start.

(* ================================================================= *)
(** ** Frames of one size: the drain cycle *)

Section UniformFrames.
Context {L : SciPy} {LL : SciPyLaws L}.

(** A frame that brings [k] samples to every channel, on buffers that all
    hold [m] samples: below 75 samples the buffers grow and nothing is
    called; from 75 on every channel hands its newest 75 samples to the
    pipeline and is emptied. *)
Lemma frame_uniform h raw (held : nat -> list float) k m :
  wf h -> length raw = k * NUM_SENSORS h ->
  (forall c, c < NUM_SENSORS h -> buffer h c = held c /\ length (held c) = m) ->
  let data c := slice_from_step c (NUM_SENSORS h) raw in
  let calls := map (fun c => (c, lastn 75 (held c ++ data c)))
                 (seq 0 (NUM_SENSORS h)) in
  exists h',
    _process_raw_data raw h = (Ok tt, h') /\ wf h' /\ same_settings h h'
    /\ (m + k < 75 ->
        filter_passes h' = filter_passes h
        /\ qitems (output_queue h') = qitems (output_queue h)
        /\ forall c, c < NUM_SENSORS h -> buffer h' c = held c ++ data c)
    /\ (75 <= m + k ->
        filter_passes h' = filter_passes h ++ calls
        /\ qitems (output_queue h')
           = lastn 1000 (qitems (output_queue h) ++ map (chunk_of h) calls)
        /\ forall c, c < NUM_SENSORS h -> buffer h' c = []).
Proof.
  intros W Hraw Hheld data calls.
  destruct (frame_spec raw W) as (h' & E & W' & S & B & P & Q).
  assert (Hdata : forall c, c < NUM_SENSORS h -> length (data c) = k).
  { intros c Hc. unfold data. destruct (NUM_SENSORS h) as [| s]; [ lia | ].
    apply slice_from_step_length; [ exact Hraw | lia ]. }
  assert (Hext : forall c, c < NUM_SENSORS h ->
            extended h raw c = lastn 75 (held c ++ data c)
            /\ length (extended h raw c) = Nat.min 75 (m + k)).
  { intros c Hc. destruct (Hheld c Hc) as [Hb Hl].
    rewrite extended_lastn by assumption. rewrite Hb. fold (data c).
    split; [ reflexivity | ].
    rewrite lastn_length, length_app, Hl, Hdata by exact Hc. reflexivity. }
  exists h'. split; [ exact E | split; [ exact W' | split; [ exact S | ] ] ].
  split.
  - intros Hlt.
    assert (Hnone : frame_passes h raw = []).
    { unfold frame_passes. apply flat_map_nil. intros c Hc. apply in_seq in Hc.
      destruct (Hext c) as [_ Hl]; [ lia | ]. rewrite (wf_accumulation W), Hl.
      destruct (Nat.leb_spec 75 (Nat.min 75 (m + k))); [ lia | reflexivity ]. }
    rewrite Hnone in P, Q. cbn [map] in Q. rewrite !app_nil_r in *.
    split; [ exact P | split ].
    + rewrite Q. apply lastn_all. apply (wf_queue W).
    + intros c Hc. rewrite B by exact Hc. destruct (Hext c Hc) as [He Hl].
      unfold after_turn. rewrite Hl.
      destruct (Nat.leb_spec 75 (Nat.min 75 (m + k))); [ lia | ].
      rewrite He. apply lastn_all. destruct (Hheld c Hc) as [_ Hm].
      rewrite length_app, Hm, Hdata by exact Hc. lia.
  - intros Hge.
    assert (Hall : frame_passes h raw = calls).
    { unfold frame_passes, calls. apply flat_map_single. intros c Hc.
      apply in_seq in Hc. destruct (Hext c) as [He Hl]; [ lia | ].
      rewrite (wf_accumulation W), Hl, He.
      destruct (Nat.leb_spec 75 (Nat.min 75 (m + k))); [ reflexivity | lia ]. }
    rewrite Hall in P, Q. split; [ exact P | split; [ exact Q | ] ].
    intros c Hc. rewrite B by exact Hc. destruct (Hext c Hc) as [_ Hl].
    unfold after_turn. rewrite Hl.
    destruct (Nat.leb_spec 75 (Nat.min 75 (m + k))); [ reflexivity | lia ].
Qed.

Lemma cycle_uniform k : forall frames h (held : nat -> list float) m,
  wf h ->
  (forall c, c < NUM_SENSORS h -> buffer h c = held c /\ length (held c) = m) ->
  Forall (fun raw => length raw = k * NUM_SENSORS h) frames ->
  m + (length frames - 1) * k < 75 -> 75 <= m + length frames * k ->
  let received c := flat_map (slice_from_step c (NUM_SENSORS h)) frames in
  let calls := map (fun c => (c, lastn 75 (held c ++ received c)))
                 (seq 0 (NUM_SENSORS h)) in
  let h' := ingest frames h in
  filter_passes h' = filter_passes h ++ calls
  /\ qitems (output_queue h')
     = lastn 1000 (qitems (output_queue h) ++ map (chunk_of h) calls)
  /\ forall c, c < NUM_SENSORS h -> buffer h' c = [].
Proof.
  induction frames as [| raw rest IH]; intros h held m W Hheld Hlen Hlt Hge;
    cbn [length] in *; [ lia | ].
  inversion Hlen as [| ? ? Hraw Hrest]; subst.
  destruct (@frame_uniform h raw held k m W Hraw Hheld)
    as (h1 & E1 & W1 & S1 & Hfill & Hdrain).
  unfold ingest. cbn [fold_left]. rewrite E1. cbn [snd]. fold (ingest rest h1).
  destruct rest as [| raw2 rest].
  - cbn [length] in *. destruct Hdrain as (P & Q & B); [ lia | ].
    cbn [ingest fold_left flat_map]. 
    assert (Hcalls : forall (f : nat -> list float),
              map (fun c => (c, lastn 75 (held c ++ f c ++ []))) (seq 0 (NUM_SENSORS h))
              = map (fun c => (c, lastn 75 (held c ++ f c))) (seq 0 (NUM_SENSORS h))).
    { intros f. apply map_ext. intros c. rewrite app_nil_r. reflexivity. }
    rewrite Hcalls. split; [ exact P | split; [ exact Q | exact B ] ].
  - destruct Hfill as (P & Q & B); [ cbn [length] in *; lia | ].
    pose proof (same_NUM_SENSORS S1) as HN.
    destruct (IH h1 (fun c => held c ++ slice_from_step c (NUM_SENSORS h) raw)
                (m + k) W1) as (P' & Q' & B').
    + intros c Hc. rewrite HN in Hc. split; [ apply B; exact Hc | ].
      rewrite length_app. destruct (Hheld c Hc) as [_ ->].
      destruct (NUM_SENSORS h) as [| s]; [ lia | ].
      rewrite slice_from_step_length with (n := k); [ reflexivity | exact Hraw | lia ].
    + rewrite HN. exact Hrest.
    + cbn [length] in *. lia.
    + cbn [length] in *. lia.
    + rewrite HN in P', Q', B'.
      assert (Hcalls :
                map (fun c => (c, lastn 75
                                    ((held c ++ slice_from_step c (NUM_SENSORS h) raw)
                                     ++ flat_map (slice_from_step c (NUM_SENSORS h))
                                          (raw2 :: rest))))
                  (seq 0 (NUM_SENSORS h))
                = map (fun c => (c, lastn 75
                                      (held c
                                       ++ flat_map (slice_from_step c (NUM_SENSORS h))
                                            (raw :: raw2 :: rest))))
                    (seq 0 (NUM_SENSORS h))).
      { apply map_ext. intros c. rewrite <- app_assoc. reflexivity. }
      rewrite Hcalls in P', Q'.
      split; [ rewrite P', P; reflexivity | split; [ | exact B' ] ].
      rewrite Q', Q. do 2 f_equal. apply map_ext. intros p.
      apply chunk_of_same. exact S1.
Qed.

(** X13: Frames that bring [k] samples to every channel, on empty buffers: the
    pipeline is called once per channel, by the frame that brings the count
    to 75 or more, on the newest 75 of the samples received; the older
    ones, [length frames * k - 75] per channel, are never filtered.  The
    1664-byte profile (26 samples) so loses 3 of every 78 samples, the
    1728-byte profile (27 samples) 6 of every 81, and a frame size that
    divides 75 loses none. *)
Theorem uniform_frames_drain_cycle
    (h : DelsysDataHandler) (k : nat) (frames : list (list float)) :
  wf h ->
  (forall c, c < NUM_SENSORS h -> buffer h c = []) ->
  Forall (fun raw => length raw = k * NUM_SENSORS h) frames ->
  (length frames - 1) * k < 75 -> 75 <= length frames * k ->
  let received c := flat_map (slice_from_step c (NUM_SENSORS h)) frames in
  let calls := map (fun c => (c, lastn 75 (received c))) (seq 0 (NUM_SENSORS h)) in
  let h' := ingest frames h in
  filter_passes h' = filter_passes h ++ calls
  /\ qitems (output_queue h')
     = lastn 1000 (qitems (output_queue h) ++ map (chunk_of h) calls)
  /\ forall c, c < NUM_SENSORS h ->
       length (received c) = length frames * k
       /\ received c
          = firstn (length frames * k - 75) (received c) ++ lastn 75 (received c)
       /\ buffer h' c = [].
Proof.
  intros W Hempty Hlen Hlt Hge received calls h'.
  destruct (@cycle_uniform k frames h (fun _ => []) 0 W) as (P & Q & B);
    [ intros c Hc; split; [ apply Hempty; exact Hc | reflexivity ]
    | exact Hlen | lia | lia | ].
  cbn [app] in P, Q.
  split; [ exact P | split; [ exact Q | ] ].
  intros c Hc.
  assert (Hrec : length (received c) = length frames * k).
  { unfold received. clear - Hlen Hc. induction Hlen as [| raw rest Hraw _ IH];
      [ reflexivity | ].
    cbn [flat_map length]. rewrite length_app, IH.
    destruct (NUM_SENSORS h) as [| s]; [ lia | ].
    rewrite slice_from_step_length with (n := k); [ lia | exact Hraw | lia ]. }
  split; [ exact Hrec | split; [ | apply B; exact Hc ] ].
  unfold lastn. rewrite Hrec. symmetry. apply firstn_skipn.
Qed.

End UniformFrames.

(* ================================================================= *)
(** ** Starting a recording *)

Section StartRecording.
Context {L : SciPy}.
Variable N : nat.
Variable rate : float.

Lemma start_streaming_cases (net : Network) (h : DelsysDataHandler) :
  (exists h', start_streaming net h = (Ok true, h') /\ streaming h' = true)
  \/ (exists h', start_streaming net h = (Ok false, h')).
Proof.
  unfold start_streaming, setup_connections, send_command, bind.
  destruct (connect_ok net); cbn [negb]; [ | right; eexists; reflexivity ].
  destruct (configure_system_frame h (command_socket net)) as (b & h' & E & _).
  rewrite E. destruct b; cbn [negb]; [ | right; eexists; reflexivity ].
  destruct (send_ok (command_socket net) START); cbn [negb];
    [ left | right ]; eexists; unfold modify, ret; repeat split.
Qed.

Lemma start_effect (env : Session.StartEnv) (g : Session.Globals) :
  App.is_recording (Session.core g) = false ->
  exists ok msg hopt,
    Session.start_delsys_recording N rate env g
    = (Ok (ok, msg),
       Session.MkGlobals
         (App.MkState hopt
            (map (fun _ => []) (App.recording_data_buffer (Session.core g)))
            ok None (Some (started_session env (Session.core g)))
            (started_counter (Session.core g))
            (App.files (Session.core g)))
         (map (fun buffer => deque_clear buffer) (Session.live_data_buffers g)))
    /\ (ok = true ->
        msg = Session.Recording_started
        /\ exists h0 h, __init__ N rate false = Ok h0
                        /\ start_streaming (Session.network env) h0 = (Ok true, h)
                        /\ hopt = Some h /\ streaming h = true)
    /\ (ok = false ->
        hopt = None
        /\ ((msg = Session.Error_starting_recording
             /\ exists e, __init__ N rate false = Raise e)
            \/ (msg = Session.Failed_to_start_Delsys_streaming
                /\ exists h0, __init__ N rate false = Ok h0
                              /\ fst (start_streaming (Session.network env) h0)
                                 = Ok false))).
Proof.
  intros Hidle. destruct g as [[hd bufs rec st sess tc fl] live].
  cbn [Session.core App.is_recording] in Hidle. subst rec.
  unfold Session.start_delsys_recording, try_except, bind, get, modify, lift,
    started_session, started_counter.
  cbn [Session.core Session.set_core Session.set_live_data_buffers
       Session.live_data_buffers App.recording_session_start_time
       App.set_handler App.set_start_time App.set_recording_data_buffer
       App.recording_data_buffer App.is_recording App.start_time
       App.trial_counter App.files].
  destruct (__init__ N rate false) as [h0 | e] eqn:Einit.
  - destruct (start_streaming_cases (Session.network env) h0)
      as [(h & E & Hs) | (h & E)]; rewrite E.
    + exists true, Session.Recording_started, (Some h).
      destruct sess;
        unfold ret;
        (split; [ reflexivity | ]);
        (split; [ intros _; split; [ reflexivity | ];
                  exists h0, h; repeat split; assumption
                | discriminate ]).
    + exists false, Session.Failed_to_start_Delsys_streaming, None.
      destruct sess;
        unfold ret;
        (split; [ reflexivity | ]);
        (split; [ discriminate | ]);
        intros _; (split; [ reflexivity | ]); right;
        (split; [ reflexivity | ]); exists h0; split; try reflexivity;
        rewrite E; reflexivity.
  - exists false, Session.Error_starting_recording, None.
    destruct sess;
      unfold ret, raise;
      (split; [ reflexivity | ]);
      (split; [ discriminate | ]);
      intros _; (split; [ reflexivity | ]); left;
      (split; [ reflexivity | ]); exists e; reflexivity.
Qed.

End StartRecording.

(* ================================================================= *)
(** ** Stopping a recording: every outcome *)

Section StopOutcomes.
Variable N : nat.
Variable rate : float.

(** Some channel is empty and some is not. *)
Lemma stop_trimmed env s :
  active N s ->
  (exists i, i < N /\ channel_buffer s i = []) ->
  (exists j, j < N /\ channel_buffer s j <> []) ->
  App.stop_delsys_recording N rate env s
  = (Ok (false, App.No_data_was_captured_after_trimming), finalized N s).
Proof.
  intros [Hrec Hlen] (i & Hi & Hempty) (j & Hj & Hne).
  unfold App.stop_delsys_recording, try_except, bind, get, modify.
  rewrite Hrec. cbn [negb].
  rewrite lengths_of_ok.
  2:{ intros k Hk. apply in_seq in Hk. cbn. lia. }
  cbn [App.recording_data_buffer App.set_handler App.set_is_recording].
  fold (sample_counts N s).
  assert (Hin0 : In 0 (sample_counts N s)).
  { unfold sample_counts. apply in_map_iff. exists (S i).
    split; [ | apply in_seq; lia ].
    unfold channel_buffer in Hempty. rewrite Hempty. reflexivity. }
  assert (Hnz : forallb (fun count => count =? 0) (sample_counts N s) = false).
  { apply not_true_is_false. intros Hall.
    rewrite forallb_forall in Hall. apply Hne.
    specialize (Hall (length (channel_buffer s j))).
    assert (Hinj : In (length (channel_buffer s j)) (sample_counts N s)).
    { unfold sample_counts. apply in_map_iff. exists (S j).
      split; [ reflexivity | apply in_seq; lia ]. }
    apply Hall in Hinj. apply Nat.eqb_eq in Hinj.
    destruct (channel_buffer s j); [ reflexivity | discriminate ]. }
  rewrite Hnz.
  assert (Hmin : App.list_min (sample_counts N s) = 0).
  { pose proof (list_min_le _ _ Hin0). lia. }
  rewrite Hmin.
  destruct (sample_counts N s) as [| c0 cs]; [ destruct Hin0 | ].
  cbn [orb Nat.eqb].
  unfold App.reset_buffers, bind, modify, ret, finalized.
  destruct s. reflexivity.
Qed.

(** The three ways a stop of an active session ends. *)
Lemma stop_outcomes env s :
  active N s ->
  (exists msg,
     App.stop_delsys_recording N rate env s = (Ok (false, msg), finalized N s)
     /\ (msg = App.No_data_was_captured
         \/ msg = App.No_data_was_captured_after_trimming))
  \/ (App.tofile_ok env = false
      /\ App.stop_delsys_recording N rate env s
         = (Ok (false, App.Error_saving_binary_file),
            App.MkState None (App.empty_buffers N) false None
              (Some (session_of env s)) (App.trial_counter s) (App.files s)))
  \/ (App.tofile_ok env = true
      /\ App.stop_delsys_recording N rate env s
         = (Ok (true, App.Recording_saved_successfully (min_samples N s)),
            App.MkState None (App.empty_buffers N) false None
              (Some (session_of env s)) (App.trial_counter s + 1)
              (App.files s ++ written N rate env s))).
Proof.
  intros Hact.
  assert (Hdec : forall P : nat -> Prop, (forall i, {P i} + {~ P i}) ->
            forall n, (forall i, i < n -> P i) \/ (exists i, i < n /\ ~ P i)).
  { intros P Pdec. induction n as [| n [IH | (i & Hi & Hn)]].
    - left. intros i Hi. lia.
    - destruct (Pdec n) as [Hp | Hp].
      + left. intros i Hi. destruct (Nat.eq_dec i n) as [-> | ?];
          [ exact Hp | apply IH; lia ].
      + right. exists n. split; [ lia | exact Hp ].
    - right. exists i. split; [ lia | exact Hn ]. }
  assert (Hnil : forall l : list float, {l = []} + {l <> []})
    by (intros [| x l]; [ left; reflexivity | right; discriminate ]).
  destruct (Hdec (fun i => channel_buffer s i = []) (fun i => Hnil _) N)
    as [Hall | (j & Hj & Hne)].
  - left. exists App.No_data_was_captured.
    split; [ apply stop_no_data; assumption | left; reflexivity ].
  - destruct (Hdec (fun i => channel_buffer s i <> [])
                (fun i => match Hnil (channel_buffer s i) with
                          | left e => right (fun H => H e)
                          | right n => left n
                          end) N) as [Hfull | (i & Hi & He)].
    + right. pose proof (@stop_saves N rate env s Hact ltac:(lia) Hfull) as E.
      destruct (App.tofile_ok env); [ right | left ];
        (split; [ reflexivity | exact E ]).
    + left. exists App.No_data_was_captured_after_trimming.
      split; [ | right; reflexivity ].
      apply stop_trimmed; [ exact Hact | | exists j; split; assumption ].
      exists i. split; [ exact Hi | ].
      destruct (Hnil (channel_buffer s i)); [ assumption | contradiction ].
Qed.

Lemma stop_idle env s :
  App.is_recording s = false ->
  App.stop_delsys_recording N rate env s
  = (Ok (false, App.No_recording_in_progress), s).
Proof.
  intros Hidle. unfold App.stop_delsys_recording, try_except, bind, get.
  rewrite Hidle. reflexivity.
Qed.

End StopOutcomes.

(* ================================================================= *)
(** ** What the requests and the worker keep *)

Lemma deque_append_bounded {A} (d : deque A) (x : A) :
  length (items d) <= maxlen d ->
  length (items (deque_append d x)) <= maxlen (deque_append d x).
Proof.
  intros H. rewrite deque_append_maxlen, deque_append_items by exact H.
  rewrite lastn_length. lia.
Qed.

Section Reachable.
Context {L : SciPy}.
Variable N : nat.
Variable rate : float.

Lemma consistent_initial hopt sess : consistent N (Session.initial N hopt sess).
Proof.
  split; cbn [Session.initial Session.core Session.live_data_buffers
              App.recording_data_buffer App.is_recording App.trial_counter
              App.files App.handler App.recording_session_start_time].
  - unfold App.empty_buffers. rewrite length_map, length_seq. reflexivity.
  - unfold Session.new_live_buffers. rewrite length_map, length_seq. reflexivity.
  - unfold Session.new_live_buffers. apply Forall_map, Forall_forall.
    intros i _. cbn. unfold Session.LIVE_BUFFER_CHUNKS. lia.
  - discriminate.
  - lia.
  - reflexivity.
  - intros f [].
  - constructor.
Qed.

(** A change that leaves the files, the trial counter and the session
    time alone. *)
Lemma consistent_frame (g g' : Session.Globals) :
  consistent N g ->
  length (App.recording_data_buffer (Session.core g')) = N + 1 ->
  length (Session.live_data_buffers g') = N ->
  Forall (fun d => maxlen d = Session.LIVE_BUFFER_CHUNKS
                   /\ length (items d) <= Session.LIVE_BUFFER_CHUNKS)
    (Session.live_data_buffers g') ->
  (App.is_recording (Session.core g') = true ->
   exists h, App.handler (Session.core g') = Some h /\ streaming h = true) ->
  App.trial_counter (Session.core g') = App.trial_counter (Session.core g) ->
  App.recording_session_start_time (Session.core g')
  = App.recording_session_start_time (Session.core g) ->
  App.files (Session.core g') = App.files (Session.core g) ->
  consistent N g'.
Proof.
  intros [C1 C2 C3 C4 C5 C6 C7 C8] H1 H2 H3 H4 Htc Hs Hf.
  split; try assumption; unfold binaries; rewrite ?Htc, ?Hs, ?Hf; assumption.
Qed.

Lemma consistent_start env g :
  consistent N g ->
  consistent N (snd (Session.start_delsys_recording N rate env g)).
Proof.
  intros C. destruct (App.is_recording (Session.core g)) eqn:Hrec.
  - unfold Session.start_delsys_recording, try_except, bind, get.
    rewrite Hrec. exact C.
  - destruct (@start_effect L N rate env g Hrec) as (ok & msg & hopt & E & Hok & Hko).
    rewrite E. cbn [snd]. destruct C as [C1 C2 C3 C4 C5 C6 C7 C8].
    assert (Hnone : App.recording_session_start_time (Session.core g) = None ->
                    App.files (Session.core g) = []).
    { intros Hs. destruct (App.files (Session.core g)) as [| f fs] eqn:Ef;
        [ reflexivity | ].
      destruct (C7 f (or_introl eq_refl)) as [Hsome _]. congruence. }
    split; cbn [Session.core Session.live_data_buffers
                App.recording_data_buffer App.is_recording App.trial_counter
                App.files App.handler App.recording_session_start_time].
    + rewrite length_map. exact C1.
    + rewrite length_map. exact C2.
    + apply Forall_map. eapply Forall_impl; [ | exact C3 ].
      intros d [Hm _]. cbn. split; [ exact Hm | lia ].
    + intros ->. destruct (Hok eq_refl) as (_ & h0 & h & _ & _ & -> & Hs).
      exists h. split; [ reflexivity | exact Hs ].
    + unfold started_counter.
      destruct (App.recording_session_start_time (Session.core g)); lia.
    + unfold binaries, started_counter. cbn [App.files].
      destruct (App.recording_session_start_time (Session.core g)) eqn:Es;
        [ exact C6 | ].
      rewrite (Hnone eq_refl). reflexivity.
    + unfold started_session, started_counter. intros f Hf.
      destruct (App.recording_session_start_time (Session.core g)) eqn:Es.
      * destruct (C7 f Hf) as [Hsome Hlt]. split; assumption.
      * rewrite (Hnone eq_refl) in Hf. destruct Hf.
    + exact C8.
Qed.

Lemma written_names env s :
  map file_name (written N rate env s)
  = (true, session_of env s, App.trial_counter s)
    :: (if App.savemat_ok env
        then [(false, session_of env s, App.trial_counter s)] else [])
  /\ filter is_bin (written N rate env s)
     = [App.bin_file (session_of env s) (App.trial_counter s) (saved_matrix N rate s)].
Proof. unfold written. destruct (App.savemat_ok env); split; reflexivity. Qed.

Lemma consistent_stop env g :
  consistent N g ->
  consistent N
    (snd (Session.on_core (App.stop_delsys_recording N rate env) g)).
Proof.
  intros C. unfold Session.on_core.
  destruct (App.is_recording (Session.core g)) eqn:Hrec.
  2:{ rewrite stop_idle by exact Hrec. cbn [snd].
      destruct g as [s live]. exact C. }
  pose proof C as [C1 C2 C3 C4 C5 C6 C7 C8].
  assert (Hrows : length (App.empty_buffers N) = N + 1)
    by (unfold App.empty_buffers; rewrite length_map, length_seq; reflexivity).
  assert (Hsess : forall f, In f (App.files (Session.core g)) ->
                    session_of env (Session.core g) = file_session f).
  { intros f Hf. destruct (C7 f Hf) as [Hs _]. unfold session_of.
    rewrite Hs. reflexivity. }
  destruct (@stop_outcomes N rate env (Session.core g) (conj Hrec C1))
    as [(msg & E & _) | [(_ & E) | (_ & E)]]; rewrite E; cbn [snd].
  - apply consistent_frame with (g := g); try assumption; try reflexivity.
    discriminate.
  - split; cbn [Session.core Session.set_core Session.live_data_buffers
                App.recording_data_buffer App.is_recording App.trial_counter
                App.files App.handler App.recording_session_start_time];
      try assumption; [ discriminate | ].
    intros f Hf. destruct (C7 f Hf) as [_ Hlt].
    rewrite (Hsess f Hf). split; [ reflexivity | exact Hlt ].
  - destruct (written_names env (Session.core g)) as [Hnames Hbin].
    split; cbn [Session.core Session.set_core Session.live_data_buffers
                App.recording_data_buffer App.is_recording App.trial_counter
                App.files App.handler App.recording_session_start_time];
      try assumption; [ discriminate | lia | | | ].
    + unfold binaries in *. cbn [App.files]. rewrite filter_app, map_app, Hbin, C6.
      cbn [map file_trial].
      replace (App.trial_counter (Session.core g) + 1 - 1)
        with (S (App.trial_counter (Session.core g) - 1)) by lia.
      rewrite seq_S. do 2 f_equal. lia.
    + intros f Hf. apply in_app_or in Hf as [Hf | Hf].
      * destruct (C7 f Hf) as [_ Hlt]. rewrite (Hsess f Hf).
        split; [ reflexivity | lia ].
      * apply (in_map file_name) in Hf. rewrite Hnames in Hf.
        assert (Hn : file_session f = session_of env (Session.core g)
                     /\ file_trial f = App.trial_counter (Session.core g)).
        { unfold file_name in Hf.
          destruct Hf as [Hf | Hf];
            [ | destruct (App.savemat_ok env); [ destruct Hf as [Hf | []] | destruct Hf ] ];
            injection Hf as _ <- <-; split; reflexivity. }
        destruct Hn as [-> ->]. split; [ reflexivity | lia ].
    + rewrite map_app. apply NoDup_app; [ exact C8 | | ].
      * rewrite Hnames. destruct (App.savemat_ok env).
        -- constructor; [ intros [Hc | []]; discriminate | ].
           constructor; [ intros [] | constructor ].
        -- constructor; [ intros [] | constructor ].
      * intros a Ha Hnew. apply in_map_iff in Ha as (f & <- & Hf).
        destruct (C7 f Hf) as [_ Hlt]. rewrite Hnames in Hnew.
        assert (Ht : file_trial f = App.trial_counter (Session.core g)).
        { unfold file_name in Hnew.
          destruct Hnew as [Hn | Hn];
            [ | destruct (App.savemat_ok env); [ destruct Hn as [Hn | []] | destruct Hn ] ];
            injection Hn as _ _ Ht; symmetry; exact Ht. }
        lia.
Qed.

End Reachable.

Section ReachableWorker.
Context {L : SciPy}.
Variable N : nat.
Variable rate : float.


Lemma record_effect now x count s :
  exists bufs st,
    snd (App.recording_worker_record now x count s)
    = App.set_start_time st (App.set_recording_data_buffer bufs s)
    /\ length bufs = length (App.recording_data_buffer s).
Proof.
  destruct s as [hd bufs rec st sess tc fl].
  unfold App.recording_worker_record, bind, get, lift, modify, index, ret.
  cbn [App.is_recording App.recording_data_buffer App.start_time].
  destruct rec; [ | exists bufs, st; split; reflexivity ].
  destruct (nth_error bufs (channel x + 1));
    [ | exists bufs, st; split; reflexivity ].
  destruct st as [t0 |]; [ | destruct (_ =? _) ]; cbn [snd];
    match goal with
    | |- context [ list_set ?a ?b ?c ] => exists (list_set a b c)
    end;
    [ exists (Some t0) | exists (Some now) | exists None ];
    (split; [ reflexivity | apply list_set_length ]).
Qed.

(** What a turn of the worker may change: the recording buffers (not their
    number), the start time and the live buffers. *)
Lemma worker_put_effect now x count g :
  exists bufs st live,
    snd (Session.recording_worker_put now x count g)
    = Session.MkGlobals
        (App.set_start_time st
           (App.set_recording_data_buffer bufs (Session.core g))) live
    /\ length bufs = length (App.recording_data_buffer (Session.core g))
    /\ length live = length (Session.live_data_buffers g)
    /\ (Forall chunk_bound (Session.live_data_buffers g) ->
        Forall chunk_bound live).
Proof.
  unfold Session.recording_worker_put, Session.on_core. unfold bind at 1.
  destruct (record_effect now x count (Session.core g)) as (bufs & st & E & Hl).
  destruct (App.recording_worker_record now x count (Session.core g))
    as [[n | e] s1]; cbn [snd] in E; subst s1.
  2:{ exists bufs, st, (Session.live_data_buffers g).
      cbn [snd]. repeat split; auto. }
  unfold bind, get, lift, modify, index, ret.
  cbn [Session.core Session.set_core Session.live_data_buffers].
  destruct (App.is_recording _);
    [ | exists bufs, st, (Session.live_data_buffers g);
        cbn [snd]; repeat split; auto ].
  destruct (nth_error (Session.live_data_buffers g) (channel x)) as [b |] eqn:Eb;
    [ | exists bufs, st, (Session.live_data_buffers g);
        cbn [snd]; repeat split; auto ].
  cbn [snd Session.set_live_data_buffers Session.core].
  eexists bufs, st, _. split; [ reflexivity | ]. split; [ exact Hl | ].
  split; [ apply list_set_length | ].
  intros Hall. apply Forall_list_set_any; [ exact Hall | ].
  rewrite Forall_forall in Hall.
  destruct (Hall b (nth_error_In _ _ Eb)) as [Hm Hle].
  split; [ rewrite deque_append_maxlen; exact Hm | ].
  rewrite <- Hm, <- (deque_append_maxlen b) at 1.
  apply deque_append_bounded. lia.
Qed.

Lemma consistent_worker now count g :
  consistent N g ->
  consistent N (snd (Session.recording_worker_turn now count g)).
Proof.
  intros C. unfold Session.recording_worker_turn. unfold bind at 1, get at 1.
  destruct (App.handler (Session.core g)) as [h |] eqn:Eh; [ | exact C ].
  destruct (App.is_recording (Session.core g) && streaming h) eqn:Ec;
    cbn [negb]; [ | exact C ].
  apply andb_prop in Ec as [Hrec Hstr].
  destruct (get_nowait (output_queue h)) as [[x q] | e]; [ | exact C ].
  unfold bind at 1, modify at 1.
  set (g1 := Session.set_core
               (App.set_handler (Some (set_output_queue q h)) (Session.core g)) g).
  destruct (worker_put_effect now x count g1) as (bufs & st & live & E & Hb & Hl & Hf).
  assert (Hsnd : snd (try_except
                        (n <- Session.recording_worker_put now x count ;;
                         ret (Some n))
                        (fun _ => ret None) g1)
                 = snd (Session.recording_worker_put now x count g1)).
  { unfold try_except, bind, ret.
    destruct (Session.recording_worker_put now x count g1) as [[n | e] g2];
      reflexivity. }
  rewrite Hsnd, E. destruct C as [C1 C2 C3 C4 C5 C6 C7 C8].
  apply consistent_frame with (g := g);
    [ split; assumption | .. ];
    cbn [Session.core Session.live_data_buffers App.recording_data_buffer
         App.set_start_time App.set_recording_data_buffer g1 Session.set_core
         App.set_handler App.is_recording App.handler App.trial_counter
         App.recording_session_start_time App.files] in *;
    try reflexivity.
  - rewrite Hb. exact C1.
  - rewrite Hl. exact C2.
  - apply Hf. exact C3.
  - intros _. exists (set_output_queue q h). split; [ reflexivity | exact Hstr ].
Qed.

Lemma collect_live_state : forall channels g,
  snd (Session.collect_live channels g) = g.
Proof.
  induction channels as [| i rest IH]; intros g; cbn [Session.collect_live].
  - reflexivity.
  - unfold bind, get, lift, index, ret.
    destruct (nth_error (Session.live_data_buffers g) i); [ | reflexivity ].
    specialize (IH g). destruct (Session.collect_live rest g) as [[r | e] g'];
      cbn [snd] in *; exact IH.
Qed.

Lemma live_data_state g : snd (Session.live_data N g) = g.
Proof.
  unfold Session.live_data, try_except, bind, get, ret.
  destruct (App.is_recording (Session.core g)); cbn [negb]; [ | reflexivity ].
  pose proof (collect_live_state (seq 0 N) g) as E.
  destruct (Session.collect_live (seq 0 N) g) as [[r | e] g'];
    cbn [snd] in *; exact E.
Qed.

End ReachableWorker.

(* ================================================================= *)
(** ** A stop request, part after part *)

Section StopParts.
Variable N : nat.
Variable rate : float.

Lemma stop_in_parts_eq env s :
  App.stop_in_parts N rate env s = App.stop_delsys_recording N rate env s.
Proof.
  unfold App.stop_in_parts, App.stop_delsys_recording, App.stop_flag,
    App.stop_release, App.stop_collect, App.stop_name, App.stop_write,
    App.stop_failed, App.generate_timestamps, App.reset_buffers,
    try_except, bind, get, modify, ret, lift, raise.
  destruct (App.is_recording s) eqn:Hrec; cbv beta iota zeta delta [negb fst snd];
    [ | reflexivity ].
  destruct (App.lengths_of (seq 1 N) _) as [[counts | e] s2];
    [ | reflexivity ].
  destruct (_ || _); [ reflexivity | ].
  destruct (_ =? 0)%nat; [ reflexivity | ].
  destruct (App.start_time s2); cbv beta iota zeta;
    (destruct (App.recording_data_buffer s2); [ reflexivity | ]);
    (destruct (App.align_all _ _ _) as [[x1 | e] s3]; [ | reflexivity ]);
    (destruct (App.vstack x1) as [m | e]; [ | reflexivity ]);
    destruct s3 as [hd bufs rec st sess tc fl];
    destruct sess as [d |];
    cbn [App.recording_session_start_time App.set_start_time
         App.set_recording_data_buffer App.set_recording_session_start_time
         App.write_file App.trial_counter App.handler App.files];
    destruct (App.tofile_ok env); cbn [negb]; try reflexivity;
    destruct (App.savemat_ok env); reflexivity.
Qed.
End StopParts.

Section StopSteps.
Context {L : SciPy}.
Variable N : nat.
Variable rate : float.

(** A stop request with a recording in progress, step by step. *)
Lemma stop_request_steps env asleep unlocked collected named g :
  App.is_recording (Session.core g) = true ->
  Session.stop_request N rate env asleep unlocked collected named g
  = let g1 := asleep (Session.set_core
                        (App.set_is_recording false (Session.core g)) g) in
    let g2 := unlocked (Session.set_core
                          (App.set_handler None (Session.core g1)) g1) in
    match App.stop_collect N rate (Session.core g2) with
    | (Ok (inl msg), s3) => (Ok (false, msg), Session.set_core s3 g2)
    | (Ok (inr (min_samples, final_data_arrays)), s3) =>
        let g3 := collected (Session.set_core s3 g2) in
        match App.stop_name env final_data_arrays (Session.core g3) with
        | (Ok names, s4) =>
            let g4 := named (Session.set_core s4 g3) in
            match App.stop_write N rate env min_samples names
                    (Session.core g4) with
            | (Ok r, s5) => (Ok r, Session.set_core s5 g4)
            | (Raise _, s5) =>
                Session.on_core (App.stop_failed N) (Session.set_core s5 g4)
            end
        | (Raise _, s4) =>
            Session.on_core (App.stop_failed N) (Session.set_core s4 g3)
        end
    | (Raise _, s3) =>
        Session.on_core (App.stop_failed N) (Session.set_core s3 g2)
    end.
Proof.
  intros Hrec. cbv zeta.
  unfold Session.stop_request, try_except, App.stop_flag, App.stop_release.
  unfold bind, get, modify, ret. unfold Session.on_core at 1.
  rewrite Hrec. cbv beta iota zeta delta [negb].
  unfold Session.on_core at 1. cbv beta iota zeta.
  unfold Session.on_core at 1.
  destruct (App.stop_collect N rate _) as [[[msg | [m arrays]] | e] s3];
    try reflexivity.
  unfold Session.on_core at 1.
  destruct (App.stop_name env arrays _) as [[names | e] s4];
    try reflexivity.
  unfold Session.on_core at 1.
  destruct (App.stop_write N rate env m names _) as [[r | e] s5];
    reflexivity.
Qed.

End StopSteps.

(* ================================================================= *)
(** ** The background threads during a stop request *)

Section Background.
Context {L : SciPy}.
Variable N : nat.
Variable rate : float.

(** While nothing is being recorded the background threads change at most
    the handler, and nothing when there is none. *)
Lemma in_background_idle b g :
  App.is_recording (Session.core g) = false ->
  exists hopt,
    Session.in_background b g
    = Session.set_core (App.set_handler hopt (Session.core g)) g
    /\ (App.handler (Session.core g) = None -> hopt = None).
Proof.
  intros Hidle. destruct g as [[hd bufs rec st sess tc fl] live].
  cbn [Session.core App.is_recording App.handler] in *. subst rec.
  destruct b as [| now x count | x | now count | raw c | reads];
    cbn [Session.in_background].
  - unfold Session.on_handler, bind, get, modify, ret.
    cbn [Session.core App.handler]. destruct hd as [h |]; cbn [snd].
    + eexists. split; [ reflexivity | discriminate ].
    + exists None. split; reflexivity.
  - exists hd. split; [ reflexivity | auto ].
  - exists hd. split; [ reflexivity | auto ].
  - exists hd. split; [ | auto ].
    unfold Session.recording_worker_turn, bind, get, ret.
    cbn [Session.core App.handler App.is_recording].
    destruct hd as [h |]; reflexivity.
  - unfold Session.on_handler, bind, get, modify, ret.
    cbn [Session.core App.handler]. destruct hd as [h |]; cbn [snd].
    + eexists. split; [ reflexivity | discriminate ].
    + exists None. split; reflexivity.
  - unfold Session.on_handler, bind, get, modify, ret.
    cbn [Session.core App.handler]. destruct hd as [h |]; cbn [snd].
    + eexists. split; [ reflexivity | discriminate ].
    + exists None. split; reflexivity.
Qed.

(** A change of the globals that, while nothing is being recorded, is at
    most a change of the handler, and none when there is no handler. *)
Definition unseen (f : Session.Globals -> Session.Globals) : Prop :=
  forall g, App.is_recording (Session.core g) = false ->
    exists hopt,
      f g = Session.set_core (App.set_handler hopt (Session.core g)) g
      /\ (App.handler (Session.core g) = None -> hopt = None).

Lemma during_unseen (steps : list Session.event) :
  forallb Session.in_the_background steps = true ->
  unseen (fold_left (fun g e => snd (Session.happen N rate e g)) steps).
Proof.
  induction steps as [| e steps IH]; intros Hb g Hidle; cbn [fold_left].
  - exists (App.handler (Session.core g)).
    split; [ destruct g as [[] ?]; reflexivity | auto ].
  - cbn [forallb] in Hb. apply andb_prop in Hb as [He Hb].
    destruct e as [| | | b]; try discriminate He.
    cbn [Session.happen]. unfold modify. cbn [snd].
    destruct (in_background_idle b g Hidle) as (h1 & E1 & N1).
    rewrite E1.
    destruct (IH Hb (Session.set_core (App.set_handler h1 (Session.core g)) g))
      as (h2 & E2 & N2); [ exact Hidle | ].
    exists h2. split.
    + rewrite E2. destruct g as [[] ?]. reflexivity.
    + intros Hn. apply N2. cbn. apply N1. exact Hn.
Qed.

(** The parts of a stop change what their names say. *)
Lemma stop_collect_state s :
  exists bufs st,
    snd (App.stop_collect N rate s)
    = App.set_start_time st (App.set_recording_data_buffer bufs s).
Proof.
  unfold App.stop_collect, App.generate_timestamps, App.reset_buffers.
  unfold bind at 1.
  pose proof (lengths_of_state (seq 1 N) s) as E.
  destruct (App.lengths_of (seq 1 N) s) as [[counts | e] s1]; cbn [snd] in E;
    subst s1.
  2:{ exists (App.recording_data_buffer s), (App.start_time s).
      destruct s; reflexivity. }
  destruct (_ || _).
  { eexists _, _. reflexivity. }
  destruct (_ =? 0)%nat.
  { eexists _, _. reflexivity. }
  unfold bind, get, modify, ret, raise.
  destruct (App.start_time s) eqn:Est; cbv beta iota;
    (destruct (App.recording_data_buffer s) eqn:Eb;
     [ exists (App.recording_data_buffer s), (App.start_time s);
       destruct s; reflexivity | ]);
    match goal with
    | |- context [ App.align_all ?m ?i ?s1 ] =>
        destruct (align_all_state m i s1) as [b Hb];
        destruct (App.align_all m i s1) as [[x1 | e] s2];
        cbn [snd] in *; subst s2
    end;
    try (eexists _, _; reflexivity);
    exists b, (App.start_time s); destruct s; reflexivity.
Qed.

Lemma stop_name_state env arrays s :
  exists sess,
    snd (App.stop_name env arrays s)
    = App.set_recording_session_start_time sess s.
Proof.
  unfold App.stop_name, bind, get, modify, ret, lift.
  destruct (App.vstack arrays);
    [ | exists (App.recording_session_start_time s); destruct s; reflexivity ].
  destruct (App.recording_session_start_time s) eqn:Es; cbn [snd].
  - exists (App.recording_session_start_time s). destruct s. reflexivity.
  - eexists. reflexivity.
Qed.

Ltac tidy_state :=
  unfold Session.set_core, App.set_handler, App.set_is_recording,
    App.set_start_time, App.set_recording_data_buffer,
    App.set_recording_session_start_time;
  cbn [Session.core Session.live_data_buffers
       App.handler App.is_recording App.recording_data_buffer
       App.start_time App.recording_session_start_time App.trial_counter
       App.files].

Ltac pass_gap f Hf :=
  match goal with
  | |- context [ f ?X ] =>
      let h := fresh "h" in
      let E := fresh "E" in
      let Hn := fresh "Hn" in
      destruct (Hf X eq_refl) as (h & E & Hn);
      rewrite E; try rewrite (Hn eq_refl); clear E Hn; tidy_state
  end.

(** A stop request during which only such changes happen: they show
    neither in its response nor in the globals it leaves. *)
Lemma stop_request_eq env asleep unlocked collected named g :
  unseen asleep -> unseen unlocked -> unseen collected -> unseen named ->
  Session.stop_request N rate env asleep unlocked collected named g
  = Session.on_core (App.stop_delsys_recording N rate env) g.
Proof.
  intros Ha Hu Hc Hn.
  unfold Session.on_core at 1. rewrite <- stop_in_parts_eq.
  destruct g as [[hd bufs rec st sess tc fl] live].
  unfold Session.stop_request, App.stop_in_parts, try_except, App.stop_flag,
    App.stop_release, Session.on_core, bind, get, modify, ret.
  cbn [Session.core Session.set_core Session.live_data_buffers
       App.is_recording].
  destruct rec; cbv beta iota zeta delta [negb]; [ | reflexivity ].
  tidy_state. pass_gap asleep Ha. pass_gap unlocked Hu.
  match goal with
  | |- context [ App.stop_collect N rate ?X ] =>
      destruct (stop_collect_state X) as (bufs' & st' & Ec);
      destruct (App.stop_collect N rate X) as [[[msg | [m arrays]] | e] s3];
      cbn [snd] in Ec; subst s3; tidy_state; try reflexivity
  end.
  pass_gap collected Hc.
  match goal with
  | |- context [ App.stop_name env arrays ?X ] =>
      destruct (stop_name_state env arrays X) as (sess' & En);
      destruct (App.stop_name env arrays X) as [[names | e] s4];
      cbn [snd] in En; subst s4; tidy_state; try reflexivity
  end.
  pass_gap named Hn.
  match goal with
  | |- context [ App.stop_write N rate env m names ?X ] =>
      destruct (App.stop_write N rate env m names X) as [[r | e] s5]
  end; [ reflexivity | ].
  cbn [Session.core Session.live_data_buffers].
  destruct (App.stop_failed N s5) as [r0 s6]. reflexivity.
Qed.

(** A stop request of a serial history. *)
Lemma serial_stop_request_eq env asleep unlocked collected named g :
  forallb Session.in_the_background asleep
  && forallb Session.in_the_background unlocked
  && forallb Session.in_the_background collected
  && forallb Session.in_the_background named = true ->
  Session.stop_request N rate env
    (Session.run N rate asleep) (Session.run N rate unlocked)
    (Session.run N rate collected) (Session.run N rate named) g
  = Session.on_core (App.stop_delsys_recording N rate env) g.
Proof.
  intros H. apply andb_prop in H as [H Hn]. apply andb_prop in H as [H Hc].
  apply andb_prop in H as [Ha Hu].
  apply stop_request_eq; apply during_unseen; assumption.
Qed.

Lemma serial_stop_eq env asleep unlocked collected named g :
  forallb Session.in_the_background asleep
  && forallb Session.in_the_background unlocked
  && forallb Session.in_the_background collected
  && forallb Session.in_the_background named = true ->
  Session.happen N rate
    (Session.stop_recording env asleep unlocked collected named) g
  = (Session.on_core (App.stop_delsys_recording N rate env) ;;; ret tt) g.
Proof.
  intros H. cbn [Session.happen]. unfold bind at 1 2.
  rewrite <- (serial_stop_request_eq env _ _ _ _ g H).
  reflexivity.
Qed.

End Background.

(* ================================================================= *)
(** ** The globals along a serial history *)

Section ReachableSerial.
Context {L : SciPy}.
Variable N : nat.
Variable rate : float.

(** A step of a background thread on the handler keeps the flag
    [streaming]. *)
Lemma consistent_on_handler (f : DelsysDataHandler -> DelsysDataHandler) g :
  (forall h, streaming (f h) = streaming h) ->
  consistent N g -> consistent N (snd (Session.on_handler f g)).
Proof.
  intros Hf C. unfold Session.on_handler, bind, get, modify, ret.
  destruct (App.handler (Session.core g)) as [h |] eqn:Eh; [ | exact C ].
  cbn [snd]. destruct C as [C1 C2 C3 C4 C5 C6 C7 C8].
  apply consistent_frame with (g := g);
    [ split; assumption | .. ];
    cbn [Session.core Session.live_data_buffers App.recording_data_buffer
         Session.set_core App.set_handler App.is_recording App.handler
         App.trial_counter App.recording_session_start_time App.files];
    try assumption; try reflexivity.
  intros Hrec. destruct (C4 Hrec) as (h' & Eh' & Hs).
  rewrite Eh in Eh'. injection Eh' as <-.
  eexists. split; [ reflexivity | ]. rewrite Hf. exact Hs.
Qed.

Lemma consistent_worker_record now x count g :
  consistent N g ->
  consistent N
    (snd (Session.on_core (App.recording_worker_record now x count) g)).
Proof.
  intros C. unfold Session.on_core.
  destruct (record_effect now x count (Session.core g)) as (bufs & st & E & Hl).
  destruct (App.recording_worker_record now x count (Session.core g))
    as [r s1]; cbn [snd] in *; subst s1.
  destruct C as [C1 C2 C3 C4 C5 C6 C7 C8].
  apply consistent_frame with (g := g);
    [ split; assumption | .. ];
    cbn [Session.core Session.live_data_buffers App.recording_data_buffer
         Session.set_core App.set_start_time App.set_recording_data_buffer
         App.is_recording App.handler App.trial_counter
         App.recording_session_start_time App.files];
    try assumption; try reflexivity.
  rewrite Hl. exact C1.
Qed.

Lemma consistent_worker_live x g :
  consistent N g -> consistent N (snd (Session.recording_worker_live x g)).
Proof.
  intros C. unfold Session.recording_worker_live, bind, get, lift, modify,
    index, ret.
  destruct (App.is_recording (Session.core g)); [ | exact C ].
  destruct (nth_error (Session.live_data_buffers g) (channel x)) as [b |] eqn:Eb;
    [ | exact C ].
  cbn [snd]. destruct C as [C1 C2 C3 C4 C5 C6 C7 C8].
  apply consistent_frame with (g := g);
    [ split; assumption | .. ];
    cbn [Session.core Session.live_data_buffers Session.set_live_data_buffers];
    try assumption; try reflexivity.
  - rewrite list_set_length. exact C2.
  - apply Forall_list_set_any; [ exact C3 | ].
    rewrite Forall_forall in C3.
    destruct (C3 b (nth_error_In _ _ Eb)) as [Hm Hle].
    split; [ rewrite deque_append_maxlen; exact Hm | ].
    rewrite <- Hm, <- (deque_append_maxlen b) at 1.
    apply deque_append_bounded. lia.
Qed.

Lemma consistent_background b g :
  consistent N g -> consistent N (Session.in_background b g).
Proof.
  intros C.
  destruct b as [| now x count | x | now count | raw c | reads];
    cbn [Session.in_background].
  - apply consistent_on_handler; [ | exact C ].
    intros h. destruct (get_nowait (output_queue h)) as [[x q] | e]; reflexivity.
  - apply consistent_worker_record. exact C.
  - apply consistent_worker_live. exact C.
  - apply consistent_worker. exact C.
  - apply consistent_on_handler; [ | exact C ].
    intros h. apply (kept_streaming (proj1 (channel_turn_any raw c h))).
  - apply consistent_on_handler; [ | exact C ].
    intros h. rewrite data_thread_eq. cbn [snd].
    destruct (streaming h) eqn:Hs; [ | exact Hs ].
    rewrite (kept_streaming (proj1 (ingest_any _ h))). exact Hs.
Qed.

Lemma consistent_happen e g :
  Session.serial [e] = true ->
  consistent N g -> consistent N (snd (Session.happen N rate e g)).
Proof.
  intros Hs C. destruct e as [env | env asleep unlocked collected named | | b].
  - cbn [Session.happen]. unfold bind, ret.
    pose proof (consistent_start rate env C) as H.
    destruct (Session.start_delsys_recording N rate env g) as [[r | e] g'];
      exact H.
  - cbn [Session.serial forallb] in Hs. rewrite andb_true_r in Hs.
    rewrite serial_stop_eq by exact Hs. unfold bind, ret.
    pose proof (consistent_stop rate env C) as H.
    destruct (Session.on_core (App.stop_delsys_recording N rate env) g)
      as [[r | e] g']; exact H.
  - cbn [Session.happen]. unfold bind, ret.
    pose proof (live_data_state N g) as H.
    destruct (Session.live_data N g) as [[r | e] g']; cbn [snd] in *;
      subst g'; exact C.
  - cbn [Session.happen]. unfold modify. cbn [snd].
    apply consistent_background. exact C.
Qed.

Lemma consistent_run events : forall g,
  Session.serial events = true ->
  consistent N g -> consistent N (Session.run N rate events g).
Proof.
  induction events as [| e rest IH]; intros g Hs C; [ exact C | ].
  unfold Session.run. cbn [fold_left].
  unfold Session.serial in Hs. cbn [forallb] in Hs.
  apply andb_prop in Hs as [He Hs].
  apply IH; [ exact Hs | ]. apply consistent_happen; [ | exact C ].
  unfold Session.serial. cbn [forallb]. rewrite He. reflexivity.
Qed.

End ReachableSerial.

Section Served.
Context {L : SciPy}.
Variable N : nat.
Variable rate : float.

(** X14: When no request arrives before the previous one was answered,
    whatever the requests and whatever the worker and data threads do
    between and during them since the server started, no two of the files
    written carry the same name: the binary files carry the trial numbers
    1, 2, ... in the order they were written, the trial counter is one more
    than the last of them, and every file carries the session time that is
    current.  The files are those whose write returned.  The next stop
    request, with a recording in progress, either writes no file and
    leaves the trial counter as it is (so that a binary write that raised
    leaves its name to the next save), or returns success, writes the
    binary file under the trial counter that it found and increments the
    counter. *)
Theorem serial_recordings_are_numbered
    (handler : option DelsysDataHandler) (session_start : option App.datetime)
    (events : list Session.event) :
  Session.serial events = true ->
  let g := Session.run N rate events (Session.initial N handler session_start) in
  let s := Session.core g in
  NoDup (map file_name (App.files s))
  /\ map file_trial (binaries s) = seq 1 (App.trial_counter s - 1)
  /\ (forall f, In f (App.files s) ->
        App.recording_session_start_time s = Some (file_session f))
  /\ forall env asleep unlocked collected named,
       Session.serial
         [Session.stop_recording env asleep unlocked collected named] = true ->
       App.is_recording s = true ->
       let r := Session.stop_request N rate env
                  (Session.run N rate asleep) (Session.run N rate unlocked)
                  (Session.run N rate collected) (Session.run N rate named) g in
       let s' := Session.core (snd r) in
       (exists msg, fst r = Ok (false, msg)
                    /\ App.files s' = App.files s
                    /\ App.trial_counter s' = App.trial_counter s)
       \/ (fst r = Ok (true, App.Recording_saved_successfully (min_samples N s))
           /\ binaries s'
              = binaries s
                ++ [App.bin_file (session_of env s) (App.trial_counter s)
                      (saved_matrix N rate s)]
           /\ App.trial_counter s' = App.trial_counter s + 1).
Proof.
  intros Hs g s.
  destruct (@consistent_run L N rate events _ Hs
              (consistent_initial N handler session_start))
    as [C1 _ _ _ _ C6 C7 C8].
  split; [ exact C8 | split; [ exact C6 | ] ].
  split; [ intros f Hf; apply (C7 f Hf) | ].
  intros env asleep unlocked collected named Hg Hrec r s'.
  cbn [Session.serial forallb] in Hg. rewrite andb_true_r in Hg.
  subst s' r. rewrite serial_stop_request_eq by exact Hg.
  unfold Session.on_core. fold s.
  destruct (@stop_outcomes N rate env s (conj Hrec C1))
    as [(msg & E & _) | [(_ & E) | (_ & E)]]; rewrite E; cbn [fst snd];
    unfold Session.set_core; cbn [Session.core].
  - left. exists msg. repeat split.
  - left. exists App.Error_saving_binary_file. repeat split.
  - right. split; [ reflexivity | ].
    cbn [App.files App.trial_counter]. split; [ | reflexivity ].
    unfold binaries. cbn [App.files]. rewrite filter_app.
    rewrite (proj2 (written_names N rate env s)). reflexivity.
Qed.

(** X15: When no request arrives before the previous one was answered,
    whatever happened since the server started, the rows of the recording
    buffer and the live buffers are all there, a live buffer holds at most
    10 chunks, and a recording in progress has a handler that is
    streaming. *)
Theorem serial_session_state_stays_well_formed
    (handler : option DelsysDataHandler) (session_start : option App.datetime)
    (events : list Session.event) :
  Session.serial events = true ->
  let g := Session.run N rate events (Session.initial N handler session_start) in
  length (App.recording_data_buffer (Session.core g)) = N + 1
  /\ length (Session.live_data_buffers g) = N
  /\ (forall d, In d (Session.live_data_buffers g) ->
        maxlen d = 10 /\ length (items d) <= 10)
  /\ (App.is_recording (Session.core g) = true ->
      exists h, App.handler (Session.core g) = Some h /\ streaming h = true).
Proof.
  intros Hs g.
  destruct (@consistent_run L N rate events _ Hs
              (consistent_initial N handler session_start))
    as [C1 C2 C3 C4 _ _ _ _].
  split; [ exact C1 | split; [ exact C2 | split; [ | exact C4 ] ] ].
  rewrite Forall_forall in C3. exact C3.
Qed.

(** X16: When no request arrives before the previous one was answered,
    whatever happened since the server started and whatever the worker and
    data threads do during it, a stop request does not end in the handler
    of unexpected errors: it reports that nothing is being recorded, that
    no data was captured, that the binary file could not be written, or
    success.  It leaves no recording in progress, and after an active
    session the buffers are empty again, the handler is dropped and the
    start time is reset. *)
Theorem serial_stop_never_reports_an_unexpected_error
    (handler : option DelsysDataHandler) (session_start : option App.datetime)
    (events : list Session.event) (env : App.StopEnv)
    (asleep unlocked collected named : list Session.event) :
  Session.serial
    (events ++ [Session.stop_recording env asleep unlocked collected named])
  = true ->
  let g := Session.run N rate events (Session.initial N handler session_start) in
  let s := Session.core g in
  let r := Session.stop_request N rate env
             (Session.run N rate asleep) (Session.run N rate unlocked)
             (Session.run N rate collected) (Session.run N rate named) g in
  let s' := Session.core (snd r) in
  exists ok msg,
    fst r = Ok (ok, msg)
    /\ msg <> App.Error_stopping_recording
    /\ App.is_recording s' = false
    /\ (App.is_recording s = false -> snd r = g)
    /\ (App.is_recording s = true ->
        App.recording_data_buffer s' = App.empty_buffers N
        /\ App.handler s' = None /\ App.start_time s' = None)
    /\ (ok = true ->
        App.is_recording s = true /\ App.tofile_ok env = true
        /\ msg = App.Recording_saved_successfully (min_samples N s)).
Proof.
  intros Hs g s r s'.
  unfold Session.serial in Hs. rewrite forallb_app in Hs.
  apply andb_prop in Hs as [Hs Hg].
  cbn [forallb] in Hg. rewrite andb_true_r in Hg.
  destruct (@consistent_run L N rate events _ Hs
              (consistent_initial N handler session_start))
    as [C1 _ _ _ _ _ _ _].
  subst s' r. rewrite serial_stop_request_eq by exact Hg.
  unfold Session.on_core. fold s.
  destruct (App.is_recording s) eqn:Hrec.
  - destruct (@stop_outcomes N rate env s (conj Hrec C1))
      as [(msg & E & Hmsg) | [(Hto & E) | (Hto & E)]]; rewrite E; cbn [fst snd];
      unfold Session.set_core; cbn [Session.core].
    + exists false, msg. split; [ reflexivity | ].
      split; [ destruct Hmsg as [-> | ->]; discriminate | ].
      split; [ reflexivity | split; [ discriminate | ] ].
      split; [ intros _; repeat split | discriminate ].
    + exists false, App.Error_saving_binary_file. split; [ reflexivity | ].
      split; [ discriminate | ].
      split; [ reflexivity | split; [ discriminate | ] ].
      split; [ intros _; repeat split | discriminate ].
    + eexists true, _. split; [ reflexivity | ].
      split; [ discriminate | ].
      split; [ reflexivity | split; [ discriminate | ] ].
      split; intros _; repeat split. exact Hto.
  - rewrite stop_idle by exact Hrec. cbn [fst snd].
    unfold Session.set_core; cbn [Session.core].
    exists false, App.No_recording_in_progress. split; [ reflexivity | ].
    split; [ discriminate | ].
    split; [ exact Hrec | split; [ intros _; subst s; destruct g; reflexivity | ] ].
    split; discriminate.
Qed.

(** X17: [start_delsys_recording] never raises.  While a recording is in
    progress it changes nothing.  Otherwise it empties the recording and
    live buffers and resets the start time, whether or not the start
    succeeds; it sets the session time, and the trial counter to 1, only if
    no session time was set; and it succeeds, leaving a streaming handler and
    the recording flag set, exactly when the handler can be built and its
    [start_streaming] returns [True]; after a failure no handler is left. *)
Theorem start_recording_outcome (env : Session.StartEnv) (g : Session.Globals) :
  let r := Session.start_delsys_recording N rate env g in
  let s := Session.core g in
  let s' := Session.core (snd r) in
  exists ok msg,
    fst r = Ok (ok, msg)
    /\ (ok = true <->
        App.is_recording s = false
        /\ exists h0, __init__ N rate false = Ok h0
                      /\ fst (start_streaming (Session.network env) h0) = Ok true)
    /\ (App.is_recording s = true ->
        msg = Session.Recording_already_in_progress /\ snd r = g)
    /\ (App.is_recording s = false ->
        App.is_recording s' = ok
        /\ match App.handler s' with
           | Some h => ok = true /\ streaming h = true
           | None => ok = false
           end
        /\ App.recording_data_buffer s'
           = map (fun _ => []) (App.recording_data_buffer s)
        /\ App.start_time s' = None
        /\ Session.live_data_buffers (snd r)
           = map (fun buffer => deque_clear buffer) (Session.live_data_buffers g)
        /\ App.recording_session_start_time s' = Some (started_session env s)
        /\ App.trial_counter s' = started_counter s
        /\ App.files s' = App.files s).
Proof.
  intros r s s'. subst r s'. destruct (App.is_recording s) eqn:Hrec.
  - unfold Session.start_delsys_recording, try_except, bind, get, ret.
    fold s. rewrite Hrec. cbn [fst snd].
    exists false, Session.Recording_already_in_progress.
    split; [ reflexivity | ].
    split; [ split; [ discriminate | intros [Hc _]; discriminate ] | ].
    split; [ intros _; split; reflexivity | discriminate ].
  - destruct (@start_effect L N rate env g Hrec)
      as (ok & msg & hopt & E & Hok & Hko).
    rewrite E. cbn [fst snd Session.core Session.live_data_buffers
                    App.is_recording App.handler App.recording_data_buffer
                    App.start_time App.recording_session_start_time
                    App.trial_counter App.files].
    exists ok, msg. split; [ reflexivity | ].
    split; [ | split; [ discriminate | ] ].
    + split.
      * intros Ht. split; [ reflexivity | ].
        destruct (Hok Ht) as (_ & h0 & h & Hi & Hs & _).
        exists h0. split; [ exact Hi | rewrite Hs; reflexivity ].
      * intros (_ & h0 & Hi & Hs). destruct ok; [ reflexivity | ].
        destruct (Hko eq_refl) as (_ & [(_ & e & He) | (_ & h1 & Hi1 & Hs1)]);
          congruence.
    + intros _. split; [ reflexivity | ].
      split; [ | repeat split ].
      destruct ok.
      * destruct (Hok eq_refl) as (_ & h0 & h & _ & _ & -> & Hs).
        split; [ reflexivity | exact Hs ].
      * destruct (Hko eq_refl) as (-> & _). reflexivity.
Qed.

(** X18: A recording that is started and stopped before any chunk was recorded
    leaves no file: the stop reports that no data was captured, and the
    files and the trial counter are as the start left them. *)
Theorem start_then_stop_records_nothing
    (env : Session.StartEnv) (env' : App.StopEnv) (g : Session.Globals) :
  App.is_recording (Session.core g) = false ->
  length (App.recording_data_buffer (Session.core g)) = N + 1 ->
  fst (Session.start_delsys_recording N rate env g)
  = Ok (true, Session.Recording_started) ->
  let s1 := Session.core (snd (Session.start_delsys_recording N rate env g)) in
  let r := App.stop_delsys_recording N rate env' s1 in
  fst r = Ok (false, App.No_data_was_captured)
  /\ App.files (snd r) = App.files (Session.core g)
  /\ App.trial_counter (snd r) = started_counter (Session.core g)
  /\ App.is_recording (snd r) = false
  /\ App.handler (snd r) = None.
Proof.
  intros Hidle Hrows Hstart s1 r. subst r s1.
  destruct (@start_effect L N rate env g Hidle)
    as (ok & msg & hopt & E & _ & _).
  rewrite E in Hstart |- *. cbn [fst snd Session.core] in *.
  injection Hstart as -> ->.
  rewrite stop_no_data.
  - cbn [fst snd finalized App.files App.trial_counter App.is_recording
         App.handler App.recording_session_start_time].
    repeat split.
  - split; cbn [App.is_recording App.recording_data_buffer];
      [ reflexivity | rewrite length_map; exact Hrows ].
  - intros i _. unfold channel_buffer. cbn [App.recording_data_buffer].
    change (@nil float) with ((fun _ : list float => @nil float) []) at 2.
    rewrite map_nth. reflexivity.
Qed.

End Served.

(* ================================================================= *)
(** ** Requests that overlap *)

Section Races.
Context {L : SciPy}.
Variable N : nat.
Variable rate : float.

Lemma stop_collect_no_data s :
  length (App.recording_data_buffer s) = N + 1 ->
  (forall i, i < N -> channel_buffer s i = []) ->
  App.stop_collect N rate s
  = (Ok (inl App.No_data_was_captured),
     App.set_start_time None
       (App.set_recording_data_buffer (App.empty_buffers N) s)).
Proof.
  intros Hlen Hempty. unfold App.stop_collect. unfold bind at 1.
  rewrite lengths_of_ok.
  2:{ intros i Hi. apply in_seq in Hi. lia. }
  fold (sample_counts N s).
  assert (Hz : forallb (fun count => count =? 0) (sample_counts N s) = true).
  { apply forallb_forall. intros n Hin. unfold sample_counts in Hin.
    apply in_map_iff in Hin as (i & <- & Hi). apply in_seq in Hi.
    destruct i as [| i]; [ lia | ].
    specialize (Hempty i ltac:(lia)). unfold channel_buffer in Hempty.
    rewrite Hempty. reflexivity. }
  rewrite Hz, orb_true_r. reflexivity.
Qed.

(** X22: A start request that is served while a stop request sleeps (the
    stop has reset the flag and released [recording_lock], lines 175-177)
    and that succeeds: the stop then drops the handler that the start has
    just installed and finds the buffers that the start has just emptied.
    It answers that no data was captured, and leaves a recording in
    progress with no handler: the worker that the start launched ends at
    its next turn, and a further start is refused as long as no stop is
    requested. *)
Theorem start_while_a_stop_sleeps
    (g : Session.Globals) (env : App.StopEnv) (start_env : Session.StartEnv)
    (h0 : DelsysDataHandler) :
  App.is_recording (Session.core g) = true ->
  length (App.recording_data_buffer (Session.core g)) = N + 1 ->
  __init__ N rate false = Ok h0 ->
  fst (start_streaming (Session.network start_env) h0) = Ok true ->
  let r := Session.stop_request N rate env
             (Session.run N rate [Session.start_recording start_env])
             (Session.run N rate []) (Session.run N rate [])
             (Session.run N rate []) g in
  let g' := snd r in
  fst r = Ok (false, App.No_data_was_captured)
  /\ App.is_recording (Session.core g') = true
  /\ App.handler (Session.core g') = None
  /\ (forall now count,
        Session.recording_worker_turn now count g' = (Ok None, g'))
  /\ (forall env',
        Session.start_delsys_recording N rate env' g'
        = (Ok (false, Session.Recording_already_in_progress), g')).
Proof.
  intros Hrec Hlen Hinit Hstart r g'.
  assert (Er : r = (Ok (false, App.No_data_was_captured),
                    Session.MkGlobals
                      (App.MkState None (App.empty_buffers N) true None
                         (Some (started_session start_env (Session.core g)))
                         (started_counter (Session.core g))
                         (App.files (Session.core g)))
                      (map (fun buffer => deque_clear buffer)
                         (Session.live_data_buffers g)))).
  { subst r. rewrite stop_request_steps by exact Hrec. cbv zeta.
    unfold Session.run. cbn [fold_left].
    destruct g as [[hd bufs rec st sess tc fl] live].
    cbn [Session.core App.is_recording App.recording_data_buffer] in *.
    subst rec.
    set (g1 := Session.set_core (App.set_is_recording false _) _).
    assert (Egs : exists hopt,
              snd (Session.happen N rate (Session.start_recording start_env) g1)
              = Session.MkGlobals
                  (App.MkState hopt (map (fun _ => []) bufs) true None
                     (Some (started_session start_env
                              (App.MkState hd bufs true st sess tc fl)))
                     (started_counter (App.MkState hd bufs true st sess tc fl))
                     fl)
                  (map (fun buffer => deque_clear buffer) live)).
    { cbn [Session.happen]. unfold bind.
      destruct (@start_effect L N rate start_env g1 eq_refl)
        as (ok & msg & hopt & E & Hok & Hko).
      destruct ok.
      2:{ destruct (Hko eq_refl) as [_ [[_ [e He]] | [_ (h1 & He & Hf)]]].
          - rewrite He in Hinit. discriminate.
          - rewrite He in Hinit. injection Hinit as ->. rewrite Hf in Hstart.
            discriminate. }
      rewrite E. exists hopt. reflexivity. }
    destruct Egs as [hopt Egs]. rewrite Egs.
    cbn [Session.core Session.set_core Session.live_data_buffers].
    rewrite stop_collect_no_data.
    - reflexivity.
    - cbn [App.set_handler App.recording_data_buffer].
      rewrite length_map. exact Hlen.
    - intros i Hi. unfold channel_buffer.
      cbn [App.set_handler App.recording_data_buffer].
      destruct (nth_in_or_default (S i) (map (fun _ : list float => @nil float) bufs) [])
        as [Hin | Hd]; [ | exact Hd ].
      apply in_map_iff in Hin as (b & Hb & _). symmetry. exact Hb. }
  subst g'. rewrite Er. cbn [fst snd Session.core App.is_recording App.handler].
  split; [ reflexivity | split; [ reflexivity | split; [ reflexivity | ] ] ].
  split; reflexivity.
Qed.

End Races.

(** X23: Two stop requests that overlap write one name twice.  A session
    is recorded and its stop request makes its file names from trial
    counter 1 (line 225); before it writes, a second session is started,
    recorded and stopped, whose stop request also reads trial counter 1,
    writes and increments; the first then writes under the same names and
    increments.  Two binary files and two metadata files carry the trial
    number 1, none carries 2, the counter is 3, and the metadata that the
    first stop writes under the name of trial 1 says trial 2, the value of
    the counter when it is read again at line 254. *)
Theorem overlapping_stops_write_one_name_twice :
  let s := Session.core
             (Session.run (L := AllPass.scipy) 16 2000 overlapping_stops
                (Session.initial 16 None None)) in
  Session.serial overlapping_stops = false
  /\ map file_name (App.files s)
     = [(true, clock, 1); (false, clock, 1); (true, clock, 1); (false, clock, 1)]
  /\ ~ NoDup (map file_name (App.files s))
  /\ map file_trial (binaries s) = [1; 1]
  /\ App.trial_counter s = 3
  /\ (exists m1 m2 meta1 meta2,
        App.files s
        = [App.bin_file clock 1 m1; App.meta_file clock 1 meta1;
           App.bin_file clock 1 m2; App.meta_file clock 1 meta2]
        /\ App.trial_number meta1 = 1 /\ App.trial_number meta2 = 2).
Proof.
  cbv zeta.
  assert (E : map file_name
                (App.files
                   (Session.core
                      (Session.run (L := AllPass.scipy) 16 2000
                         overlapping_stops (Session.initial 16 None None))))
              = [(true, clock, 1); (false, clock, 1); (true, clock, 1);
                 (false, clock, 1)])
    by (vm_compute; reflexivity).
  split; [ reflexivity | split; [ exact E | ] ].
  split.
  { rewrite E. intros Hnd. inversion Hnd as [| x l Hin _]; subst.
    apply Hin. right. left. reflexivity. }
  split; [ vm_compute; reflexivity | split; [ vm_compute; reflexivity | ] ].
  remember (App.files _) as fl eqn:Efl. vm_compute in Efl.
  destruct fl as [| [d1 t1 m1 | ] [| [| d2 t2 meta1] [| [d3 t3 m2 |] [| [| d4 t4 meta2] [|] ]]]];
    try discriminate Efl.
  injection Efl as -> -> -> -> -> -> -> -> -> -> -> ->.
  eexists _, _, _, _. split; [ reflexivity | split; reflexivity ].
Qed.

(* ================================================================= *)
(** ** The live preview *)

Lemma collect_live_ok : forall channels g,
  (forall i, In i channels -> i < length (Session.live_data_buffers g)) ->
  Session.collect_live channels g
  = (Ok (Session.MkResponse (map (live_row g) channels)
           (map (live_label g) channels)), g).
Proof.
  induction channels as [| i rest IH]; intros g H; cbn [Session.collect_live map].
  - reflexivity.
  - unfold bind, get, lift, index.
    rewrite (nth_error_nth' _ (deque_new 0) (H i (or_introl eq_refl))).
    rewrite IH by (intros j Hj; apply H; right; exact Hj).
    reflexivity.
Qed.

Lemma collect_live_raises : forall channels g,
  (exists i, In i channels /\ length (Session.live_data_buffers g) <= i) ->
  exists e, Session.collect_live channels g = (Raise e, g).
Proof.
  induction channels as [| i rest IH]; intros g (j & Hj & Hout);
    [ destruct Hj | ].
  cbn [Session.collect_live]. unfold bind, get, lift, index.
  destruct (nth_error (Session.live_data_buffers g) i) as [d |] eqn:Ed;
    [ | eexists; reflexivity ].
  destruct Hj as [-> | Hj].
  - apply nth_error_None in Hout. congruence.
  - destruct (IH g (ex_intro _ j (conj Hj Hout))) as [e ->].
    eexists; reflexivity.
Qed.

(** X19: [live_data] never raises and changes nothing.  While a recording is in
    progress it shows, for each channel, the samples of the chunks held in
    the live buffer, oldest first, under the label of the newest chunk
    ([Ch<i>] for a channel without chunk); otherwise, and also if a live
    buffer is missing, it shows empty rows under the labels [Ch<i>]. *)
Theorem live_data_shows_buffered_chunks (N : nat) (g : Session.Globals) :
  Session.live_data N g
  = (Ok (if App.is_recording (Session.core g)
            && (N <=? length (Session.live_data_buffers g))
         then Session.MkResponse (map (live_row g) (seq 0 N))
                (map (live_label g) (seq 0 N))
         else Session.empty_response N), g).
Proof.
  unfold Session.live_data, try_except, bind, get.
  destruct (App.is_recording (Session.core g)); cbn [negb andb];
    [ | reflexivity ].
  destruct (Nat.leb_spec N (length (Session.live_data_buffers g))) as [Hle | Hlt].
  - rewrite collect_live_ok; [ reflexivity | ].
    intros i Hi. apply in_seq in Hi. lia.
  - destruct (@collect_live_raises (seq 0 N) g) as [e ->]; [ | reflexivity ].
    exists (length (Session.live_data_buffers g)).
    split; [ apply in_seq; lia | lia ].
Qed.

(* ================================================================= *)
(** ** The recording worker *)

Section Worker.

(** A turn of the worker on a queue that has a chunk. *)
Lemma worker_turn_takes now count g h x rest :
  App.is_recording (Session.core g) = true ->
  App.handler (Session.core g) = Some h -> streaming h = true ->
  qitems (output_queue h) = x :: rest ->
  channel x + 1 < length (App.recording_data_buffer (Session.core g)) ->
  channel x < length (Session.live_data_buffers g) ->
  Session.recording_worker_turn now count g
  = (Ok (Some (count + length (samples x))),
     Session.MkGlobals
       (App.MkState
          (Some (set_output_queue (MkQueue (maxsize (output_queue h)) rest) h))
          (list_set (App.recording_data_buffer (Session.core g)) (channel x + 1)
             (nth (channel x + 1) (App.recording_data_buffer (Session.core g)) []
              ++ samples x))
          true
          (match App.start_time (Session.core g) with
           | Some t0 => Some t0
           | None => if count =? 0 then Some now else None
           end)
          (App.recording_session_start_time (Session.core g))
          (App.trial_counter (Session.core g))
          (App.files (Session.core g)))
       (list_set (Session.live_data_buffers g) (channel x)
          (deque_append (nth (channel x) (Session.live_data_buffers g) (deque_new 0))
             (live_entry_of x)))).
Proof.
  intros Hrec Hh Hs Hq Hrow Hlive.
  destruct g as [[hd bufs rec st sess tc fl] live].
  cbn [Session.core Session.live_data_buffers App.is_recording App.handler
       App.recording_data_buffer App.start_time
       App.recording_session_start_time App.trial_counter App.files] in *.
  subst rec hd.
  unfold Session.recording_worker_turn, bind at 1, get at 1.
  cbn [Session.core App.handler App.is_recording]. rewrite Hs. cbn [andb negb].
  unfold get_nowait. rewrite Hq.
  unfold bind at 1, modify at 1.
  unfold try_except, Session.recording_worker_put, Session.on_core,
    App.recording_worker_record, bind, get, lift, modify, index.
  cbn [Session.core Session.set_core App.set_handler App.is_recording
       App.recording_data_buffer App.start_time].
  rewrite (nth_error_nth' _ [] Hrow).
  assert (Heqb : (count + length (samples x) =? length (samples x)) = (count =? 0)).
  { destruct (Nat.eqb_spec count 0) as [-> | Hne]; [ apply Nat.eqb_refl | ].
    apply Nat.eqb_neq. lia. }
  rewrite Heqb.
  destruct st as [t0 |]; [ | destruct (count =? 0) ];
    unfold ret;
    cbn [Session.core Session.set_core Session.live_data_buffers
         App.set_recording_data_buffer App.set_start_time App.is_recording
         Session.set_live_data_buffers];
    rewrite (nth_error_nth' _ (deque_new 0) Hlive); reflexivity.
Qed.

Lemma worker_loop_idle clock : forall count g h,
  App.handler (Session.core g) = Some h ->
  qitems (output_queue h) = [] ->
  Session.recording_worker_loop clock count g = (Ok tt, g).
Proof.
  induction clock as [| now rest IH]; intros count g h Hh Hq;
    cbn [Session.recording_worker_loop]; [ reflexivity | ].
  unfold bind at 1, Session.recording_worker_turn. unfold bind at 1, get at 1.
  rewrite Hh.
  destruct (negb (App.is_recording (Session.core g) && streaming h));
    [ reflexivity | ].
  unfold get_nowait. rewrite Hq. unfold ret at 1. apply (IH count g h Hh Hq).
Qed.

End Worker.

Lemma chunks_of_cons c x xs :
  chunks_of c (x :: xs)
  = if channel x =? c then x :: chunks_of c xs else chunks_of c xs.
Proof. reflexivity. Qed.

Lemma empty_queue_same (h : DelsysDataHandler) :
  qitems (output_queue h) = [] ->
  set_output_queue (MkQueue (maxsize (output_queue h)) []) h = h.
Proof.
  intros Hq. rewrite <- (set_output_queue_same h) at 3.
  destruct (output_queue h) as [m its]. cbn in Hq |- *. subst its. reflexivity.
Qed.

(** The loop of the worker on a queue that is not refilled meanwhile. *)
Lemma worker_loop_spec (N : nat) : forall ticks count g h,
  App.is_recording (Session.core g) = true ->
  App.handler (Session.core g) = Some h -> streaming h = true ->
  Forall (fun x => channel x < N) (qitems (output_queue h)) ->
  length (App.recording_data_buffer (Session.core g)) = N + 1 ->
  length (Session.live_data_buffers g) = N ->
  Forall chunk_bound (Session.live_data_buffers g) ->
  length (qitems (output_queue h)) <= length ticks ->
  (App.start_time (Session.core g) = None -> count = 0) ->
  let chunks := qitems (output_queue h) in
  let g' := snd (Session.recording_worker_loop ticks count g) in
  fst (Session.recording_worker_loop ticks count g) = Ok tt
  /\ App.handler (Session.core g')
     = Some (set_output_queue (MkQueue (maxsize (output_queue h)) []) h)
  /\ (forall c, c < N ->
        channel_buffer (Session.core g') c
        = channel_buffer (Session.core g) c
          ++ flat_map samples (chunks_of c chunks))
  /\ (forall c, c < N ->
        items (nth c (Session.live_data_buffers g') (deque_new 0))
        = lastn 10 (items (nth c (Session.live_data_buffers g) (deque_new 0))
                    ++ map live_entry_of (chunks_of c chunks)))
  /\ App.start_time (Session.core g')
     = match App.start_time (Session.core g), chunks, ticks with
       | None, _ :: _, now :: _ => Some now
       | st, _, _ => st
       end.
Proof.
  assert (Hdone : forall g h,
            App.handler (Session.core g) = Some h ->
            qitems (output_queue h) = [] ->
            length (Session.live_data_buffers g) = N ->
            Forall chunk_bound (Session.live_data_buffers g) ->
            App.handler (Session.core g)
            = Some (set_output_queue (MkQueue (maxsize (output_queue h)) []) h)
            /\ (forall c, c < N ->
                  channel_buffer (Session.core g) c
                  = channel_buffer (Session.core g) c
                    ++ flat_map samples (chunks_of c []))
            /\ (forall c, c < N ->
                  items (nth c (Session.live_data_buffers g) (deque_new 0))
                  = lastn 10
                      (items (nth c (Session.live_data_buffers g) (deque_new 0))
                       ++ map live_entry_of (chunks_of c [])))).
  { intros g h Hh Hq Hl Hb.
    split; [ rewrite empty_queue_same by exact Hq; exact Hh | ].
    split; intros c Hc; cbn [chunks_of filter flat_map map]; rewrite app_nil_r;
      [ reflexivity | ].
    symmetry. apply lastn_all. rewrite Forall_forall in Hb.
    apply (Hb (nth c (Session.live_data_buffers g) (deque_new 0))).
    apply nth_In. lia. }
  induction ticks as [| now rest IH];
    intros count g h Hrec Hh Hs Hch Hrows Hlive Hbound Hlen Hcount chunks g';
    subst chunks g'.
  - destruct (qitems (output_queue h)) as [| x xs] eqn:Hq;
      [ | cbn [length] in Hlen; lia ].
    cbn [Session.recording_worker_loop]. unfold ret. cbn [fst snd].
    destruct (Hdone g h Hh Hq Hlive Hbound) as (H1 & H2 & H3).
    split; [ reflexivity | split; [ exact H1 | split; [ exact H2 | ] ] ].
    split; [ exact H3 | destruct (App.start_time (Session.core g)); reflexivity ].
  - destruct (qitems (output_queue h)) as [| x xs] eqn:Hq.
    + rewrite (@worker_loop_idle (now :: rest) count g h Hh Hq). cbn [fst snd].
      destruct (Hdone g h Hh Hq Hlive Hbound) as (H1 & H2 & H3).
      split; [ reflexivity | split; [ exact H1 | split; [ exact H2 | ] ] ].
      split; [ exact H3 | destruct (App.start_time (Session.core g)); reflexivity ].
    + apply Forall_cons_iff in Hch as [Hx Hxs].
      pose proof (@worker_turn_takes now count g h x xs Hrec Hh Hs Hq) as Eturn.
      specialize (Eturn ltac:(rewrite Hrows; lia) ltac:(rewrite Hlive; lia)).
      set (h1 := set_output_queue (MkQueue (maxsize (output_queue h)) xs) h) in *.
      match type of Eturn with
      | _ = (Ok (Some ?n), ?gg) => set (g1 := gg) in *; set (n1 := n) in *
      end.
      assert (Eloop : Session.recording_worker_loop (now :: rest) count g
                      = Session.recording_worker_loop rest n1 g1).
      { cbn [Session.recording_worker_loop]. unfold bind at 1.
        rewrite Eturn. reflexivity. }
      rewrite Eloop.
      assert (Hb1 : Forall chunk_bound (Session.live_data_buffers g1)).
      { cbn [g1 Session.live_data_buffers]. apply Forall_list_set_any;
          [ exact Hbound | ].
        rewrite Forall_forall in Hbound.
        destruct (Hbound (nth (channel x) (Session.live_data_buffers g) (deque_new 0)))
          as [Hm Hl]; [ apply nth_In; lia | ].
        split; [ rewrite deque_append_maxlen; exact Hm | ].
        rewrite <- Hm, <- (deque_append_maxlen _ (live_entry_of x)) at 1.
        apply deque_append_bounded. lia. }
      destruct (IH n1 g1 h1) as (R1 & R2 & R3 & R4 & R5);
        try reflexivity; try exact Hb1; try exact Hs.
      * cbn [h1 output_queue set_output_queue qitems]. exact Hxs.
      * cbn [g1 Session.core App.recording_data_buffer].
        rewrite list_set_length. exact Hrows.
      * cbn [g1 Session.live_data_buffers]. rewrite list_set_length. exact Hlive.
      * cbn [h1 output_queue set_output_queue qitems]. cbn [length] in Hlen. lia.
      * cbn [g1 Session.core App.start_time].
        destruct (App.start_time (Session.core g)); [ discriminate | ].
        rewrite (Hcount eq_refl). cbn [Nat.eqb]. discriminate.
      * cbn [h1 output_queue set_output_queue qitems maxsize] in R2, R3, R4, R5.
        split; [ exact R1 | split; [ exact R2 | ] ].
        split; [ | split ].
        -- intros c Hc. rewrite (R3 c Hc), chunks_of_cons.
           unfold channel_buffer at 1. cbn [g1 Session.core App.recording_data_buffer].
           destruct (Nat.eqb_spec (channel x) c) as [<- | Hne].
           ++ rewrite Nat.add_1_r, nth_list_set_eq by lia.
              cbn [flat_map]. rewrite <- app_assoc. reflexivity.
           ++ rewrite nth_list_set_neq by lia. reflexivity.
        -- intros c Hc. rewrite (R4 c Hc), chunks_of_cons.
           cbn [g1 Session.live_data_buffers].
           destruct (Nat.eqb_spec (channel x) c) as [<- | Hne].
           ++ rewrite nth_list_set_eq by lia.
              rewrite Forall_forall in Hbound.
              destruct (Hbound (nth (channel x) (Session.live_data_buffers g)
                                  (deque_new 0))) as [Hm Hl];
                [ apply nth_In; lia | ].
              rewrite deque_append_items by lia. rewrite Hm.
              change Session.LIVE_BUFFER_CHUNKS with 10.
              rewrite lastn_app_lastn. cbn [map]. rewrite <- app_assoc.
              reflexivity.
           ++ rewrite nth_list_set_neq by exact Hne. reflexivity.
        -- rewrite R5. cbn [g1 Session.core App.start_time].
           destruct (App.start_time (Session.core g)) as [t0 |] eqn:Est.
           ++ reflexivity.
           ++ rewrite (Hcount eq_refl). cbn [Nat.eqb].
              destruct xs, rest; reflexivity.
Qed.

(** X20: The worker takes the chunks from the output queue in order, until the
    queue is empty, and never raises on chunks of existing channels.  A
    chunk of channel [c] is appended whole to row [c + 1] of the recording
    buffer, so a row is the concatenation of its chunks in queue order; the
    live buffer of the channel keeps the newest 10 of its chunks; and the
    start time is the clock reading of the first chunk. *)
Theorem worker_records_every_chunk_in_order
    (N : nat) (clock : list float) (g : Session.Globals) (h : DelsysDataHandler) :
  App.is_recording (Session.core g) = true ->
  App.handler (Session.core g) = Some h -> streaming h = true ->
  Forall (fun x => channel x < N) (qitems (output_queue h)) ->
  length (App.recording_data_buffer (Session.core g)) = N + 1 ->
  length (Session.live_data_buffers g) = N ->
  Forall chunk_bound (Session.live_data_buffers g) ->
  length (qitems (output_queue h)) <= length clock ->
  let chunks := qitems (output_queue h) in
  let g' := snd (Session.recording_worker clock g) in
  fst (Session.recording_worker clock g) = Ok tt
  /\ App.handler (Session.core g')
     = Some (set_output_queue (MkQueue (maxsize (output_queue h)) []) h)
  /\ (forall c, c < N ->
        channel_buffer (Session.core g') c
        = channel_buffer (Session.core g) c
          ++ flat_map samples (chunks_of c chunks))
  /\ (forall c, c < N ->
        items (nth c (Session.live_data_buffers g') (deque_new 0))
        = lastn 10 (items (nth c (Session.live_data_buffers g) (deque_new 0))
                    ++ map live_entry_of (chunks_of c chunks)))
  /\ App.start_time (Session.core g')
     = match App.start_time (Session.core g), chunks, clock with
       | None, _ :: _, now :: _ => Some now
       | st, _, _ => st
       end.
Proof.
  intros Hrec Hh Hs Hch Hrows Hlive Hbound Hlen.
  apply (@worker_loop_spec N clock 0 g h); try assumption. reflexivity.
Qed.

(* ================================================================= *)
(** ** From the frames to the file *)

(** A turn of the worker leaves the globals alone, or takes a chunk from
    the queue and records it. *)
Lemma worker_turn_shape now count g :
  snd (Session.recording_worker_turn now count g) = g
  \/ exists x q h,
       snd (Session.recording_worker_turn now count g)
       = snd (Session.recording_worker_put now x count
                (Session.set_core
                   (App.set_handler (Some (set_output_queue q h))
                      (Session.core g)) g)).
Proof.
  remember (snd (Session.recording_worker_turn now count g)) as g' eqn:Eg.
  revert Eg.
  unfold Session.recording_worker_turn. unfold bind at 1, get at 1.
  destruct (App.handler (Session.core g)) as [h |];
    [ | intros ->; left; reflexivity ].
  destruct (negb (App.is_recording (Session.core g) && streaming h));
    [ intros ->; left; reflexivity | ].
  destruct (get_nowait (output_queue h)) as [[x q] | e];
    [ | intros ->; left; reflexivity ].
  intros ->. right. exists x, q, h. unfold bind at 1, modify at 1.
  unfold try_except, bind, ret.
  destruct (Session.recording_worker_put now x count _) as [[n | e] g2];
    reflexivity.
Qed.

(** The worker leaves the recording flag, the session time, the trial
    counter, the files and the number of rows alone. *)
Lemma worker_turn_keeps now count g :
  let g' := snd (Session.recording_worker_turn now count g) in
  App.is_recording (Session.core g') = App.is_recording (Session.core g)
  /\ App.recording_session_start_time (Session.core g')
     = App.recording_session_start_time (Session.core g)
  /\ App.trial_counter (Session.core g') = App.trial_counter (Session.core g)
  /\ App.files (Session.core g') = App.files (Session.core g)
  /\ length (App.recording_data_buffer (Session.core g'))
     = length (App.recording_data_buffer (Session.core g)).
Proof.
  intros g'. subst g'.
  destruct (worker_turn_shape now count g) as [-> | (x & q & h & ->)];
    [ repeat split | ].
  match goal with
  | |- context [ Session.recording_worker_put now x count ?gg ] =>
      destruct (worker_put_effect now x count gg) as (bufs & st & live & E & Hb & _);
      rewrite E
  end.
  cbn [Session.core App.is_recording App.recording_session_start_time
       App.trial_counter App.files App.recording_data_buffer
       App.set_start_time App.set_recording_data_buffer Session.set_core
       App.set_handler] in *.
  repeat split. exact Hb.
Qed.

Lemma worker_loop_keeps : forall ticks count g,
  let g' := snd (Session.recording_worker_loop ticks count g) in
  App.is_recording (Session.core g') = App.is_recording (Session.core g)
  /\ App.recording_session_start_time (Session.core g')
     = App.recording_session_start_time (Session.core g)
  /\ App.trial_counter (Session.core g') = App.trial_counter (Session.core g)
  /\ App.files (Session.core g') = App.files (Session.core g)
  /\ length (App.recording_data_buffer (Session.core g'))
     = length (App.recording_data_buffer (Session.core g)).
Proof.
  induction ticks as [| now rest IH]; intros count g g'; subst g';
    [ repeat split | ].
  remember (snd (Session.recording_worker_loop (now :: rest) count g)) as g'
    eqn:Eg.
  revert Eg. cbn [Session.recording_worker_loop]. unfold bind at 1.
  pose proof (worker_turn_keeps now count g) as Hk.
  destruct (Session.recording_worker_turn now count g) as [[[n |] | e] g1];
    cbn [snd] in Hk |- *; intros ->; try exact Hk.
  destruct (IH n g1) as (H1 & H2 & H3 & H4 & H5).
  destruct Hk as (K1 & K2 & K3 & K4 & K5).
  repeat split; congruence.
Qed.

Lemma chunks_of_none {A} (f : A -> output_data) (c : nat) (l : list A) :
  (forall a, In a l -> channel (f a) <> c) -> chunks_of c (map f l) = [].
Proof.
  induction l as [| a l IH]; intros H; [ reflexivity | ].
  cbn [map]. rewrite chunks_of_cons.
  destruct (Nat.eqb_spec (channel (f a)) c) as [E | _].
  - exfalso. apply (H a); [ left; reflexivity | exact E ].
  - apply IH. intros b Hb. apply H. right. exact Hb.
Qed.

(** Among chunks made one per channel, the chunks of a channel. *)
Lemma chunks_of_one_per_channel (f : nat -> output_data) (c : nat) :
  (forall i, channel (f i) = i) ->
  forall n a, a <= c < a + n -> chunks_of c (map f (seq a n)) = [f c].
Proof.
  intros Hf. induction n as [| n IH]; intros a Hc; [ lia | ].
  cbn [seq map]. rewrite chunks_of_cons, Hf.
  destruct (Nat.eqb_spec a c) as [-> | Hne].
  - f_equal. apply chunks_of_none. intros i Hi. apply in_seq in Hi.
    rewrite Hf. lia.
  - apply IH. lia.
Qed.

Lemma list_min_all (l : list nat) (v : nat) :
  l <> [] -> (forall x, In x l -> x = v) -> App.list_min l = v.
Proof. intros Hne Hall. apply Hall. apply list_min_in. exact Hne. Qed.

Lemma empty_buffers_nth (n i : nat) : nth i (App.empty_buffers n) [] = [].
Proof.
  unfold App.empty_buffers. generalize (seq 0 (n + 1)). intros l. revert i.
  induction l as [| a l IH]; intros [| i]; cbn [map nth]; auto.
Qed.

Section CycleQueue.
Context {L : SciPy} {LL : SciPyLaws L}.

(** A drain cycle on an empty queue: one chunk per channel, in channel
    order, each from a window of 75 samples. *)
Lemma uniform_cycle_calls (h : DelsysDataHandler) (k : nat)
    (frames : list (list float)) :
  wf h ->
  (forall c, c < NUM_SENSORS h -> buffer h c = []) ->
  Forall (fun raw => length raw = k * NUM_SENSORS h) frames ->
  (length frames - 1) * k < 75 -> 75 <= length frames * k ->
  let received c := flat_map (slice_from_step c (NUM_SENSORS h)) frames in
  (qitems (output_queue h) = [] -> NUM_SENSORS h <= 1000 ->
   qitems (output_queue (ingest frames h))
   = map (chunk_of h)
       (map (fun c => (c, lastn 75 (received c))) (seq 0 (NUM_SENSORS h))))
  /\ forall c, c < NUM_SENSORS h -> length (lastn 75 (received c)) = 75.
Proof.
  intros W Hempty Hlen Hlt Hge received.
  destruct (@cycle_uniform L LL k frames h (fun _ => []) 0 W) as (_ & Q & _);
    [ intros c Hc; split; [ apply Hempty; exact Hc | reflexivity ]
    | exact Hlen | lia | lia | ].
  cbn [app] in Q. split.
  - intros Hq Hmax. rewrite Q, Hq. cbn [app]. apply lastn_all.
    rewrite !length_map, length_seq. exact Hmax.
  - intros c Hc.
    assert (Hrec : length (received c) = length frames * k).
    { unfold received. clear - Hlen Hc. induction Hlen as [| raw rest Hraw _ IH];
        [ reflexivity | ].
      cbn [flat_map length]. rewrite length_app, IH.
      destruct (NUM_SENSORS h) as [| s]; [ lia | ].
      rewrite slice_from_step_length with (n := k); [ lia | exact Hraw | lia ]. }
    rewrite lastn_length, Hrec. lia.
Qed.

End CycleQueue.

Section EndToEnd.
Context {L : SciPy} {LL : SciPyLaws L}.

(** X21: One drain cycle recorded and saved.  A session has just started (a
    streaming handler with empty buffers and an empty queue, empty recording
    rows, no start time); the handler then receives frames that bring [k]
    samples to every channel, up to the frame that fills the window; the
    worker empties the queue; and the recording is stopped with a binary
    write that succeeds.  The file then holds, for each channel, the output
    of the pipeline on the newest 75 samples the channel received, 75 values
    long, under the timestamps [now + i / SAMPLING_RATE], [now] being the
    clock reading at the first chunk; it carries the current trial number,
    and the stop reports 75 saved samples.  (At most 1000 channels, so that
    the queue holds the chunks of a cycle.) *)
Theorem one_cycle_from_frames_to_file
    (rate : float) (h : DelsysDataHandler) (k : nat)
    (frames : list (list float)) (now : float) (ticks : list float)
    (env : App.StopEnv) (g : Session.Globals) :
  wf h -> streaming h = true -> 0 < NUM_SENSORS h <= 1000 ->
  (forall c, c < NUM_SENSORS h -> buffer h c = []) ->
  qitems (output_queue h) = [] ->
  Forall (fun raw => length raw = k * NUM_SENSORS h) frames ->
  (length frames - 1) * k < 75 -> 75 <= length frames * k ->
  App.is_recording (Session.core g) = true ->
  App.recording_data_buffer (Session.core g) = App.empty_buffers (NUM_SENSORS h) ->
  App.start_time (Session.core g) = None ->
  length (Session.live_data_buffers g) = NUM_SENSORS h ->
  Forall chunk_bound (Session.live_data_buffers g) ->
  NUM_SENSORS h <= length ticks ->
  App.tofile_ok env = true ->
  let N := NUM_SENSORS h in
  let received c := flat_map (slice_from_step c N) frames in
  let g1 := Session.set_core
              (App.set_handler (Some (ingest frames h)) (Session.core g)) g in
  let g2 := snd (Session.recording_worker (now :: ticks) g1) in
  let r := App.stop_delsys_recording N rate env (Session.core g2) in
  exists filtered : nat -> list float,
    (forall c, c < N ->
       process_emg_channel h (lastn 75 (received c)) = Ok (filtered c)
       /\ length (filtered c) = 75)
    /\ fst r = Ok (true, App.Recording_saved_successfully 75)
    /\ App.trial_counter (snd r) = App.trial_counter (Session.core g) + 1
    /\ exists metadata,
         App.files (snd r)
         = App.files (Session.core g)
           ++ App.bin_file (session_of env (Session.core g))
                (App.trial_counter (Session.core g))
                (map (fun i => (now + float_of_nat i / rate)%float) (seq 0 75)
                 :: map filtered (seq 0 N))
              :: metadata.
Proof.
  intros W Hs [HN Hmax] Hempty Hq Hlen Hlt Hge Hrec Hrows Hst Hlive Hbound Hticks
    Hto N received g1 g2 r.
  (* the handler: one call per channel *)
  destruct (@uniform_cycle_calls L LL h k frames W Hempty Hlen Hlt Hge)
    as (Hcalls & Hwin).
  specialize (Hcalls Hq Hmax).
  change (qitems (output_queue (ingest frames h))
          = map (chunk_of h)
              (map (fun c => (c, lastn 75 (received c))) (seq 0 N))) in Hcalls.
  change (forall c, c < N -> length (lastn 75 (received c)) = 75) in Hwin.
  set (h1 := ingest frames h) in *.
  (* the pipeline returns on every window *)
  assert (Hfilt : forall c, c < N ->
            exists y, process_emg_channel h (lastn 75 (received c)) = Ok y
                      /\ length y = 75).
  { intros c Hc.
    destruct (@process_emg_channel_returns L LL h (lastn 75 (received c))
                (wf_filters W)) as (y & Ey & Ly).
    - rewrite (Hwin c Hc). lia.
    - exists y. split; [ exact Ey | ]. rewrite Ly. apply Hwin. exact Hc. }
  set (filtered := fun c =>
         match process_emg_channel h (lastn 75 (received c)) with
         | Ok y => y
         | Raise _ => []
         end).
  assert (Hfiltered : forall c, c < N ->
            process_emg_channel h (lastn 75 (received c)) = Ok (filtered c)
            /\ length (filtered c) = 75).
  { intros c Hc. destruct (Hfilt c Hc) as (y & Ey & Ly). unfold filtered.
    rewrite Ey. split; [ reflexivity | exact Ly ]. }
  exists filtered. split; [ exact Hfiltered | ].
  (* the worker: one chunk per channel *)
  assert (Hrows1 : length (App.recording_data_buffer (Session.core g1)) = N + 1).
  { cbn [g1 Session.core Session.set_core App.set_handler
         App.recording_data_buffer]. rewrite Hrows. unfold App.empty_buffers.
    rewrite length_map, length_seq. reflexivity. }
  destruct (@worker_loop_spec N (now :: ticks) 0 g1 h1) as (_ & _ & Hbuf & _ & Hstart);
    try reflexivity; try assumption.
  { destruct (ingest_any frames h) as (D & _). unfold h1.
    rewrite (kept_streaming D). exact Hs. }
  { fold h1. rewrite Hcalls. apply Forall_map, Forall_map, Forall_forall.
    intros c Hc. apply in_seq in Hc. cbn. lia. }
  { fold h1. rewrite Hcalls, !length_map, length_seq. cbn [length]. lia. }
  fold h1 in Hbuf, Hstart. rewrite Hcalls in Hbuf, Hstart.
  destruct (worker_loop_keeps (now :: ticks) 0 g1) as (K1 & K2 & K3 & K4 & K5).
  fold (Session.recording_worker (now :: ticks) g1) in K1, K2, K3, K4, K5, Hbuf, Hstart.
  fold g2 in K1, K2, K3, K4, K5, Hbuf, Hstart.
  cbn [g1 Session.core Session.set_core App.set_handler App.is_recording
       App.recording_session_start_time App.trial_counter App.files
       App.start_time] in K1, K2, K3, K4, Hstart.
  set (s2 := Session.core g2) in *.
  assert (Hrow : forall c, c < N -> channel_buffer s2 c = filtered c).
  { intros c Hc. rewrite (Hbuf c Hc).
    unfold channel_buffer at 1.
    cbn [g1 Session.core Session.set_core App.set_handler
         App.recording_data_buffer].
    rewrite Hrows, empty_buffers_nth. cbn [app]. rewrite map_map.
    rewrite chunks_of_one_per_channel with (c := c);
      [ | intros i; reflexivity | lia ].
    cbn [flat_map chunk_of samples fst snd]. rewrite app_nil_r. reflexivity. }
  assert (Hstart2 : App.start_time s2 = Some now).
  { rewrite Hstart, Hst. assert (Hpos : 0 < N) by exact HN.
    destruct (seq 0 N) eqn:Eseq; [ | reflexivity ].
    apply (f_equal (@length nat)) in Eseq. rewrite length_seq in Eseq.
    cbn [length] in Eseq. lia. }
  assert (Hmin : min_samples N s2 = 75).
  { unfold min_samples. apply list_min_all.
    - unfold sample_counts. intros Enil. assert (Hpos : 0 < N) by exact HN.
      apply (f_equal (@length nat)) in Enil.
      rewrite length_map, length_seq in Enil. cbn [length] in Enil. lia.
    - intros x Hx. unfold sample_counts in Hx. apply in_map_iff in Hx as (i & <- & Hi).
      apply in_seq in Hi. destruct i as [| i]; [ lia | ].
      fold (channel_buffer s2 i). rewrite Hrow by lia. apply Hfiltered. lia. }
  assert (Hact : active N s2).
  { split; [ rewrite K1; exact Hrec | rewrite K5; exact Hrows1 ]. }
  subst r. rewrite (@stop_saves N rate env s2 Hact HN).
  2:{ intros i Hi. rewrite Hrow by exact Hi. destruct (Hfiltered i Hi) as [_ Hl].
      destruct (filtered i); [ discriminate | discriminate ]. }
  rewrite Hto. cbn [fst snd App.trial_counter App.files]. rewrite Hmin, K3, K4.
  split; [ reflexivity | split; [ reflexivity | ] ].
  exists (if App.savemat_ok env
          then [App.meta_file (session_of env s2) (App.trial_counter s2)
                  (saved_meta N rate env s2)]
          else []).
  unfold written. do 2 f_equal. f_equal.
  - unfold session_of. rewrite K2. reflexivity.
  - exact K3.
  - unfold saved_matrix, timestamps. rewrite Hmin, Hstart2. f_equal.
    apply map_ext_in. intros c Hc. apply in_seq in Hc. rewrite Hrow by lia.
    apply firstn_all2. destruct (Hfiltered c) as [_ ->]; lia.
Qed.

End EndToEnd.

(* ================================================================= *)
(** ** Examples of the further properties *)

(** A read of 1728 zero bytes, for a reply that selects the default
    profile. *)
Lemma negotiated_frame_feeds_every_channel_witness :
  exists samples_array,
    unpack_floats (repeat Init.Byte.x00 1728) = Some samples_array
    /\ forall c, c < 16 ->
         length (slice_from_step c 16 samples_array)
         = if contains "1925" "2000.000" then 26 else 27.
Proof.
  apply (@negotiated_frame_feeds_every_channel "2000.000"
           (repeat Init.Byte.x00 1728)).
  vm_compute. reflexivity.
Defined.

(** The handler of the application on a network that selects the alternate
    profile; then a read of 1664 bytes, a read of 1728 bytes and a socket
    error. *)
Lemma started_thread_reads_negotiated_frames_witness :
  let net := cooperative "1925.926" in
  let reads := [Ok (repeat Init.Byte.x00 1664); Ok (repeat Init.Byte.x00 1728);
                Raise SocketError] in
  let h' := snd (start_streaming (L := AllPass.scipy) net built_handler) in
  fst (start_streaming (L := AllPass.scipy) net built_handler) = Ok true
  /\ streaming h' = true
  /\ SAMPLING_RATE h' = profile_rate "1925.926"
  /\ designed_for (L := AllPass.scipy) (profile_rate "1925.926") h'
  /\ emg_data_thread (L := AllPass.scipy) reads h'
     = (Ok tt,
        ingest (L := AllPass.scipy)
          (accepted_frames (profile_bytes "1925.926") reads) h').
Proof.
  intros net reads.
  apply (@started_thread_reads_negotiated_frames AllPass.scipy AllPass_laws
           net built_handler "1925.926" 2000%Z reads);
    first [ exact built_handler_designed | reflexivity | intros cmd; reflexivity ].
Defined.

(** The handler of the application and three frames of the alternate
    profile: 78 samples per channel, of which the 3 oldest are dropped. *)
Lemma uniform_frames_drain_cycle_witness :
  let h := built_handler in
  let frames := [alt_frame 0; alt_frame 416; alt_frame 832] in
  let received c := flat_map (slice_from_step c (NUM_SENSORS h)) frames in
  let calls := map (fun c => (c, lastn 75 (received c))) (seq 0 (NUM_SENSORS h)) in
  let h' := ingest (L := AllPass.scipy) frames h in
  filter_passes h' = filter_passes h ++ calls
  /\ qitems (output_queue h')
     = lastn 1000 (qitems (output_queue h)
                   ++ map (chunk_of (H := AllPass.scipy) h) calls)
  /\ forall c, c < NUM_SENSORS h ->
       length (received c) = length frames * 26
       /\ received c
          = firstn (length frames * 26 - 75) (received c) ++ lastn 75 (received c)
       /\ buffer h' c = [].
Proof.
  intros h frames.
  apply (@uniform_frames_drain_cycle AllPass.scipy AllPass_laws h 26 frames).
  - exact built_handler_wf.
  - intros c Hc. apply built_handler_empty. exact Hc.
  - repeat constructor.
  - cbn. lia.
  - cbn. lia.
Defined.

(** The application as loaded, on a network that cooperates, stopped at
    once. *)
Lemma start_then_stop_records_nothing_witness :
  let env := Session.MkStartEnv clock (cooperative "2000.000") in
  let g := Session.initial 16 None None in
  let s1 := Session.core
              (snd (Session.start_delsys_recording (L := AllPass.scipy)
                      16 2000 env g)) in
  let r := App.stop_delsys_recording 16 2000 saving s1 in
  fst r = Ok (false, App.No_data_was_captured)
  /\ App.files (snd r) = App.files (Session.core g)
  /\ App.trial_counter (snd r) = started_counter (Session.core g)
  /\ App.is_recording (snd r) = false
  /\ App.handler (snd r) = None.
Proof.
  intros env g.
  apply (@start_then_stop_records_nothing AllPass.scipy 16 2000%float env saving g).
  - reflexivity.
  - reflexivity.
  - vm_compute. reflexivity.
Defined.

(** Two channels and three chunks waiting, for channels 0, 1 and 0. *)
Lemma worker_records_every_chunk_in_order_witness :
  let g := recording_globals in
  let h := queued_handler in
  let ticks := [10; 11; 12; 13]%float in
  let chunks := qitems (output_queue h) in
  let g' := snd (Session.recording_worker ticks g) in
  fst (Session.recording_worker ticks g) = Ok tt
  /\ App.handler (Session.core g')
     = Some (set_output_queue (MkQueue (maxsize (output_queue h)) []) h)
  /\ (forall c, c < 2 ->
        channel_buffer (Session.core g') c
        = channel_buffer (Session.core g) c
          ++ flat_map samples (chunks_of c chunks))
  /\ (forall c, c < 2 ->
        items (nth c (Session.live_data_buffers g') (deque_new 0))
        = lastn 10 (items (nth c (Session.live_data_buffers g) (deque_new 0))
                    ++ map live_entry_of (chunks_of c chunks)))
  /\ App.start_time (Session.core g')
     = match App.start_time (Session.core g), chunks, ticks with
       | None, _ :: _, now :: _ => Some now
       | st, _, _ => st
       end.
Proof.
  intros g h ticks.
  apply (@worker_records_every_chunk_in_order 2 ticks g h).
  - reflexivity.
  - reflexivity.
  - reflexivity.
  - repeat constructor.
  - reflexivity.
  - reflexivity.
  - repeat constructor.
  - cbn. lia.
Defined.

Lemma streaming_handler_wf : wf (H := AllPass.scipy) streaming_handler.
Proof.
  destruct built_handler_wf as [W1 W2 W3 W4 W5 [F1 F2 F3 F4]].
  split; try assumption. split; assumption.
Qed.

(** The handler of the application, streaming, on three frames of the
    default profile; sixteen turns of the worker after the first. *)
Lemma one_cycle_from_frames_to_file_witness :
  let h := streaming_handler in
  let frames := [ramp_frame 0; ramp_frame 432; ramp_frame 864] in
  let now := 1000%float in
  let ticks := repeat 1001%float 16 in
  let g := started_globals in
  let N := NUM_SENSORS h in
  let received c := flat_map (slice_from_step c N) frames in
  let g1 := Session.set_core
              (App.set_handler
                 (Some (ingest (L := AllPass.scipy) frames h)) (Session.core g)) g in
  let g2 := snd (Session.recording_worker (now :: ticks) g1) in
  let r := App.stop_delsys_recording N 2000 saving (Session.core g2) in
  exists filtered : nat -> list float,
    (forall c, c < N ->
       process_emg_channel (L := AllPass.scipy) h (lastn 75 (received c))
       = Ok (filtered c)
       /\ length (filtered c) = 75)
    /\ fst r = Ok (true, App.Recording_saved_successfully 75)
    /\ App.trial_counter (snd r) = App.trial_counter (Session.core g) + 1
    /\ exists metadata,
         App.files (snd r)
         = App.files (Session.core g)
           ++ App.bin_file (session_of saving (Session.core g))
                (App.trial_counter (Session.core g))
                (map (fun i => (now + float_of_nat i / 2000)%float) (seq 0 75)
                 :: map filtered (seq 0 N))
              :: metadata.
Proof.
  intros h frames now ticks g.
  apply (@one_cycle_from_frames_to_file AllPass.scipy AllPass_laws 2000%float
           h 27 frames now ticks saving g).
  - exact streaming_handler_wf.
  - reflexivity.
  - vm_compute. lia.
  - intros c Hc. apply (built_handler_empty Hc).
  - reflexivity.
  - repeat constructor.
  - cbn. lia.
  - cbn. lia.
  - reflexivity.
  - reflexivity.
  - reflexivity.
  - reflexivity.
  - repeat constructor.
  - vm_compute. lia.
  - reflexivity.
Defined.

(** After a session that was saved and during a second one, and the stop of
    the second. *)
Lemma serial_recordings_are_numbered_witness :
  let g := Session.run (L := AllPass.scipy) 16 2000 serial_history
             (Session.initial 16 None None) in
  let s := Session.core g in
  let r := Session.stop_request 16 2000 saving
             (Session.run (L := AllPass.scipy) 16 2000 [Session.meanwhile Session.worker_get])
             (Session.run (L := AllPass.scipy) 16 2000 []) (Session.run (L := AllPass.scipy) 16 2000 [])
             (Session.run (L := AllPass.scipy) 16 2000 [Session.meanwhile (Session.worker_turn 1002 0)])
             g in
  let s' := Session.core (snd r) in
  NoDup (map file_name (App.files s))
  /\ map file_trial (binaries s) = seq 1 (App.trial_counter s - 1)
  /\ (forall f, In f (App.files s) ->
        App.recording_session_start_time s = Some (file_session f))
  /\ ((exists msg, fst r = Ok (false, msg)
                   /\ App.files s' = App.files s
                   /\ App.trial_counter s' = App.trial_counter s)
      \/ (fst r = Ok (true, App.Recording_saved_successfully (min_samples 16 s))
          /\ binaries s'
             = binaries s
               ++ [App.bin_file (session_of saving s) (App.trial_counter s)
                     (saved_matrix 16 2000 s)]
          /\ App.trial_counter s' = App.trial_counter s + 1)).
Proof.
  cbv zeta.
  destruct (@serial_recordings_are_numbered AllPass.scipy 16 2000%float
              None None serial_history eq_refl) as (H1 & H2 & H3 & H4).
  split; [ exact H1 | split; [ exact H2 | split; [ exact H3 | ] ] ].
  apply (H4 saving [Session.meanwhile Session.worker_get] [] []
           [Session.meanwhile (Session.worker_turn 1002 0)] eq_refl).
  vm_compute. reflexivity.
Defined.

Lemma serial_session_state_stays_well_formed_witness :
  let g := Session.run (L := AllPass.scipy) 16 2000 serial_history
             (Session.initial 16 None None) in
  length (App.recording_data_buffer (Session.core g)) = 16 + 1
  /\ length (Session.live_data_buffers g) = 16
  /\ (forall d, In d (Session.live_data_buffers g) ->
        maxlen d = 10 /\ length (items d) <= 10)
  /\ (App.is_recording (Session.core g) = true ->
      exists h, App.handler (Session.core g) = Some h /\ streaming h = true).
Proof.
  exact (@serial_session_state_stays_well_formed AllPass.scipy 16 2000%float
           None None serial_history eq_refl).
Defined.

Lemma serial_stop_never_reports_an_unexpected_error_witness :
  let g := Session.run (L := AllPass.scipy) 16 2000 one_session
             (Session.initial 16 None None) in
  let s := Session.core g in
  let r := Session.stop_request 16 2000 saving
             (Session.run (L := AllPass.scipy) 16 2000 [Session.meanwhile Session.worker_get])
             (Session.run (L := AllPass.scipy) 16 2000 []) (Session.run (L := AllPass.scipy) 16 2000 [])
             (Session.run (L := AllPass.scipy) 16 2000 [Session.meanwhile (Session.worker_turn 1002 0)])
             g in
  let s' := Session.core (snd r) in
  exists ok msg,
    fst r = Ok (ok, msg)
    /\ msg <> App.Error_stopping_recording
    /\ App.is_recording s' = false
    /\ (App.is_recording s = false -> snd r = g)
    /\ (App.is_recording s = true ->
        App.recording_data_buffer s' = App.empty_buffers 16
        /\ App.handler s' = None /\ App.start_time s' = None)
    /\ (ok = true ->
        App.is_recording s = true /\ App.tofile_ok saving = true
        /\ msg = App.Recording_saved_successfully (min_samples 16 s)).
Proof.
  exact (@serial_stop_never_reports_an_unexpected_error AllPass.scipy 16
           2000%float None None one_session saving
           [Session.meanwhile Session.worker_get] [] []
           [Session.meanwhile (Session.worker_turn 1002 0)] eq_refl).
Defined.

(** On the globals just after a start. *)
Lemma start_while_a_stop_sleeps_witness :
  let g := started_globals in
  let start_env := Session.MkStartEnv clock (cooperative "2000.000") in
  let r := Session.stop_request 16 2000 saving
             (Session.run (L := AllPass.scipy) 16 2000 [Session.start_recording start_env])
             (Session.run (L := AllPass.scipy) 16 2000 []) (Session.run (L := AllPass.scipy) 16 2000 [])
             (Session.run (L := AllPass.scipy) 16 2000 []) g in
  let g' := snd r in
  fst r = Ok (false, App.No_data_was_captured)
  /\ App.is_recording (Session.core g') = true
  /\ App.handler (Session.core g') = None
  /\ (forall now count,
        Session.recording_worker_turn now count g' = (Ok None, g'))
  /\ (forall env',
        Session.start_delsys_recording (L := AllPass.scipy) 16 2000 env' g'
        = (Ok (false, Session.Recording_already_in_progress), g')).
Proof.
  apply (@start_while_a_stop_sleeps AllPass.scipy 16 2000%float started_globals
           saving (Session.MkStartEnv clock (cooperative "2000.000"))
           built_handler).
  - reflexivity.
  - reflexivity.
  - reflexivity.
  - vm_compute. reflexivity.
Defined.
